(** * Konsole's ScreenWindow and its fold table

    A shallow embedding of [src/ScreenWindow.h] and [src/ScreenWindow.cpp]:
    the [Folds] support class (fold points kept in four [QBitArray]s and the
    stack scan of [updateVisibleLines]) and the parts of [ScreenWindow] that
    scroll, filter and materialise the window.

    C++ [int]s are integers of [Z]; the arithmetic of the source stays far
    from the limits of [int] (line numbers and line counts), so no overflow
    is modelled.  A failed [Q_ASSERT], a bit index outside a [QBitArray] and a
    [pop] of an empty [QStack] are faults: the function stops with an error
    instead of a value. *)

From Stdlib Require Import ZArith Lia Bool List String.
From stdpp Require Import base list.
Import ListNotations.
Local Open Scope Z_scope.

(** ** Faults and the error monad *)

Inductive fault : Set :=
| AssertFailed      (* a Q_ASSERT of the source does not hold *)
| IndexOutOfRange   (* QBitArray::testBit / setBit outside 0 .. size-1 *)
| PopEmptyStack.    (* QStack::pop on an empty stack *)

Inductive result (A : Type) : Type :=
| Ok (a : A)
| Fault (e : fault).
Arguments Ok {A} a.
Arguments Fault {A} e.

Definition bind {A B : Type} (m : result A) (k : A -> result B) : result B :=
  match m with
  | Ok a => k a
  | Fault e => Fault e
  end.

Notation "'let*' x ':=' m 'in' k" := (bind m (fun x => k))
  (at level 10, x name, m at level 100, k at level 200).
Notation "'let*' ' p ':=' m 'in' k" := (bind m (fun p => k))
  (at level 10, p strict pattern, m at level 100, k at level 200).

(** [Q_ASSERT(cond)] *)
Definition Q_ASSERT (cond : bool) : result unit :=
  if cond then Ok tt else Fault AssertFailed.

(** [for (int i = lo; i < hi; i++) body] without [break]: [n] iterations
    left, the loop variable at [i]. *)
Fixpoint for_loop {S : Type} (n : nat) (i : Z)
         (body : Z -> S -> result S) (s : S) : result S :=
  match n with
  | O => Ok s
  | Datatypes.S n' => let* s' := body i s in for_loop n' (i + 1) body s'
  end.

Definition for_range {S : Type} (lo hi : Z)
           (body : Z -> S -> result S) (s : S) : result S :=
  for_loop (Z.to_nat (hi - lo)) lo body s.

(** ** Qt primitives used by the source *)

(** [qMin], [qMax] and [qBound] of QtGlobal; [qBound(min,val,max)] is
    [qMax(min, qMin(max, val))]. *)
Definition qMin (a b : Z) : Z := if a <? b then a else b.
Definition qMax (a b : Z) : Z := if a <? b then b else a.
Definition qBound (min val max : Z) : Z := qMax min (qMin max val).

(** [QBitArray]: a resizable array of bits, here a list of booleans. *)
Abbreviation QBitArray := (list bool).

Module QBitArray.

(** [size()] and [count()] *)
Definition size (a : QBitArray) : Z := Z.of_nat (length a).

(** [testBit(i)]: the bit at [i]; [i] must be a valid index. *)
Definition testBit (a : QBitArray) (i : Z) : result bool :=
  if (0 <=? i) && (i <? size a) then
    match a !! Z.to_nat i with
    | Some b => Ok b
    | None => Fault IndexOutOfRange
    end
  else Fault IndexOutOfRange.

(** [setBit(i, value)], also [a[i] = value]; [i] must be a valid index. *)
Definition setBit (a : QBitArray) (i : Z) (value : bool) : result QBitArray :=
  if (0 <=? i) && (i <? size a) then Ok (<[Z.to_nat i := value]> a)
  else Fault IndexOutOfRange.

(** [fill(value)]: every bit becomes [value], the size stays. *)
Definition fill (value : bool) (a : QBitArray) : QBitArray :=
  replicate (length a) value.

(** [fill(value, size)]: the array is resized to [size] and every bit
    becomes [value]. *)
Definition fill_size (value : bool) (n : Z) (a : QBitArray) : QBitArray :=
  replicate (Z.to_nat n) value.

(** [resize(size)]: the first bits are kept, new bits are false. *)
Definition resize (n : Z) (a : QBitArray) : QBitArray :=
  list.resize (Z.to_nat n) false a.

(** [count(on)]: the number of bits equal to [on]. *)
Fixpoint count (on : bool) (a : QBitArray) : Z :=
  match a with
  | [] => 0
  | b :: a' => (if Bool.eqb b on then 1 else 0) + count on a'
  end.

End QBitArray.

(** [QStack<bool>::contains(value)] *)
Definition stack_contains (value : bool) (stack : list bool) : bool :=
  existsb (Bool.eqb value) stack.

(** ** Folds *)

Module Folds.

Inductive Type_ : Set := FoldNone | FoldStart | FoldEnd.

Definition Type_eqb (a b : Type_) : bool :=
  match a, b with
  | FoldNone, FoldNone | FoldStart, FoldStart | FoldEnd, FoldEnd => true
  | _, _ => false
  end.

Record t : Type := mk {
  _enabled : bool;
  _foldStarts : QBitArray;
  _foldEnds : QBitArray;
  _expanded : QBitArray;
  _filteredLines : QBitArray;
  _visibleLines : Z
}.

(** The class has no constructor: the bit arrays start empty, [_enabled]
    and [_visibleLines] start with whatever the memory holds. *)
Definition new (enabled : bool) (visibleLines : Z) : t :=
  {| _enabled := enabled;
     _foldStarts := [];
     _foldEnds := [];
     _expanded := [];
     _filteredLines := [];
     _visibleLines := visibleLines |}.

Definition setLineCount (f : t) (size : Z) : t :=
  if negb (QBitArray.size (_foldStarts f) =? size) then
    {| _foldStarts := QBitArray.resize size (_foldStarts f);
       _foldEnds := QBitArray.resize size (_foldEnds f);
       _filteredLines := QBitArray.fill_size true size (_filteredLines f);
       _expanded := QBitArray.resize size (_expanded f);
       _enabled := _enabled f;
       _visibleLines := _visibleLines f |}
  else f.

Definition type (f : t) (line : Z) : result Type_ :=
  if negb (_enabled f) then Ok FoldNone
  else
    let screenLine := line in
    let* isStart := QBitArray.testBit (_foldStarts f) screenLine in
    if isStart then Ok FoldStart
    else
      let* isEnd := QBitArray.testBit (_foldEnds f) screenLine in
      if isEnd then Ok FoldEnd else Ok FoldNone.

Definition isOpen (f : t) (line : Z) : result bool :=
  let* ty := type f line in
  let* _ := Q_ASSERT (Type_eqb ty FoldStart) in
  QBitArray.testBit (_expanded f) line.

Definition setOpen (f : t) (line : Z) (open : bool) : result t :=
  let* ty := type f line in
  let* _ := Q_ASSERT (Type_eqb ty FoldStart) in
  let* expanded := QBitArray.setBit (_expanded f) line open in
  Ok {| _expanded := expanded;
        _enabled := _enabled f;
        _foldStarts := _foldStarts f;
        _foldEnds := _foldEnds f;
        _filteredLines := _filteredLines f;
        _visibleLines := _visibleLines f |}.

Definition setFold (f : t) (startLine endLine : Z) (fold : bool) : result t :=
  let* _ := Q_ASSERT (startLine <=? endLine) in
  let enabled := true in
  let* startBit := QBitArray.testBit (_foldStarts f) startLine in
  let* endBit := QBitArray.testBit (_foldEnds f) endLine in
  let* _ := Q_ASSERT (Bool.eqb startBit endBit) in
  let* foldStarts := QBitArray.setBit (_foldStarts f) startLine fold in
  let* foldEnds := QBitArray.setBit (_foldEnds f) endLine fold in
  let* expanded := QBitArray.setBit (_expanded f) startLine false in
  Ok {| _enabled := enabled;
        _foldStarts := foldStarts;
        _foldEnds := foldEnds;
        _expanded := expanded;
        _filteredLines := _filteredLines f;
        _visibleLines := _visibleLines f |}.

Definition removeAll (f : t) : t :=
  {| _foldStarts := QBitArray.fill false (_foldStarts f);
     _foldEnds := QBitArray.fill false (_foldEnds f);
     _filteredLines := QBitArray.fill true (_filteredLines f);
     _expanded := QBitArray.fill false (_expanded f);
     _enabled := false;
     _visibleLines := _visibleLines f |}.

(** The local variables of [updateVisibleLines] that its loop changes. *)
Record scan : Type := mkScan {
  filteredLines : QBitArray;
  foldStack : list bool;          (* top of the stack first *)
  stackHasClosedFold : bool
}.

(** The body of the loop of [updateVisibleLines] at line [i]. *)
Definition scan_line (f : t) (i : Z) (s : scan) : result scan :=
  let* filtered :=
    QBitArray.setBit (filteredLines s) i (negb (stackHasClosedFold s)) in
  let* isStart := QBitArray.testBit (_foldStarts f) i in
  let* s1 :=
    if isStart then
      let* open := QBitArray.testBit (_expanded f) i in
      Ok (mkScan filtered (open :: foldStack s)
                 (if negb open then true else stackHasClosedFold s))
    else Ok (mkScan filtered (foldStack s) (stackHasClosedFold s)) in
  let* isEnd := QBitArray.testBit (_foldEnds f) i in
  if isEnd then
    match foldStack s1 with
    | [] => Fault PopEmptyStack
    | _ :: rest =>
        Ok (mkScan (filteredLines s1) rest (stack_contains false rest))
    end
  else Ok s1.

Definition updateVisibleLines (f : t) : result t :=
  let count := QBitArray.size (_filteredLines f) in
  let filtered0 := QBitArray.fill true (_filteredLines f) in
  let* s := for_range 0 count (scan_line f) (mkScan filtered0 [] false) in
  let* _ := Q_ASSERT (match foldStack s with [] => true | _ => false end) in
  Ok {| _filteredLines := filteredLines s;
        _visibleLines := QBitArray.count true (filteredLines s);
        _enabled := _enabled f;
        _foldStarts := _foldStarts f;
        _foldEnds := _foldEnds f;
        _expanded := _expanded f |}.

Definition isLineVisible (f : t) (line : Z) : result bool :=
  QBitArray.testBit (_filteredLines f) line.

Definition visibleLineCount (f : t) : Z :=
  if _enabled f then _visibleLines f else QBitArray.size (_filteredLines f).

Definition count (f : t) : Z :=
  if _enabled f then QBitArray.count true (_foldStarts f) else 0.

(** The loop of [mapToBufferLine]: [result] grows by one in every
    iteration and the loop leaves when it reaches [count()-1], so [count()-1]
    iterations are enough; [n] is the number of iterations left. *)
Fixpoint mapToBufferLine_loop (f : t) (visibleLine : Z) (n : nat)
         (result_ visibleCount : Z) : result Z :=
  match n with
  | O => Ok result_
  | S n' =>
      if (visibleCount <? visibleLine)
         && (result_ <? QBitArray.size (_filteredLines f) - 1)
      then
        let* visible := isLineVisible f result_ in
        mapToBufferLine_loop f visibleLine n' (result_ + 1)
                             (visibleCount + (if visible then 1 else 0))
      else Ok result_
  end.

Definition mapToBufferLine (f : t) (visibleLine : Z) : result Z :=
  if negb (_enabled f) then Ok visibleLine
  else
    mapToBufferLine_loop
      f visibleLine (Z.to_nat (QBitArray.size (_filteredLines f) - 1)) 0 0.

End Folds.

(** ** The screen behind the window *)

(** A character cell of an image: the cell the screen holds at a line and
    column, or the default (blank) character. *)
Inductive Character : Set :=
| ScreenChar (line column : Z)
| DefaultChar.

Module Screen.

(** Modelled from the spec: the Buffer collaborator ([Screen.h],
    [Screen.cpp] and [TerminalCharacterDecoder.cpp] are not part of the
    sources at hand).  Its section 6 lists what the window reads from it:
    the history and screen line counts, the column count, the cursor
    position, the lines scrolled and dropped since the last query, and the
    text a line decodes to. *)
Record t : Type := mk {
  getHistLines : Z;
  getLines : Z;
  getColumns : Z;
  getCursorX : Z;
  getCursorY : Z;
  scrolledLines : Z;
  droppedLines : Z;
  (* getImage(buffer,columns,i,i) followed by PlainTextDecoder::decode *)
  decodedLine : Z -> string
}.

(** The cells of line [line]. *)
Definition lineImage (s : t) (line : Z) : list Character :=
  map (ScreenChar line) (seqZ 0 (getColumns s)).

(** Writing [cells] into [dest] at [offset]; outside the array is a
    fault. *)
Definition write (dest : list Character) (offset : Z)
           (cells : list Character) : result (list Character) :=
  if (0 <=? offset) && (offset + Z.of_nat (length cells) <=? Z.of_nat (length dest))
  then Ok (take (Z.to_nat offset) dest ++ cells
             ++ drop (Z.to_nat offset + length cells) dest)
  else Fault IndexOutOfRange.

(** Modelled from the spec: the range copy
    [getImage(dest, destSize, firstLine, lastLine)] of the Buffer, which
    copies the cells of the lines [firstLine .. lastLine] to [dest]; here
    [dest] is [buffer + offset].  The range must lie inside the buffer's
    lines and fit into [size] cells. *)
Definition getImage (s : t) (buffer : list Character) (offset size : Z)
           (startLine endLine : Z) : result (list Character) :=
  let* _ := Q_ASSERT (0 <=? startLine) in
  let* _ := Q_ASSERT ((startLine <=? endLine)
                      && (endLine <? getHistLines s + getLines s)) in
  let mergedLines := endLine - startLine + 1 in
  let* _ := Q_ASSERT (mergedLines * getColumns s <=? size) in
  write buffer offset
        (flat_map (lineImage s) (seqZ startLine mergedLines)).

(** Modelled from the spec: the default-blank-cell fill operation
    [fillWithDefaultChar(dest, count)] of the Buffer, which writes [count]
    default characters from [dest] on and nothing when [count] is not
    positive; here [dest] is [buffer + offset]. *)
Definition fillWithDefaultChar (buffer : list Character) (offset count : Z)
  : result (list Character) :=
  if count <=? 0 then Ok buffer
  else write buffer offset (replicate (Z.to_nat count) DefaultChar).

End Screen.

(** [QString::contains(pattern)]: [pattern] occurs in [text]. *)
Fixpoint contains (text pattern : string) : bool :=
  String.prefix pattern text ||
  match text with
  | EmptyString => false
  | String _ rest => contains rest pattern
  end.

(** [QString::isEmpty()] *)
Definition isEmpty (s : string) : bool :=
  match s with
  | EmptyString => true
  | String _ _ => false
  end.

(** ** ScreenWindow *)

Module ScreenWindow.

Inductive Signal : Set :=
| outputChanged
| scrolled (line : Z)
| selectionChanged.

Inductive RelativeScrollMode : Set := ScrollLines | ScrollPages.

Record t : Type := mk {
  _screen : Screen.t;
  _windowBuffer : option (list Character);   (* None: the 0 pointer *)
  _windowBufferSize : Z;
  _bufferNeedsUpdate : bool;
  _filterNeedsUpdate : bool;
  _windowLines : Z;
  _currentLine : Z;
  _trackOutput : bool;
  _scrollCount : Z;
  _folds : Folds.t;
  _filter : string;
  emitted : list Signal                      (* signals emitted, newest first *)
}.

(** The constructor; the screen is given at once instead of by
    [setScreen], the members of [_folds] that the class leaves
    uninitialised are arguments. *)
Definition new (screen : Screen.t) (enabled : bool) (visibleLines : Z) : t :=
  {| _screen := screen;
     _windowBuffer := None;
     _windowBufferSize := 0;
     _bufferNeedsUpdate := true;
     _filterNeedsUpdate := false;
     _windowLines := 1;
     _currentLine := 0;
     _trackOutput := true;
     _scrollCount := 0;
     _folds := Folds.new enabled visibleLines;
     _filter := EmptyString;
     emitted := [] |}.

Definition with_folds (w : t) (folds : Folds.t) : t :=
  {| _folds := folds;
     _screen := _screen w; _windowBuffer := _windowBuffer w;
     _windowBufferSize := _windowBufferSize w;
     _bufferNeedsUpdate := _bufferNeedsUpdate w;
     _filterNeedsUpdate := _filterNeedsUpdate w;
     _windowLines := _windowLines w; _currentLine := _currentLine w;
     _trackOutput := _trackOutput w; _scrollCount := _scrollCount w;
     _filter := _filter w; emitted := emitted w |}.

Definition with_windowBuffer (w : t) (buffer : option (list Character))
           (size : Z) : t :=
  {| _windowBuffer := buffer; _windowBufferSize := size;
     _screen := _screen w;
     _bufferNeedsUpdate := _bufferNeedsUpdate w;
     _filterNeedsUpdate := _filterNeedsUpdate w;
     _windowLines := _windowLines w; _currentLine := _currentLine w;
     _trackOutput := _trackOutput w; _scrollCount := _scrollCount w;
     _folds := _folds w; _filter := _filter w; emitted := emitted w |}.

Definition with_bufferNeedsUpdate (w : t) (b : bool) : t :=
  {| _bufferNeedsUpdate := b;
     _screen := _screen w; _windowBuffer := _windowBuffer w;
     _windowBufferSize := _windowBufferSize w;
     _filterNeedsUpdate := _filterNeedsUpdate w;
     _windowLines := _windowLines w; _currentLine := _currentLine w;
     _trackOutput := _trackOutput w; _scrollCount := _scrollCount w;
     _folds := _folds w; _filter := _filter w; emitted := emitted w |}.

Definition with_filterNeedsUpdate (w : t) (b : bool) : t :=
  {| _filterNeedsUpdate := b;
     _screen := _screen w; _windowBuffer := _windowBuffer w;
     _windowBufferSize := _windowBufferSize w;
     _bufferNeedsUpdate := _bufferNeedsUpdate w;
     _windowLines := _windowLines w; _currentLine := _currentLine w;
     _trackOutput := _trackOutput w; _scrollCount := _scrollCount w;
     _folds := _folds w; _filter := _filter w; emitted := emitted w |}.

Definition setWindowLines (w : t) (lines : Z) : result t :=
  let* _ := Q_ASSERT (0 <? lines) in
  Ok {| _windowLines := lines;
        _screen := _screen w; _windowBuffer := _windowBuffer w;
        _windowBufferSize := _windowBufferSize w;
        _bufferNeedsUpdate := _bufferNeedsUpdate w;
        _filterNeedsUpdate := _filterNeedsUpdate w;
        _currentLine := _currentLine w;
        _trackOutput := _trackOutput w; _scrollCount := _scrollCount w;
        _folds := _folds w; _filter := _filter w; emitted := emitted w |}.

Definition windowLines (w : t) : Z := _windowLines w.

Definition windowColumns (w : t) : Z := Screen.getColumns (_screen w).

Definition lineCount (w : t) : Z :=
  Screen.getHistLines (_screen w) + Screen.getLines (_screen w).

Definition visibleLineCount (w : t) : Z :=
  if Folds.count (_folds w) >? 0 then Folds.visibleLineCount (_folds w)
  else lineCount w.

Definition currentLine (w : t) : Z :=
  qBound 0 (_currentLine w) (visibleLineCount w - windowLines w).

Definition endWindowLine (w : t) : Z :=
  qMin (currentLine w + windowLines w - 1) (lineCount w - 1).

Definition atEndOfOutput (w : t) : bool :=
  currentLine w =? lineCount w - windowLines w.

Definition scrollTo (w : t) (line : Z) : t :=
  let maxCurrentLineNumber := lineCount w - windowLines w in
  let line := qBound 0 line maxCurrentLineNumber in
  let delta := line - _currentLine w in
  {| _currentLine := line;
     _scrollCount := _scrollCount w + delta;
     _bufferNeedsUpdate := true;
     emitted := scrolled line :: emitted w;
     _screen := _screen w; _windowBuffer := _windowBuffer w;
     _windowBufferSize := _windowBufferSize w;
     _filterNeedsUpdate := _filterNeedsUpdate w;
     _windowLines := _windowLines w;
     _trackOutput := _trackOutput w;
     _folds := _folds w; _filter := _filter w |}.

Definition scrollBy (w : t) (mode : RelativeScrollMode) (amount : Z) : t :=
  match mode with
  | ScrollLines => scrollTo w (currentLine w + amount)
  | ScrollPages => scrollTo w (currentLine w + amount * (windowLines w ÷ 2))
  end.

Definition setFilter (w : t) (filter : string) : t :=
  {| _filter := filter;
     _bufferNeedsUpdate := true;
     _filterNeedsUpdate := true;
     emitted := outputChanged :: emitted w;
     _screen := _screen w; _windowBuffer := _windowBuffer w;
     _windowBufferSize := _windowBufferSize w;
     _windowLines := _windowLines w; _currentLine := _currentLine w;
     _trackOutput := _trackOutput w; _scrollCount := _scrollCount w;
     _folds := _folds w |}.

(** The body of the loop of [createFilterFolds] at line [i]; the state is
    the fold table and the local [foldStart]. *)
Definition filter_line (w : t) (filter : string) (firstLine lastLine : Z)
           (i : Z) (st : Folds.t * Z) : result (Folds.t * Z) :=
  let '(folds, foldStart) := st in
  let lineText := Screen.decodedLine (_screen w) i in
  let match_ := contains lineText filter in
  if match_ || (i =? firstLine) || (i =? lastLine) then
    let* folds :=
      if negb (i =? firstLine) then Folds.setFold folds foldStart (i - 1) true
      else Ok folds in
    (* set the start for the next fold to the current line *)
    Ok (folds, i)
  else Ok (folds, foldStart).

Definition createFilterFolds (w : t) (filter : string) : result t :=
  let w := with_filterNeedsUpdate w false in
  let folds := Folds.setLineCount (_folds w) (lineCount w) in
  let folds := Folds.removeAll folds in
  if isEmpty filter then Ok (with_folds w folds)
  else
    let count := lineCount w in
    let lastLine := count - 1 in
    let firstLine := 0 in
    let foldStart := -1 in
    let* '(folds, _) :=
      for_range 0 count (filter_line w filter firstLine lastLine)
                (folds, foldStart) in
    Ok (with_folds w folds).

(** The first loop of [getFilteredImage]: it leaves at the [break] or when
    [i] reaches [lineCount()]; the result is [startFrom]. *)
Fixpoint find_start (folds : Folds.t) (cursorLine startLine : Z)
         (n : nat) (i : Z) (visibleLineCount startFrom : Z) : result Z :=
  match n with
  | O => Ok startFrom
  | S n' =>
      let* visible := Folds.isLineVisible folds i in
      let visibleLineCount :=
        if visible || (i =? cursorLine) then visibleLineCount + 1
        else visibleLineCount in
      if visibleLineCount >? startLine then Ok startFrom
      else find_start folds cursorLine startLine n' (i + 1)
                      visibleLineCount (startFrom + 1)
  end.

(** The second loop of [getFilteredImage], with [limit] for
    [endLine-startLine+1]; its counter [visibleLineCount] is never read
    again and is left out.  The result is the buffer and [count]. *)
Fixpoint copy_visible (screen : Screen.t) (folds : Folds.t)
         (cursorLine limit : Z) (n : nat) (i : Z)
         (buffer : list Character) (count : Z)
  : result (list Character * Z) :=
  match n with
  | O => Ok (buffer, count)
  | S n' =>
      if count <? limit then
        let* visible := Folds.isLineVisible folds i in
        if visible || (i =? cursorLine) then
          let* buffer :=
            Screen.getImage screen buffer (Screen.getColumns screen * count)
                            (Screen.getColumns screen) i i in
          copy_visible screen folds cursorLine limit n' (i + 1)
                       buffer (count + 1)
        else copy_visible screen folds cursorLine limit n' (i + 1)
                          buffer count
      else Ok (buffer, count)
  end.

(** [getFilteredImage(buffer,size,startLine,endLine)]; its only caller
    passes [_windowBuffer] for [buffer], and the function itself fills the
    unused area of [_windowBuffer], so the two are one array here. *)
Definition getFilteredImage (w : t) (size startLine endLine : Z) : result t :=
  let* _ := Q_ASSERT (startLine <=? endLine) in
  let* _ := Q_ASSERT ((startLine - endLine + 1) * windowColumns w <=? size) in
  let folds := Folds.setLineCount (_folds w) (lineCount w) in
  let* folds := Folds.updateVisibleLines folds in
  let w := with_folds w folds in
  (* find first line to copy *)
  let cursorLine :=
    Screen.getHistLines (_screen w) + Screen.getCursorY (_screen w) in
  let* startFrom :=
    find_start folds cursorLine startLine (Z.to_nat (lineCount w)) 0 0 0 in
  let* _ := Q_ASSERT (startLine <=? startFrom) in
  (* copy visible lines *)
  let* buffer :=
    match _windowBuffer w with
    | Some buffer => Ok buffer
    | None => Fault IndexOutOfRange
    end in
  let* '(buffer, count) :=
    copy_visible (_screen w) folds cursorLine (endLine - startLine + 1)
                 (Z.to_nat (lineCount w - startFrom)) startFrom buffer 0 in
  (* fill unused area *)
  let charsToFill := (windowLines w - count) * windowColumns w in
  let* _ := Q_ASSERT (windowColumns w * count + charsToFill <=? size) in
  let* buffer :=
    Screen.fillWithDefaultChar buffer (windowColumns w * count) charsToFill in
  Ok (with_windowBuffer w (Some buffer) (_windowBufferSize w)).

Definition fillUnusedArea (w : t) : result t :=
  let screenEndLine :=
    Screen.getHistLines (_screen w) + Screen.getLines (_screen w) - 1 in
  let windowEndLine := currentLine w + windowLines w - 1 in
  let unusedLines := windowEndLine - screenEndLine in
  let charsToFill := unusedLines * windowColumns w in
  let* buffer :=
    match _windowBuffer w with
    | Some buffer => Ok buffer
    | None => Fault IndexOutOfRange
    end in
  let* buffer :=
    Screen.fillWithDefaultChar buffer (_windowBufferSize w - charsToFill)
                               charsToFill in
  Ok (with_windowBuffer w (Some buffer) (_windowBufferSize w)).

(** [getImage()]: the image returned is [_windowBuffer] of the result. *)
Definition getImage (w : t) : result t :=
  (* update filter if necessary *)
  let* w :=
    if _filterNeedsUpdate w then createFilterFolds w (_filter w)
    else Ok w in
  (* reallocate internal buffer if the window size has changed *)
  let size := windowLines w * windowColumns w in
  let w :=
    if match _windowBuffer w with None => true | Some _ => false end
       || negb (_windowBufferSize w =? size)
    then with_bufferNeedsUpdate
           (with_windowBuffer
              w (Some (replicate (Z.to_nat size) DefaultChar)) size)
           true
    else w in
  if negb (_bufferNeedsUpdate w) then Ok w
  else
    let* w :=
      if Folds.count (_folds w) >? 0 then
        getFilteredImage w size (currentLine w) (endWindowLine w)
      else
        let* buffer :=
          match _windowBuffer w with
          | Some buffer => Ok buffer
          | None => Fault IndexOutOfRange
          end in
        let* buffer :=
          Screen.getImage (_screen w) buffer 0 size
                          (currentLine w) (endWindowLine w) in
        Ok (with_windowBuffer w (Some buffer) (_windowBufferSize w)) in
    let* w := fillUnusedArea w in
    Ok (with_bufferNeedsUpdate w false).

Definition mapToScreen (w : t) (line : Z) : Z :=
  qMin (line + currentLine w) (endWindowLine w).

Definition setTrackOutput (w : t) (trackOutput : bool) : t :=
  {| _trackOutput := trackOutput;
     _screen := _screen w; _windowBuffer := _windowBuffer w;
     _windowBufferSize := _windowBufferSize w;
     _bufferNeedsUpdate := _bufferNeedsUpdate w;
     _filterNeedsUpdate := _filterNeedsUpdate w;
     _windowLines := _windowLines w; _currentLine := _currentLine w;
     _scrollCount := _scrollCount w;
     _folds := _folds w; _filter := _filter w; emitted := emitted w |}.

Definition trackOutput (w : t) : bool := _trackOutput w.

Definition scrollCount (w : t) : Z := _scrollCount w.

Definition resetScrollCount (w : t) : t :=
  {| _scrollCount := 0;
     _screen := _screen w; _windowBuffer := _windowBuffer w;
     _windowBufferSize := _windowBufferSize w;
     _bufferNeedsUpdate := _bufferNeedsUpdate w;
     _filterNeedsUpdate := _filterNeedsUpdate w;
     _windowLines := _windowLines w; _currentLine := _currentLine w;
     _trackOutput := _trackOutput w;
     _folds := _folds w; _filter := _filter w; emitted := emitted w |}.

(** [notifyOutputChanged()]; the screen is the one the window looks onto
    at the time of the call. *)
Definition notifyOutputChanged (w : t) : t :=
  let scrollCount' :=
    if _trackOutput w
    then _scrollCount w - Screen.scrolledLines (_screen w)
    else _scrollCount w in
  let currentLine' :=
    if _trackOutput w
    then
      (* move window to the bottom of the screen *)
      qMax 0 (Screen.getHistLines (_screen w)
              - (windowLines w - Screen.getLines (_screen w)))
    else
      (* the history may have dropped its oldest lines *)
      let currentLine1 :=
        qMax 0 (_currentLine w - Screen.droppedLines (_screen w)) in
      (* not beyond the bottom of the screen *)
      qMin currentLine1 (Screen.getHistLines (_screen w)) in
  {| _scrollCount := scrollCount';
     _currentLine := currentLine';
     _bufferNeedsUpdate := true;
     _filterNeedsUpdate := true;
     emitted := outputChanged :: emitted w;
     _screen := _screen w; _windowBuffer := _windowBuffer w;
     _windowBufferSize := _windowBufferSize w;
     _windowLines := _windowLines w;
     _trackOutput := _trackOutput w;
     _folds := _folds w; _filter := _filter w |}.

End ScreenWindow.

(** ** Fold configurations

    What the bit arrays of a fold table stand for: a set of folds, each a
    closed range of lines with its expanded flag. *)

Record Fold : Type := mkFold {
  fstart : Z;
  fend : Z;
  fexpanded : bool
}.

(** Two folds of a configuration are disjoint or one lies strictly inside
    the other: no line carries two fold starts or two fold ends, and no two
    ranges overlap partially. *)
Definition separate (a b : Fold) : bool :=
  (fend a <? fstart b) || (fend b <? fstart a)
  || ((fstart a <? fstart b) && (fend b <? fend a))
  || ((fstart b <? fstart a) && (fend a <? fend b)).

(** A properly nested configuration over the lines [0 .. n-1]. *)
Fixpoint properly_nested (n : Z) (c : list Fold) : bool :=
  match c with
  | [] => true
  | a :: c' =>
      (0 <=? fstart a) && (fstart a <=? fend a) && (fend a <? n)
      && forallb (separate a) c' && properly_nested n c'
  end.

(** Line [i] lies in fold [a] behind its start line. *)
Definition inside (a : Fold) (i : Z) : bool :=
  (fstart a <? i) && (i <=? fend a).

(** Line [i] lies in fold [a], start line included. *)
Definition encloses (a : Fold) (i : Z) : bool :=
  (fstart a <=? i) && (i <=? fend a).

(** Some collapsed fold holds line [i] behind its start line. *)
Definition inside_collapsed (c : list Fold) (i : Z) : bool :=
  existsb (fun a => negb (fexpanded a) && inside a i) c.

(** Every fold that encloses line [i] is expanded. *)
Definition only_expanded (c : list Fold) (i : Z) : bool :=
  forallb (fun a => implb (encloses a i) (fexpanded a)) c.

(** Fold [a] lies strictly inside no collapsed fold of [c]. *)
Definition outermost_collapsed (c : list Fold) (a : Fold) : bool :=
  forallb (fun b => fexpanded b
                    || negb ((fstart b <? fstart a) && (fend a <? fend b))) c.

Definition is_start (c : list Fold) (i : Z) : bool :=
  existsb (fun a => fstart a =? i) c.

Definition is_end (c : list Fold) (i : Z) : bool :=
  existsb (fun a => fend a =? i) c.

Definition result_is (r : result bool) (b : bool) : bool :=
  match r with
  | Ok x => Bool.eqb x b
  | Fault _ => false
  end.

(** The four bit arrays of a fold table have [n] bits each. *)
Definition sizes_agree (n : Z) (f : Folds.t) : bool :=
  (QBitArray.size (Folds._foldStarts f) =? n)
  && (QBitArray.size (Folds._foldEnds f) =? n)
  && (QBitArray.size (Folds._expanded f) =? n)
  && (QBitArray.size (Folds._filteredLines f) =? n).

(** The fold table [f] over [n] lines holds exactly the folds of [c]. *)
Definition encodes (n : Z) (c : list Fold) (f : Folds.t) : bool :=
  sizes_agree n f
  && forallb (fun i =>
                result_is (QBitArray.testBit (Folds._foldStarts f) i)
                          (is_start c i)
                && result_is (QBitArray.testBit (Folds._foldEnds f) i)
                             (is_end c i))
             (seqZ 0 n)
  && forallb (fun a =>
                result_is (QBitArray.testBit (Folds._expanded f) (fstart a))
                          (fexpanded a)) c.

(** The same as a proposition, for the proofs. *)
Definition represents (n : Z) (c : list Fold) (f : Folds.t) : Prop :=
  sizes_agree n f = true
  /\ (forall i, 0 <= i < n ->
        QBitArray.testBit (Folds._foldStarts f) i = Ok (is_start c i))
  /\ (forall i, 0 <= i < n ->
        QBitArray.testBit (Folds._foldEnds f) i = Ok (is_end c i))
  /\ (forall a, In a c ->
        QBitArray.testBit (Folds._expanded f) (fstart a) = Ok (fexpanded a)).

(** A fold table over [n] lines without any fold point. *)
Definition blank (n : Z) (f : Folds.t) : bool :=
  sizes_agree n f
  && forallb negb (Folds._foldStarts f)
  && forallb negb (Folds._foldEnds f).

(** Two ranges of [setFold] calls: one nested in the other, identical, or
    disjoint. *)
Definition compatible (a b : Z * Z) : bool :=
  (snd a <? fst b) || (snd b <? fst a)
  || ((fst a <=? fst b) && (snd b <=? snd a))
  || ((fst b <=? fst a) && (snd a <=? snd b)).

Fixpoint pairwise_compatible (calls : list (Z * Z)) : bool :=
  match calls with
  | [] => true
  | a :: rest => forallb (compatible a) rest && pairwise_compatible rest
  end.

(** A sequence of fold-creating calls [setFold(start,end,true)]. *)
Fixpoint setFolds (f : Folds.t) (calls : list (Z * Z)) : result Folds.t :=
  match calls with
  | [] => Ok f
  | (startLine, endLine) :: rest =>
      let* f := Folds.setFold f startLine endLine true in
      setFolds f rest
  end.

(** Creating the folds of a configuration one by one, the last of the list
    first: [setFold] creates the fold collapsed, [setOpen] then gives it its
    expanded flag. *)
Fixpoint configure (f : Folds.t) (c : list Fold) : result Folds.t :=
  match c with
  | [] => Ok f
  | a :: c' =>
      let* f := configure f c' in
      let* f := Folds.setFold f (fstart a) (fend a) true in
      Folds.setOpen f (fstart a) (fexpanded a)
  end.

(** The mutators of the class, and the fold tables a program can hold:
    those a sequence of mutators builds from the unconstructed table. *)
Inductive mutator : Set :=
| SetLineCount (size : Z)
| SetFold (startLine endLine : Z) (fold : bool)
| SetOpen (line : Z) (open : bool)
| RemoveAll
| UpdateVisibleLines.

Definition mutate (f : Folds.t) (m : mutator) : result Folds.t :=
  match m with
  | SetLineCount size => Ok (Folds.setLineCount f size)
  | SetFold startLine endLine fold => Folds.setFold f startLine endLine fold
  | SetOpen line open => Folds.setOpen f line open
  | RemoveAll => Ok (Folds.removeAll f)
  | UpdateVisibleLines => Folds.updateVisibleLines f
  end.

Fixpoint run (f : Folds.t) (ms : list mutator) : result Folds.t :=
  match ms with
  | [] => Ok f
  | m :: ms' => let* f := mutate f m in run f ms'
  end.

(** What holds of every reachable table: the arrays agree in size, and a
    table that is not enabled has no fold point. *)
Definition table_inv (f : Folds.t) : Prop :=
  sizes_agree (QBitArray.size (Folds._foldStarts f)) f = true
  /\ (Folds._enabled f = false ->
      forallb negb (Folds._foldStarts f) = true
      /\ forallb negb (Folds._foldEnds f) = true).

(** ** The invariant of the scan of [updateVisibleLines]

    On entry to line [i] the stack holds the expanded flags of the folds of
    [c] that have started before [i] and not ended before [i], innermost
    first. *)

Fixpoint innermost_first (l : list Fold) : Prop :=
  match l with
  | [] => True
  | a :: l' => (forall b, In b l' -> fstart b < fstart a) /\ innermost_first l'
  end.

Definition stack_of (c : list Fold) (covers : Fold -> bool)
           (stack : list bool) : Prop :=
  exists l, stack = map fexpanded l
            /\ (forall a, In a l <-> In a c /\ covers a = true)
            /\ innermost_first l.

Definition scan_inv (n : Z) (c : list Fold) (i : Z) (s : Folds.scan) : Prop :=
  QBitArray.size (Folds.filteredLines s) = n
  /\ Folds.stackHasClosedFold s = stack_contains false (Folds.foldStack s)
  /\ stack_of c (fun a => inside a i) (Folds.foldStack s)
  /\ (forall j, 0 <= j < i ->
        QBitArray.testBit (Folds.filteredLines s) j
        = Ok (negb (inside_collapsed c j))).

(** ** Example tables *)

(** Six lines; a collapsed fold over the lines 1 to 4 with an expanded fold
    over the lines 2 to 3 inside. *)
Definition example_folds : list Fold :=
  [mkFold 1 4 false; mkFold 2 3 true].

Definition example_mutators : list mutator :=
  [SetLineCount 6; SetFold 1 4 true; SetFold 2 3 true; SetOpen 2 true].

Definition example_table : Folds.t :=
  {| Folds._enabled := true;
     Folds._foldStarts := [false; true; true; false; false; false];
     Folds._foldEnds := [false; false; false; true; true; false];
     Folds._expanded := [false; false; true; false; false; false];
     Folds._filteredLines := [true; true; true; true; true; true];
     Folds._visibleLines := 0 |}.

(** Nine lines; the calls create the folds 0-3, 5-8 and 1-2, the last call
    repeats the first. *)
Definition example_calls : list (Z * Z) :=
  [(0, 3); (5, 8); (1, 2); (0, 3)].

Definition example_calls_table : Folds.t :=
  {| Folds._enabled := true;
     Folds._foldStarts :=
       [true; true; false; false; false; true; false; false; false];
     Folds._foldEnds :=
       [false; false; true; true; false; false; false; false; true];
     Folds._expanded :=
       [false; false; false; false; false; false; false; false; false];
     Folds._filteredLines :=
       [true; true; true; true; true; true; true; true; true];
     Folds._visibleLines := 0 |}.

(** [example_table] after [updateVisibleLines]. *)
Definition example_table_scanned : Folds.t :=
  {| Folds._enabled := true;
     Folds._foldStarts := [false; true; true; false; false; false];
     Folds._foldEnds := [false; false; false; true; true; false];
     Folds._expanded := [false; false; true; false; false; false];
     Folds._filteredLines := [true; true; false; false; false; true];
     Folds._visibleLines := 3 |}.

(** A screen of three lines without history, and a window of five lines
    on it. *)
Definition example_screen : Screen.t :=
  {| Screen.getHistLines := 0;
     Screen.getLines := 3;
     Screen.getColumns := 80;
     Screen.getCursorX := 0;
     Screen.getCursorY := 0;
     Screen.scrolledLines := 0;
     Screen.droppedLines := 0;
     Screen.decodedLine := fun _ => EmptyString |}.

Definition example_window : ScreenWindow.t :=
  {| ScreenWindow._screen := example_screen;
     ScreenWindow._windowBuffer := None;
     ScreenWindow._windowBufferSize := 0;
     ScreenWindow._bufferNeedsUpdate := true;
     ScreenWindow._filterNeedsUpdate := false;
     ScreenWindow._windowLines := 5;
     ScreenWindow._currentLine := 0;
     ScreenWindow._trackOutput := true;
     ScreenWindow._scrollCount := 0;
     ScreenWindow._folds := Folds.new false 0;
     ScreenWindow._filter := EmptyString;
     ScreenWindow.emitted := [] |}.

(** ** The filter example: ten lines, the pattern on line 5 only *)

(** The fold table that the filter leaves over ten lines when only line 5
    matches: collapsed folds over the lines 0 to 4 and 5 to 8.
    [createFilterFolds] does not touch [_visibleLines]. *)
Definition foo_table (visibleLines : Z) : Folds.t :=
  {| Folds._enabled := true;
     Folds._foldStarts :=
       [true; false; false; false; false; true; false; false; false; false];
     Folds._foldEnds :=
       [false; false; false; false; true; false; false; false; true; false];
     Folds._expanded :=
       [false; false; false; false; false; false; false; false; false; false];
     Folds._filteredLines :=
       [true; true; true; true; true; true; true; true; true; true];
     Folds._visibleLines := visibleLines |}.

(** [foo_table] after [updateVisibleLines]. *)
Definition foo_table_scanned : Folds.t :=
  {| Folds._enabled := true;
     Folds._foldStarts :=
       [true; false; false; false; false; true; false; false; false; false];
     Folds._foldEnds :=
       [false; false; false; false; true; false; false; false; true; false];
     Folds._expanded :=
       [false; false; false; false; false; false; false; false; false; false];
     Folds._filteredLines :=
       [true; false; false; false; false; true; false; false; false; true];
     Folds._visibleLines := 3 |}.

(** The lines of the ten that the filtered image shows when the cursor is
    on [cursorLine]. *)
Definition foo_shown (cursorLine : Z) (i : Z) : bool :=
  (i =? 0) || (i =? 5) || (i =? 9) || (i =? cursorLine).

Definition foo_lines (cursorLine : Z) : list Z :=
  List.filter (foo_shown cursorLine) (seqZ 0 10).

(** The image of a window of [windowLines] lines that shows [lines]: their
    cells, row after row, then default characters. *)
Definition image_of (screen : Screen.t) (windowLines : Z) (lines : list Z)
  : list Character :=
  flat_map (Screen.lineImage screen) lines
  ++ replicate
       (Z.to_nat ((windowLines - Z.of_nat (length lines))
                  * Screen.getColumns screen))
       DefaultChar.

(** A window buffer, when allocated, has [_windowBufferSize] cells. *)
Definition buffer_sized (w : ScreenWindow.t) : bool :=
  match ScreenWindow._windowBuffer w with
  | Some buffer =>
      Z.of_nat (length buffer) =? ScreenWindow._windowBufferSize w
  | None => true
  end.

(** A screen of ten lines of three columns, the cursor on line 7, and a
    window of ten lines on it. *)
Definition foo_screen : Screen.t :=
  {| Screen.getHistLines := 0;
     Screen.getLines := 10;
     Screen.getColumns := 3;
     Screen.getCursorX := 0;
     Screen.getCursorY := 7;
     Screen.scrolledLines := 0;
     Screen.droppedLines := 0;
     Screen.decodedLine :=
       fun i => if i =? 5 then "foo"%string else "bar"%string |}.

Definition foo_window : ScreenWindow.t :=
  {| ScreenWindow._screen := foo_screen;
     ScreenWindow._windowBuffer := None;
     ScreenWindow._windowBufferSize := 0;
     ScreenWindow._bufferNeedsUpdate := true;
     ScreenWindow._filterNeedsUpdate := false;
     ScreenWindow._windowLines := 10;
     ScreenWindow._currentLine := 0;
     ScreenWindow._trackOutput := true;
     ScreenWindow._scrollCount := 0;
     ScreenWindow._folds := Folds.new false 0;
     ScreenWindow._filter := EmptyString;
     ScreenWindow.emitted := [] |}.

(** A window of four lines on the same screen, scrolled to line 2. *)
Definition small_window : ScreenWindow.t :=
  {| ScreenWindow._screen := foo_screen;
     ScreenWindow._windowBuffer := None;
     ScreenWindow._windowBufferSize := 0;
     ScreenWindow._bufferNeedsUpdate := true;
     ScreenWindow._filterNeedsUpdate := false;
     ScreenWindow._windowLines := 4;
     ScreenWindow._currentLine := 2;
     ScreenWindow._trackOutput := true;
     ScreenWindow._scrollCount := 2;
     ScreenWindow._folds := Folds.new false 0;
     ScreenWindow._filter := EmptyString;
     ScreenWindow.emitted := [ScreenWindow.scrolled 2] |}.

(** ** Quantities the statements about line mapping use *)

(** The number of visible lines strictly before buffer line [r]. *)
Definition visible_before (f : Folds.t) (r : Z) : Z :=
  QBitArray.count true (take (Z.to_nat r) (Folds._filteredLines f)).

(** The lines that [createFilterFolds] keeps apart: those whose text
    contains the pattern, the first line and the last line. *)
Definition filter_boundary (w : ScreenWindow.t) (filter : string)
           (i : Z) : bool :=
  contains (Screen.decodedLine (ScreenWindow._screen w) i) filter
  || (i =? 0) || (i =? ScreenWindow.lineCount w - 1).

(** The invariant of the loop of [createFilterFolds] on entry to line [i]:
    [foldStart] is the last boundary before [i], and the table holds one
    collapsed fold from each earlier boundary to the line before the next
    one. *)
Definition filter_inv (w : ScreenWindow.t) (filter : string) (i : Z)
           (st : Folds.t * Z) : Prop :=
  let n := ScreenWindow.lineCount w in
  -1 <= snd st < i
  /\ (1 <= i -> 0 <= snd st)
  /\ (0 <= snd st -> filter_boundary w filter (snd st) = true)
  /\ (forall j, snd st < j < i -> filter_boundary w filter j = false)
  /\ Folds._filteredLines (fst st) = replicate (Z.to_nat n) true
  /\ Folds._visibleLines (fst st)
     = Folds._visibleLines (ScreenWindow._folds w)
  /\ (1 <= snd st -> 0 < Folds.count (fst st))
  /\ exists c,
       represents n c (fst st)
       /\ properly_nested n c = true
       /\ (forall a, In a c -> fexpanded a = false /\ fend a < snd st)
       /\ (forall j, 0 <= j < snd st ->
             inside_collapsed c j = negb (filter_boundary w filter j)).

(** ** Sequences of scroll requests *)

Inductive scroll_request : Set :=
| ScrollTo (line : Z)
| ScrollBy (mode : ScreenWindow.RelativeScrollMode) (amount : Z).

Definition scroll (w : ScreenWindow.t) (r : scroll_request)
  : ScreenWindow.t :=
  match r with
  | ScrollTo line => ScreenWindow.scrollTo w line
  | ScrollBy mode amount => ScreenWindow.scrollBy w mode amount
  end.

Definition scroll_all (w : ScreenWindow.t) (rs : list scroll_request)
  : ScreenWindow.t :=
  fold_left scroll rs w.

(** ** The cached image *)

(** The window holds an image that [getImage()] returns as it is: no update
    is pending and the buffer has the size of the window. *)
Definition image_cached (w : ScreenWindow.t) : bool :=
  negb (ScreenWindow._filterNeedsUpdate w)
  && negb (ScreenWindow._bufferNeedsUpdate w)
  && match ScreenWindow._windowBuffer w with
     | Some _ =>
         ScreenWindow._windowBufferSize w
         =? ScreenWindow.windowLines w * ScreenWindow.windowColumns w
     | None => false
     end.

(** Two states of a window that differ at most in the image buffer, its
    size, the two update flags and the fold table. *)
Definition same_view (w w' : ScreenWindow.t) : Prop :=
  ScreenWindow._screen w' = ScreenWindow._screen w
  /\ ScreenWindow._windowLines w' = ScreenWindow._windowLines w
  /\ ScreenWindow._currentLine w' = ScreenWindow._currentLine w
  /\ ScreenWindow._trackOutput w' = ScreenWindow._trackOutput w
  /\ ScreenWindow._scrollCount w' = ScreenWindow._scrollCount w
  /\ ScreenWindow._filter w' = ScreenWindow._filter w
  /\ ScreenWindow.emitted w' = ScreenWindow.emitted w.

(** The window of four lines after [getImage()]: the lines 2 to 5 of the
    screen. *)
Definition small_window_shown : ScreenWindow.t :=
  ScreenWindow.with_bufferNeedsUpdate
    (ScreenWindow.with_windowBuffer
       small_window
       (Some (flat_map (Screen.lineImage foo_screen) [2; 3; 4; 5])) 12)
    false.

(** No fold will be in the table when [getImage()] copies the lines: a
    filter update is pending with the empty pattern, or none is pending and
    the table has no fold. *)
Definition no_folds_pending (w : ScreenWindow.t) : bool :=
  if ScreenWindow._filterNeedsUpdate w then isEmpty (ScreenWindow._filter w)
  else Folds.count (ScreenWindow._folds w) <=? 0.

(** The top line of a window without folds, and the lines below it that
    the window shows. *)
Definition plain_top (w : ScreenWindow.t) : Z :=
  Z.max 0 (Z.min (ScreenWindow.lineCount w - ScreenWindow.windowLines w)
                 (ScreenWindow._currentLine w)).

Definition plain_lines (w : ScreenWindow.t) : list Z :=
  seqZ (plain_top w)
       (Z.min (ScreenWindow.windowLines w)
              (ScreenWindow.lineCount w - plain_top w)).

(** ** The lines of a filtered image *)

(** Line [j] goes into the filtered image: the fold table shows it, or the
    cursor is on it. *)
Definition line_shown (f : Folds.t) (cursorLine : Z) (j : Z) : bool :=
  match Folds.isLineVisible f j with
  | Ok visible => visible
  | Fault _ => false
  end || (j =? cursorLine).

(** The lines among the first [n] that go into the filtered image. *)
Definition shown_lines (f : Folds.t) (cursorLine n : Z) : list Z :=
  List.filter (line_shown f cursorLine) (seqZ 0 n).

(** The line the cursor is on, counted from the start of the history. *)
Definition cursor_line (w : ScreenWindow.t) : Z :=
  Screen.getHistLines (ScreenWindow._screen w)
  + Screen.getCursorY (ScreenWindow._screen w).

(** The top line that [getImage()] uses right after a filter update: the
    stored top line clamped with the visible-line counter of the fold table,
    which [createFilterFolds] does not touch and which still holds the count
    from before the update. *)
Definition filtered_top (w : ScreenWindow.t) : Z :=
  Z.max 0 (Z.min (Folds._visibleLines (ScreenWindow._folds w)
                  - ScreenWindow.windowLines w)
                 (ScreenWindow._currentLine w)).

(** A window of four lines on the screen of the filter example, with the
    fold table of the filter and an allocated buffer. *)
Definition folded_window : ScreenWindow.t :=
  ScreenWindow.with_windowBuffer
    (ScreenWindow.with_folds small_window foo_table_scanned)
    (Some (replicate 12 DefaultChar)) 12.

(** ** A filter set on a window that an earlier filter has left scrolled *)

(** Ten lines, five of them history, of three columns; the cursor on line
    7.  Only line 5 contains "foo"; every line but line 3 contains "a". *)
Definition stale_screen : Screen.t :=
  {| Screen.getHistLines := 5;
     Screen.getLines := 5;
     Screen.getColumns := 3;
     Screen.getCursorX := 0;
     Screen.getCursorY := 2;
     Screen.scrolledLines := 0;
     Screen.droppedLines := 0;
     Screen.decodedLine :=
       fun i => if i =? 5 then "a foo"%string
                else if i =? 3 then "b"%string else "a"%string |}.

(** A new window of five lines on it, filtered with "a" and shown, which
    leaves nine lines visible, then scrolled to line 5. *)
Definition stale_window : result ScreenWindow.t :=
  let* w := ScreenWindow.setWindowLines
              (ScreenWindow.new stale_screen false 0) 5 in
  let* w := ScreenWindow.getImage (ScreenWindow.setFilter w "a") in
  Ok (ScreenWindow.scrollTo w 5).

(** * Proofs *)

(** ** The error monad *)

Lemma bind_Ok {A B : Type} (m : result A) (k : A -> result B) (b : B) :
  bind m k = Ok b <-> exists a, m = Ok a /\ k a = Ok b.
Proof.
  destruct m as [a|e]; simpl; split.
  - intros H. exists a. split; [reflexivity | exact H].
  - intros (a' & Ha & Hk). injection Ha as ->. exact Hk.
  - discriminate.
  - intros (a' & Ha & _). discriminate.
Qed.

Lemma Q_ASSERT_Ok (cond : bool) (u : unit) :
  Q_ASSERT cond = Ok u <-> cond = true.
Proof. destruct cond, u; simpl; split; congruence. Qed.

(** A loop invariant [P i s] (the state [s] on entry to iteration [i]) that
    every iteration keeps without a fault holds when the loop ends. *)
Lemma for_loop_invariant {S : Type} (P : Z -> S -> Prop)
      (body : Z -> S -> result S) (n : nat) (lo : Z) (s : S) :
  (forall i s, lo <= i < lo + Z.of_nat n -> P i s ->
               exists s', body i s = Ok s' /\ P (i + 1) s') ->
  P lo s ->
  exists s', for_loop n lo body s = Ok s' /\ P (lo + Z.of_nat n) s'.
Proof.
  revert lo s. induction n as [|n IH]; intros lo s Hstep Hlo.
  - exists s. split; [reflexivity|]. replace (lo + Z.of_nat 0) with lo by lia.
    exact Hlo.
  - destruct (Hstep lo s) as (s1 & Hb & H1); [lia | exact Hlo |].
    destruct (IH (lo + 1) s1) as (s2 & Hl & H2).
    + intros i s0 Hi. apply Hstep. lia.
    + exact H1.
    + exists s2. split.
      * simpl. rewrite Hb. exact Hl.
      * replace (lo + Z.of_nat (Datatypes.S n)) with (lo + 1 + Z.of_nat n) by lia.
        exact H2.
Qed.

(** ** Bit arrays *)

Section QBitArrayFacts.
Implicit Types (a : list bool) (i j n : Z) (v b : bool).

Lemma size_nonneg a : 0 <= QBitArray.size a.
Proof. unfold QBitArray.size. lia. Qed.

Lemma testBit_Ok a i b :
  QBitArray.testBit a i = Ok b <->
  0 <= i < QBitArray.size a /\ a !! Z.to_nat i = Some b.
Proof.
  unfold QBitArray.testBit.
  destruct (0 <=? i) eqn:H0; destruct (i <? QBitArray.size a) eqn:H1;
    simpl; try (split; [discriminate | lia]).
  destruct (a !! Z.to_nat i) as [x|] eqn:Hl; split.
  - intros [= ->]. split; [lia | reflexivity].
  - intros [_ [= ->]]. reflexivity.
  - discriminate.
  - intros [_ ?]. discriminate.
Qed.

Lemma testBit_in_range a i :
  0 <= i < QBitArray.size a -> exists b, QBitArray.testBit a i = Ok b.
Proof.
  intros Hi. unfold QBitArray.size in Hi.
  destruct (lookup_lt_is_Some_2 a (Z.to_nat i)) as [b Hb]; [lia|].
  exists b. apply testBit_Ok. split; [exact Hi | exact Hb].
Qed.

Lemma setBit_Ok a i v a' :
  QBitArray.setBit a i v = Ok a' <->
  0 <= i < QBitArray.size a /\ a' = <[Z.to_nat i := v]> a.
Proof.
  unfold QBitArray.setBit.
  destruct (0 <=? i) eqn:H0; destruct (i <? QBitArray.size a) eqn:H1;
    simpl; try (split; [discriminate | lia]).
  split.
  - intros [= <-]. split; [lia | reflexivity].
  - intros [_ ->]. reflexivity.
Qed.

Lemma size_insert a (k : nat) v :
  QBitArray.size (<[k := v]> a) = QBitArray.size a.
Proof. unfold QBitArray.size. rewrite length_insert. reflexivity. Qed.

Lemma testBit_insert_eq a i v :
  0 <= i < QBitArray.size a ->
  QBitArray.testBit (<[Z.to_nat i := v]> a) i = Ok v.
Proof.
  intros Hi. apply testBit_Ok. rewrite size_insert. split; [exact Hi|].
  apply list_lookup_insert_eq. unfold QBitArray.size in Hi. lia.
Qed.

Lemma testBit_insert_ne a i j v :
  0 <= i -> 0 <= j -> i <> j ->
  QBitArray.testBit (<[Z.to_nat i := v]> a) j = QBitArray.testBit a j.
Proof.
  intros Hi Hj Hne. unfold QBitArray.testBit.
  rewrite size_insert, list_lookup_insert_ne by lia. reflexivity.
Qed.

Lemma size_fill v a : QBitArray.size (QBitArray.fill v a) = QBitArray.size a.
Proof.
  unfold QBitArray.size, QBitArray.fill. rewrite length_replicate.
  reflexivity.
Qed.

Lemma testBit_fill v a i :
  0 <= i < QBitArray.size a ->
  QBitArray.testBit (QBitArray.fill v a) i = Ok v.
Proof.
  intros Hi. apply testBit_Ok. rewrite size_fill. split; [exact Hi|].
  unfold QBitArray.fill. apply lookup_replicate_2.
  unfold QBitArray.size in Hi. lia.
Qed.

Lemma size_fill_size v n a :
  0 <= n -> QBitArray.size (QBitArray.fill_size v n a) = n.
Proof.
  intros Hn. unfold QBitArray.size, QBitArray.fill_size.
  rewrite length_replicate. lia.
Qed.

Lemma testBit_fill_size v n a i :
  0 <= i < n -> QBitArray.testBit (QBitArray.fill_size v n a) i = Ok v.
Proof.
  intros Hi. apply testBit_Ok. rewrite size_fill_size by lia.
  split; [exact Hi|].
  unfold QBitArray.fill_size. apply lookup_replicate_2. lia.
Qed.

Lemma size_resize n a :
  0 <= n -> QBitArray.size (QBitArray.resize n a) = n.
Proof.
  intros Hn. unfold QBitArray.size, QBitArray.resize.
  rewrite length_resize. lia.
Qed.

Lemma testBit_resize_old n a i :
  0 <= i < QBitArray.size a -> i < n ->
  QBitArray.testBit (QBitArray.resize n a) i = QBitArray.testBit a i.
Proof.
  intros Hi Hn. unfold QBitArray.testBit.
  rewrite size_resize by lia.
  unfold QBitArray.resize. rewrite lookup_resize.
  - unfold QBitArray.size in *.
    destruct (0 <=? i) eqn:E0; destruct (i <? n) eqn:E1;
      destruct (i <? Z.of_nat (length a)) eqn:E2; simpl; try lia.
    reflexivity.
  - unfold QBitArray.size in Hi. lia.
  - unfold QBitArray.size in Hi. lia.
Qed.

Lemma testBit_resize_new n a i :
  QBitArray.size a <= i < n ->
  QBitArray.testBit (QBitArray.resize n a) i = Ok false.
Proof.
  intros Hi. pose proof (size_nonneg a) as Ha.
  apply testBit_Ok. rewrite size_resize by lia. split; [lia|].
  unfold QBitArray.resize. apply lookup_resize_new.
  - unfold QBitArray.size in Hi. lia.
  - lia.
Qed.

Lemma forallb_negb_testBit a i :
  forallb negb a = true -> 0 <= i < QBitArray.size a ->
  QBitArray.testBit a i = Ok false.
Proof.
  intros Hall Hi. destruct (testBit_in_range a i Hi) as [b Hb].
  rewrite Hb. f_equal. apply testBit_Ok in Hb as [_ Hl].
  apply list_elem_of_lookup_2, list_elem_of_In in Hl.
  rewrite forallb_forall in Hall. specialize (Hall _ Hl).
  destruct b; [discriminate | reflexivity].
Qed.

Lemma forallb_negb_fill a : forallb negb (QBitArray.fill false a) = true.
Proof.
  unfold QBitArray.fill. induction (length a) as [|k IH]; simpl; auto.
Qed.

Lemma count_le_size v a : 0 <= QBitArray.count v a <= QBitArray.size a.
Proof.
  unfold QBitArray.size. induction a as [|b a IH]; simpl length; simpl QBitArray.count.
  - lia.
  - destruct (eqb b v); lia.
Qed.

Lemma count_all v a :
  (forall i, 0 <= i < QBitArray.size a -> QBitArray.testBit a i = Ok v) ->
  QBitArray.count v a = QBitArray.size a.
Proof.
  induction a as [|b a IH]; intros Hall.
  - reflexivity.
  - assert (Hb : b = v).
    { specialize (Hall 0). unfold QBitArray.size in Hall. simpl length in Hall.
      apply testBit_Ok in Hall as [_ Hl]; [|lia].
      simpl in Hl. congruence. }
    subst b. simpl QBitArray.count. rewrite eqb_reflx.
    rewrite IH.
    + unfold QBitArray.size. simpl length. lia.
    + intros i Hi. specialize (Hall (i + 1)).
      unfold QBitArray.size in Hall, Hi. simpl length in Hall.
      apply testBit_Ok in Hall as [_ Hl]; [|lia].
      apply testBit_Ok. split; [exact Hi|].
      replace (Z.to_nat (i + 1)) with (Datatypes.S (Z.to_nat i)) in Hl by lia.
      exact Hl.
Qed.

End QBitArrayFacts.

(** ** Fold configurations *)

Ltac zbool :=
  repeat match goal with
    | H : (_ && _) = true |- _ => apply andb_true_iff in H; destruct H
    | H : (_ || _) = true |- _ => apply orb_true_iff in H; destruct H
    | H : (_ || _) = false |- _ => apply orb_false_iff in H; destruct H
    | H : negb _ = true |- _ => apply negb_true_iff in H
    | H : negb _ = false |- _ => apply negb_false_iff in H
    | H : (_ <? _) = true |- _ => apply Z.ltb_lt in H
    | H : (_ <? _) = false |- _ => apply Z.ltb_ge in H
    | H : (_ <=? _) = true |- _ => apply Z.leb_le in H
    | H : (_ <=? _) = false |- _ => apply Z.leb_gt in H
    | H : (_ =? _) = true |- _ => apply Z.eqb_eq in H
    | H : (_ =? _) = false |- _ => apply Z.eqb_neq in H
    | H : (_ >? _) = true |- _ => rewrite Z.gtb_ltb in H
    | H : (_ >? _) = false |- _ => rewrite Z.gtb_ltb in H
    end.

Ltac zbool_goal :=
  rewrite ?andb_true_iff, ?orb_true_iff, ?negb_true_iff,
    ?Z.ltb_lt, ?Z.leb_le, ?Z.eqb_eq.

Lemma bool_ext (b1 b2 : bool) : (b1 = true <-> b2 = true) -> b1 = b2.
Proof.
  destruct b1, b2; intros [H1 H2]; try reflexivity.
  - symmetry. apply H1. reflexivity.
  - apply H2. reflexivity.
Qed.

Section Configurations.
Variable n : Z.
Variable c : list Fold.
Hypothesis Hnested : properly_nested n c = true.

Lemma separate_sym (a b : Fold) : separate a b = separate b a.
Proof.
  apply bool_ext. unfold separate. zbool_goal. lia.
Qed.

Lemma nested_range (a : Fold) :
  In a c -> 0 <= fstart a /\ fstart a <= fend a /\ fend a < n.
Proof using Hnested.
  revert Hnested. induction c as [|b c' IH]; simpl; intros Hn Ha.
  - contradiction.
  - zbool. destruct Ha as [<-|Ha]; [lia | auto].
Qed.

Lemma nested_separate (a b : Fold) :
  In a c -> In b c -> a = b \/ separate a b = true.
Proof using Hnested.
  revert Hnested. induction c as [|x c' IH]; simpl; intros Hn Ha Hb.
  - contradiction.
  - apply andb_true_iff in Hn as [Hn Hrest].
    apply andb_true_iff in Hn as [_ Hsep].
    rewrite forallb_forall in Hsep.
    destruct Ha as [<-|Ha], Hb as [<-|Hb]; auto.
    + right. rewrite separate_sym. auto.
Qed.

Lemma unique_start (a b : Fold) :
  In a c -> In b c -> fstart a = fstart b -> a = b.
Proof using Hnested.
  intros Ha Hb Heq. destruct (nested_separate a b Ha Hb) as [|Hsep]; [assumption|].
  pose proof (nested_range a Ha). pose proof (nested_range b Hb).
  unfold separate in Hsep. zbool; lia.
Qed.

Lemma unique_end (a b : Fold) :
  In a c -> In b c -> fend a = fend b -> a = b.
Proof using Hnested.
  intros Ha Hb Heq. destruct (nested_separate a b Ha Hb) as [|Hsep]; [assumption|].
  pose proof (nested_range a Ha). pose proof (nested_range b Hb).
  unfold separate in Hsep. zbool; lia.
Qed.

Lemma is_start_true (i : Z) :
  is_start c i = true <-> exists a, In a c /\ fstart a = i.
Proof.
  unfold is_start. rewrite existsb_exists.
  split; intros (a & Ha & H); exists a; (split; [exact Ha|]).
  - apply Z.eqb_eq. exact H.
  - apply Z.eqb_eq. exact H.
Qed.

Lemma is_end_true (i : Z) :
  is_end c i = true <-> exists a, In a c /\ fend a = i.
Proof.
  unfold is_end. rewrite existsb_exists.
  split; intros (a & Ha & H); exists a; (split; [exact Ha|]).
  - apply Z.eqb_eq. exact H.
  - apply Z.eqb_eq. exact H.
Qed.

Lemma is_start_false (i : Z) (a : Fold) :
  is_start c i = false -> In a c -> fstart a <> i.
Proof.
  intros Hf Ha Heq.
  assert (is_start c i = true) by (apply is_start_true; eauto).
  congruence.
Qed.

Lemma is_end_false (i : Z) (a : Fold) :
  is_end c i = false -> In a c -> fend a <> i.
Proof.
  intros Hf Ha Heq.
  assert (is_end c i = true) by (apply is_end_true; eauto).
  congruence.
Qed.

Lemma inside_collapsed_true (i : Z) :
  inside_collapsed c i = true <->
  exists a, In a c /\ fexpanded a = false /\ inside a i = true.
Proof.
  unfold inside_collapsed. rewrite existsb_exists.
  split; intros (a & Ha & H); exists a.
  - zbool. auto.
  - destruct H as [-> ->]. auto.
Qed.

(** The closed-fold flag of a stack says whether the line lies behind the
    start of a collapsed fold. *)
Lemma stack_contains_collapsed (i : Z) (stack : list bool) :
  stack_of c (fun a => inside a i) stack ->
  stack_contains false stack = inside_collapsed c i.
Proof.
  intros (l & -> & Hmem & _). apply bool_ext.
  rewrite inside_collapsed_true. unfold stack_contains.
  rewrite existsb_exists. split.
  - intros (x & Hx & Hfalse). apply in_map_iff in Hx as (a & <- & Ha).
    apply Hmem in Ha as [Hc Hin]. exists a.
    destruct (fexpanded a); [discriminate | auto].
  - intros (a & Hc & Hexp & Hin). exists false. split; [|reflexivity].
    apply in_map_iff. exists a. split; [exact Hexp|].
    apply Hmem. auto.
Qed.

Lemma stack_contains_push (open : bool) (stack : list bool) (flag : bool) :
  flag = stack_contains false stack ->
  (if negb open then true else flag) = stack_contains false (open :: stack).
Proof. intros ->. destruct open; reflexivity. Qed.

(** A fold starting at line [i] goes on top of the stack. *)
Lemma stack_of_push (i : Z) (stack : list bool) (a : Fold) :
  In a c -> fstart a = i ->
  stack_of c (fun a => inside a i) stack ->
  stack_of c (fun a => encloses a i) (fexpanded a :: stack).
Proof using Hnested.
  intros Ha Hs (l & -> & Hmem & Hsorted).
  exists (a :: l). split; [reflexivity|]. split.
  - intros b. simpl. rewrite Hmem. unfold inside, encloses. split.
    + intros [<-|[Hb Hin]].
      * pose proof (nested_range a Ha). split; [exact Ha|]. zbool_goal. lia.
      * split; [exact Hb|]. zbool. zbool_goal. lia.
    + intros [Hb Hin]. zbool.
      destruct (Z.eq_dec (fstart b) i) as [Heq|Hne].
      * left. apply unique_start; auto. lia.
      * right. split; [exact Hb|]. zbool_goal. lia.
  - simpl. split; [|exact Hsorted].
    intros b Hb. apply Hmem in Hb as [_ Hin]. unfold inside in Hin.
    zbool. lia.
Qed.

(** Where no fold starts, the stack stays. *)
Lemma stack_of_no_start (i : Z) (stack : list bool) :
  is_start c i = false ->
  stack_of c (fun a => inside a i) stack ->
  stack_of c (fun a => encloses a i) stack.
Proof.
  intros Hns (l & -> & Hmem & Hsorted).
  exists l. split; [reflexivity|]. split; [|exact Hsorted].
  intros b. rewrite Hmem. unfold inside, encloses. split.
  - intros [Hb Hin]. split; [exact Hb|]. zbool. zbool_goal. lia.
  - intros [Hb Hin]. split; [exact Hb|]. zbool.
    pose proof (is_start_false i b Hns Hb). zbool_goal. lia.
Qed.

(** A fold ending at line [i] is the one on top of the stack, and the
    rest of the stack is what encloses the next line. *)
Lemma stack_of_pop (i : Z) (stack : list bool) :
  is_end c i = true ->
  stack_of c (fun a => encloses a i) stack ->
  exists top rest, stack = top :: rest
                   /\ stack_of c (fun a => inside a (i + 1)) rest.
Proof using Hnested.
  intros He (l & -> & Hmem & Hsorted).
  apply is_end_true in He as (a1 & Ha1 & He1).
  pose proof (nested_range a1 Ha1) as Hr1.
  assert (Hin1 : In a1 l).
  { apply Hmem. split; [exact Ha1|]. unfold encloses. zbool_goal. lia. }
  destruct l as [|h t]; [contradiction|].
  destruct Hsorted as [Hhead Hsorted].
  assert (Hh : In h c /\ encloses h i = true) by (apply Hmem; left; reflexivity).
  destruct Hh as [Hhc Hhi]. unfold encloses in Hhi. zbool.
  assert (Heq : h = a1).
  { destruct Hin1 as [Heq|Hin1]; [exact Heq|].
    specialize (Hhead _ Hin1).
    destruct (nested_separate h a1 Hhc Ha1) as [Heq|Hsep]; [exact Heq|].
    unfold separate in Hsep. zbool; lia. }
  subst h. exists (fexpanded a1), (map fexpanded t).
  split; [reflexivity|].
  exists t. split; [reflexivity|]. split; [|exact Hsorted].
  intros b. unfold inside. split.
  - intros Hb. assert (Hb' : In b c /\ encloses b i = true)
      by (apply Hmem; right; exact Hb).
    destruct Hb' as [Hbc Hbi]. split; [exact Hbc|].
    unfold encloses in Hbi. zbool. specialize (Hhead _ Hb).
    assert (fend b <> i).
    { intros Heq. assert (b = a1) by (apply unique_end; auto; lia).
      subst b. lia. }
    zbool_goal. lia.
  - intros [Hbc Hbi]. zbool.
    assert (Hb : In b (a1 :: t)).
    { apply Hmem. split; [exact Hbc|]. unfold encloses. zbool_goal. lia. }
    destruct Hb as [<-|Hb]; [lia | exact Hb].
Qed.

(** Where no fold ends, the stack stays. *)
Lemma stack_of_no_end (i : Z) (stack : list bool) :
  is_end c i = false ->
  stack_of c (fun a => encloses a i) stack ->
  stack_of c (fun a => inside a (i + 1)) stack.
Proof.
  intros Hne (l & -> & Hmem & Hsorted).
  exists l. split; [reflexivity|]. split; [|exact Hsorted].
  intros b. rewrite Hmem. unfold inside, encloses. split.
  - intros [Hb Hin]. split; [exact Hb|]. zbool.
    pose proof (is_end_false i b Hne Hb). zbool_goal. lia.
  - intros [Hb Hin]. split; [exact Hb|]. zbool. zbool_goal. lia.
Qed.

(** Behind the last line no fold is open. *)
Lemma stack_of_end (stack : list bool) :
  stack_of c (fun a => inside a n) stack -> stack = [].
Proof using Hnested.
  intros (l & -> & Hmem & _). destruct l as [|a l]; [reflexivity|].
  assert (Ha : In a c /\ inside a n = true) by (apply Hmem; left; reflexivity).
  destruct Ha as [Ha Hin]. pose proof (nested_range a Ha).
  unfold inside in Hin. zbool. lia.
Qed.

End Configurations.

(** ** The scan of [updateVisibleLines] on a properly nested table *)

Lemma sizes_agree_true (n : Z) (f : Folds.t) :
  sizes_agree n f = true <->
  QBitArray.size (Folds._foldStarts f) = n
  /\ QBitArray.size (Folds._foldEnds f) = n
  /\ QBitArray.size (Folds._expanded f) = n
  /\ QBitArray.size (Folds._filteredLines f) = n.
Proof. unfold sizes_agree. zbool_goal. tauto. Qed.

Section Scan.
Variable n : Z.
Variable c : list Fold.
Variable f : Folds.t.
Hypothesis Hnested : properly_nested n c = true.
Hypothesis Hrep : represents n c f.

(** The second half of the loop body: the fold end at line [i]. *)
Lemma scan_line_end (i : Z) (s1 : Folds.scan) :
  0 <= i < n ->
  QBitArray.size (Folds.filteredLines s1) = n ->
  Folds.stackHasClosedFold s1 = stack_contains false (Folds.foldStack s1) ->
  stack_of c (fun a => encloses a i) (Folds.foldStack s1) ->
  (forall j, 0 <= j < i + 1 ->
     QBitArray.testBit (Folds.filteredLines s1) j
     = Ok (negb (inside_collapsed c j))) ->
  exists s',
    (let* isEnd := QBitArray.testBit (Folds._foldEnds f) i in
     if isEnd then
       match Folds.foldStack s1 with
       | [] => Fault PopEmptyStack
       | _ :: rest =>
           Ok (Folds.mkScan (Folds.filteredLines s1) rest
                            (stack_contains false rest))
       end
     else Ok s1) = Ok s'
    /\ scan_inv n c (i + 1) s'.
Proof using Hnested Hrep.
  intros Hi Hsz Hflag Hstack Hvis.
  destruct Hrep as (_ & _ & Hends & _).
  rewrite (Hends i Hi). cbn [bind].
  destruct (is_end c i) eqn:He.
  - destruct (stack_of_pop n c Hnested i _ He Hstack)
      as (top & rest & Heq & Hrest).
    rewrite Heq. eexists. split; [reflexivity|].
    repeat split; cbn; auto.
  - exists s1. split; [reflexivity|].
    repeat split; auto.
    apply stack_of_no_end; assumption.
Qed.

(** One iteration of the loop keeps the invariant and raises no fault. *)
Lemma scan_line_inv (i : Z) (s : Folds.scan) :
  0 <= i < n -> scan_inv n c i s ->
  exists s', Folds.scan_line f i s = Ok s' /\ scan_inv n c (i + 1) s'.
Proof using Hnested Hrep.
  intros Hi (Hsz & Hflag & Hstack & Hvis).
  pose proof Hrep as (_ & Hstarts & _ & Hexp).
  unfold Folds.scan_line.
  assert (Hset : QBitArray.setBit (Folds.filteredLines s) i
                   (negb (Folds.stackHasClosedFold s))
                 = Ok (<[Z.to_nat i := negb (Folds.stackHasClosedFold s)]>
                         (Folds.filteredLines s))).
  { apply setBit_Ok. split; [lia | reflexivity]. }
  rewrite Hset. cbn [bind].
  set (filtered := <[Z.to_nat i := negb (Folds.stackHasClosedFold s)]>
                     (Folds.filteredLines s)).
  assert (Hsz' : QBitArray.size filtered = n).
  { unfold filtered. rewrite size_insert. exact Hsz. }
  assert (Hvis' : forall j, 0 <= j < i + 1 ->
            QBitArray.testBit filtered j = Ok (negb (inside_collapsed c j))).
  { intros j Hj. unfold filtered. destruct (Z.eq_dec j i) as [->|Hne].
    - rewrite testBit_insert_eq by lia.
      rewrite Hflag, (stack_contains_collapsed c i) by exact Hstack.
      reflexivity.
    - rewrite testBit_insert_ne by lia. apply Hvis. lia. }
  rewrite (Hstarts i Hi). cbn [bind].
  destruct (is_start c i) eqn:Hst.
  - apply is_start_true in Hst as (a0 & Ha0 & Hs0).
    pose proof (Hexp a0 Ha0) as He0. rewrite Hs0 in He0.
    rewrite He0. cbn [bind].
    apply scan_line_end; cbn; auto.
    + apply stack_contains_push. exact Hflag.
    + apply (stack_of_push n c Hnested i); assumption.
  - cbn [bind]. apply scan_line_end; cbn; auto.
    apply stack_of_no_start; assumption.
Qed.

(** On a properly nested table [updateVisibleLines] runs without a fault
    (no pop of an empty stack, the stack empty at the end), changes only
    the visibility bitmap and the visible-line count, and makes exactly
    the lines behind the start of a collapsed fold invisible. *)
Lemma updateVisibleLines_nested :
  exists f',
    Folds.updateVisibleLines f = Ok f'
    /\ Folds._enabled f' = Folds._enabled f
    /\ Folds._foldStarts f' = Folds._foldStarts f
    /\ Folds._foldEnds f' = Folds._foldEnds f
    /\ Folds._expanded f' = Folds._expanded f
    /\ QBitArray.size (Folds._filteredLines f') = n
    /\ Folds._visibleLines f'
       = QBitArray.count true (Folds._filteredLines f')
    /\ (forall j, 0 <= j < n ->
          Folds.isLineVisible f' j = Ok (negb (inside_collapsed c j))).
Proof using Hnested Hrep.
  pose proof Hrep as (Hsizes & _).
  apply sizes_agree_true in Hsizes as (_ & _ & _ & Hsz).
  pose proof (size_nonneg (Folds._filteredLines f)) as Hn0.
  unfold Folds.updateVisibleLines, for_range. rewrite Hsz.
  destruct (for_loop_invariant (scan_inv n c) (Folds.scan_line f)
              (Z.to_nat (n - 0)) 0
              (Folds.mkScan (QBitArray.fill true (Folds._filteredLines f))
                            [] false))
    as (s & Hloop & Hinv).
  - intros i s Hi. apply scan_line_inv. lia.
  - repeat split; cbn.
    + rewrite size_fill. exact Hsz.
    + exists []. split; [reflexivity|]. split; [|exact I].
      intros a. split; [contradiction|]. intros [Ha Hin].
      pose proof (nested_range n c Hnested a Ha).
      unfold inside in Hin. zbool. lia.
    + intros j Hj. lia.
  - rewrite Hloop. cbn [bind].
    replace (0 + Z.of_nat (Z.to_nat (n - 0))) with n in Hinv by lia.
    destruct Hinv as (Hsz' & _ & Hstack & Hvis).
    rewrite (stack_of_end n c Hnested _ Hstack). cbn.
    eexists. split; [reflexivity|]. cbn. repeat split; auto.
Qed.

End Scan.

(** ** Visibility under nested folds *)

Lemma result_is_true (r : result bool) (b : bool) :
  result_is r b = true -> r = Ok b.
Proof.
  destruct r as [x|e]; simpl; [|discriminate].
  intros H. apply eqb_prop in H. congruence.
Qed.

Lemma encodes_represents (n : Z) (c : list Fold) (f : Folds.t) :
  encodes n c f = true -> represents n c f.
Proof.
  unfold encodes. intros H.
  apply andb_true_iff in H as [H Hexp].
  apply andb_true_iff in H as [Hsizes Hbits].
  rewrite forallb_forall in Hbits. rewrite forallb_forall in Hexp.
  assert (Hi : forall i, 0 <= i < n -> In i (seqZ 0 n)).
  { intros i Hi. apply list_elem_of_In, elem_of_seqZ. lia. }
  repeat split.
  - exact Hsizes.
  - intros i Hr. specialize (Hbits i (Hi i Hr)).
    apply andb_true_iff in Hbits as [Hs _]. apply result_is_true. exact Hs.
  - intros i Hr. specialize (Hbits i (Hi i Hr)).
    apply andb_true_iff in Hbits as [_ He]. apply result_is_true. exact He.
  - intros a Ha. apply result_is_true. apply Hexp. exact Ha.
Qed.

Example example_table_built :
  run (Folds.new false 0) example_mutators = Ok example_table.
Proof. reflexivity. Qed.

Lemma only_expanded_not_inside_collapsed (c : list Fold) (i : Z) :
  only_expanded c i = true -> inside_collapsed c i = false.
Proof.
  intros Hall. destruct (inside_collapsed c i) eqn:Hin; [|reflexivity].
  apply inside_collapsed_true in Hin as (a & Ha & Hexp & Hin).
  unfold only_expanded in Hall. rewrite forallb_forall in Hall.
  specialize (Hall a Ha). rewrite Hexp in Hall.
  unfold inside in Hin. unfold encloses in Hall. zbool.
  replace (fstart a <=? i) with true in Hall by (symmetry; apply Z.leb_le; lia).
  replace (i <=? fend a) with true in Hall by (symmetry; apply Z.leb_le; lia).
  discriminate.
Qed.

(** C1.  On a fold table that holds a properly nested configuration,
    [updateVisibleLines] runs, and afterwards [isLineVisible] reports every
    line that lies in a collapsed fold behind that fold's start line as not
    visible, and every line that only expanded folds (or none) enclose as
    visible. *)
Theorem C1_visibility_under_nested_folds
        (n : Z) (c : list Fold) (f : Folds.t) :
  properly_nested n c = true ->
  encodes n c f = true ->
  exists f',
    Folds.updateVisibleLines f = Ok f'
    /\ forall i, 0 <= i < n ->
         (inside_collapsed c i = true -> Folds.isLineVisible f' i = Ok false)
         /\ (only_expanded c i = true -> Folds.isLineVisible f' i = Ok true).
Proof.
  intros Hnested Henc. apply encodes_represents in Henc.
  destruct (updateVisibleLines_nested n c f Hnested Henc)
    as (f' & Hrun & _ & _ & _ & _ & _ & _ & Hvis).
  exists f'. split; [exact Hrun|].
  intros i Hi. rewrite (Hvis i Hi). split.
  - intros ->. reflexivity.
  - intros Hexp. rewrite (only_expanded_not_inside_collapsed c i Hexp).
    reflexivity.
Qed.

Lemma C1_witness :
  exists f',
    Folds.updateVisibleLines example_table = Ok f'
    /\ forall i, 0 <= i < 6 ->
         (inside_collapsed example_folds i = true ->
          Folds.isLineVisible f' i = Ok false)
         /\ (only_expanded example_folds i = true ->
             Folds.isLineVisible f' i = Ok true).
Proof.
  apply (C1_visibility_under_nested_folds 6 example_folds example_table).
  - reflexivity.
  - reflexivity.
Defined.

(** C10.  For a collapsed fold of more than one line that lies inside no
    other collapsed fold, [updateVisibleLines] leaves the start line visible
    and hides the end line. *)
Theorem C10_collapsed_fold_shows_start_hides_end
        (n : Z) (c : list Fold) (f : Folds.t) (a : Fold) :
  properly_nested n c = true ->
  encodes n c f = true ->
  In a c ->
  fexpanded a = false ->
  fstart a < fend a ->
  outermost_collapsed c a = true ->
  exists f',
    Folds.updateVisibleLines f = Ok f'
    /\ Folds.isLineVisible f' (fstart a) = Ok true
    /\ Folds.isLineVisible f' (fend a) = Ok false.
Proof.
  intros Hnested Henc Ha Hcol Hlt Hout. apply encodes_represents in Henc.
  destruct (updateVisibleLines_nested n c f Hnested Henc)
    as (f' & Hrun & _ & _ & _ & _ & _ & _ & Hvis).
  pose proof (nested_range n c Hnested a Ha) as Hr.
  exists f'. split; [exact Hrun|]. split.
  - rewrite Hvis by lia.
    destruct (inside_collapsed c (fstart a)) eqn:Hin; [|reflexivity].
    apply inside_collapsed_true in Hin as (b & Hb & Hbcol & Hbin).
    unfold outermost_collapsed in Hout. rewrite forallb_forall in Hout.
    specialize (Hout b Hb). rewrite Hbcol in Hout. simpl in Hout.
    unfold inside in Hbin. zbool.
    destruct (nested_separate n c Hnested a b Ha Hb) as [->|Hsep]; [lia|].
    unfold separate in Hsep.
    destruct (fstart b <? fstart a) eqn:E1; destruct (fend a <? fend b) eqn:E2;
      simpl in Hout; try discriminate; zbool; lia.
  - rewrite Hvis by lia.
    assert (Hin : inside_collapsed c (fend a) = true).
    { apply inside_collapsed_true. exists a. repeat split; auto.
      unfold inside. zbool_goal. lia. }
    rewrite Hin. reflexivity.
Qed.

Lemma C10_witness :
  exists f',
    Folds.updateVisibleLines example_table = Ok f'
    /\ Folds.isLineVisible f' 1 = Ok true
    /\ Folds.isLineVisible f' 4 = Ok false.
Proof.
  apply (C10_collapsed_fold_shows_start_hides_end
           6 example_folds example_table (mkFold 1 4 false)).
  - reflexivity.
  - reflexivity.
  - simpl. left. reflexivity.
  - reflexivity.
  - simpl. lia.
  - reflexivity.
Defined.

(** ** Building a table with [setFold] *)

Lemma setFold_Ok (f : Folds.t) (startLine endLine : Z) (fold : bool)
      (f' : Folds.t) :
  Folds.setFold f startLine endLine fold = Ok f' ->
  startLine <= endLine
  /\ (exists b, QBitArray.testBit (Folds._foldStarts f) startLine = Ok b
                /\ QBitArray.testBit (Folds._foldEnds f) endLine = Ok b)
  /\ 0 <= startLine < QBitArray.size (Folds._expanded f)
  /\ f' = {| Folds._enabled := true;
             Folds._foldStarts :=
               <[Z.to_nat startLine := fold]> (Folds._foldStarts f);
             Folds._foldEnds :=
               <[Z.to_nat endLine := fold]> (Folds._foldEnds f);
             Folds._expanded :=
               <[Z.to_nat startLine := false]> (Folds._expanded f);
             Folds._filteredLines := Folds._filteredLines f;
             Folds._visibleLines := Folds._visibleLines f |}.
Proof.
  unfold Folds.setFold. intros H.
  apply bind_Ok in H as (u1 & Hle & H).
  apply bind_Ok in H as (sb & Hsb & H).
  apply bind_Ok in H as (eb & Heb & H).
  apply bind_Ok in H as (u2 & Heq & H).
  apply bind_Ok in H as (starts & Hst & H).
  apply bind_Ok in H as (ends & Hen & H).
  apply bind_Ok in H as (expanded & Hex & H).
  apply Q_ASSERT_Ok, Z.leb_le in Hle.
  apply Q_ASSERT_Ok, eqb_prop in Heq. subst eb.
  apply setBit_Ok in Hst as [_ ->]. apply setBit_Ok in Hen as [_ ->].
  apply setBit_Ok in Hex as [Hr ->]. injection H as <-.
  split; [exact Hle|]. split; [exists sb; auto|]. split; [exact Hr | reflexivity].
Qed.

Section Building.
Variable n : Z.

Lemma blank_represents (f : Folds.t) :
  blank n f = true -> represents n [] f.
Proof.
  unfold blank. intros H.
  apply andb_true_iff in H as [H Hends].
  apply andb_true_iff in H as [Hsizes Hstarts].
  pose proof Hsizes as Hs. apply sizes_agree_true in Hs as (Hs1 & Hs2 & _).
  unfold represents. split; [exact Hsizes|]. split; [|split].
  - intros i Hi. apply forallb_negb_testBit; [exact Hstarts | lia].
  - intros i Hi. apply forallb_negb_testBit; [exact Hends | lia].
  - intros a [].
Qed.

(** [setFold] on a line without a fold start adds a collapsed fold. *)
Lemma setFold_fresh (c : list Fold) (f f' : Folds.t) (s e : Z) :
  represents n c f ->
  Folds.setFold f s e true = Ok f' ->
  QBitArray.testBit (Folds._foldStarts f) s = Ok false ->
  represents n (mkFold s e false :: c) f'
  /\ is_start c s = false /\ is_end c e = false
  /\ 0 <= s /\ s <= e /\ e < n.
Proof.
  intros (Hsizes & Hstarts & Hends & Hexp) Hset Hbit.
  apply setFold_Ok in Hset as (Hle & (b & Hsb & Heb) & Hr & ->).
  rewrite Hbit in Hsb. injection Hsb as <-.
  pose proof Hsizes as Hsz.
  apply sizes_agree_true in Hsz as (Hs1 & Hs2 & Hs3 & Hs4).
  pose proof Hbit as Hrs. apply testBit_Ok in Hrs as [Hrs _].
  pose proof Heb as Hre. apply testBit_Ok in Hre as [Hre _].
  assert (Hns : is_start c s = false).
  { rewrite Hstarts in Hbit by lia. congruence. }
  assert (Hne : is_end c e = false).
  { rewrite Hends in Heb by lia. congruence. }
  split; [|repeat split; auto; lia].
  unfold represents. split; [|split; [|split]].
  - apply sizes_agree_true. cbn. rewrite !size_insert. auto.
  - intros i Hi. cbn [Folds._foldStarts].
    change (is_start (mkFold s e false :: c) i)
      with ((s =? i) || is_start c i).
    destruct (Z.eq_dec s i) as [->|Hsi].
    + rewrite testBit_insert_eq by lia. rewrite Z.eqb_refl. reflexivity.
    + rewrite testBit_insert_ne by lia. rewrite Hstarts by lia.
      replace (s =? i) with false by (symmetry; apply Z.eqb_neq; lia).
      reflexivity.
  - intros i Hi. cbn [Folds._foldEnds].
    change (is_end (mkFold s e false :: c) i)
      with ((e =? i) || is_end c i).
    destruct (Z.eq_dec e i) as [->|Hei].
    + rewrite testBit_insert_eq by lia. rewrite Z.eqb_refl. reflexivity.
    + rewrite testBit_insert_ne by lia. rewrite Hends by lia.
      replace (e =? i) with false by (symmetry; apply Z.eqb_neq; lia).
      reflexivity.
  - intros a [<-|Ha]; cbn [Folds._expanded fstart fexpanded].
    + apply testBit_insert_eq. lia.
    + pose proof (Hexp a Ha) as Hea.
      pose proof (is_start_false c s a Hns Ha) as Hsa.
      pose proof Hea as Hra. apply testBit_Ok in Hra as [Hra _].
      rewrite testBit_insert_ne by lia. exact Hea.
Qed.

(** [setFold] on the start and end of folds that are there changes no
    fold point; the fold starting there is (again) collapsed. *)
Lemma setFold_again (c : list Fold) (f f' : Folds.t) (s e : Z) :
  (forall a, In a c -> fexpanded a = false) ->
  represents n c f ->
  Folds.setFold f s e true = Ok f' ->
  QBitArray.testBit (Folds._foldStarts f) s = Ok true ->
  represents n c f'.
Proof.
  intros Hcol (Hsizes & Hstarts & Hends & Hexp) Hset Hbit.
  apply setFold_Ok in Hset as (Hle & (b & Hsb & Heb) & Hr & ->).
  rewrite Hbit in Hsb. injection Hsb as <-.
  pose proof Hsizes as Hsz.
  apply sizes_agree_true in Hsz as (Hs1 & Hs2 & Hs3 & Hs4).
  pose proof Hbit as Hrs. apply testBit_Ok in Hrs as [Hrs _].
  pose proof Heb as Hre. apply testBit_Ok in Hre as [Hre _].
  unfold represents. split; [|split; [|split]].
  - apply sizes_agree_true. cbn. rewrite !size_insert. auto.
  - intros i Hi. cbn [Folds._foldStarts].
    destruct (Z.eq_dec s i) as [->|Hsi].
    + rewrite testBit_insert_eq by lia. rewrite <- Hbit. apply Hstarts. lia.
    + rewrite testBit_insert_ne by lia. apply Hstarts. lia.
  - intros i Hi. cbn [Folds._foldEnds].
    destruct (Z.eq_dec e i) as [->|Hei].
    + rewrite testBit_insert_eq by lia. rewrite <- Heb. apply Hends. lia.
    + rewrite testBit_insert_ne by lia. apply Hends. lia.
  - intros a Ha. cbn [Folds._expanded].
    pose proof (Hexp a Ha) as Hea.
    pose proof Hea as Hra. apply testBit_Ok in Hra as [Hra _].
    destruct (Z.eq_dec s (fstart a)) as [->|Hsa].
    + rewrite testBit_insert_eq by lia. rewrite (Hcol a Ha). reflexivity.
    + rewrite testBit_insert_ne by lia. exact Hea.
Qed.

(** The fold points that a sequence of fold-creating calls with pairwise
    nested, identical or disjoint ranges leaves are those of a properly
    nested configuration. *)
Lemma setFolds_nested (calls : list (Z * Z)) :
  forall (c : list Fold) (f f' : Folds.t),
    pairwise_compatible calls = true ->
    (forall a x, In a c -> In x calls ->
                 compatible (fstart a, fend a) x = true) ->
    (forall a, In a c -> fexpanded a = false) ->
    properly_nested n c = true ->
    represents n c f ->
    setFolds f calls = Ok f' ->
    exists c', properly_nested n c' = true /\ represents n c' f'.
Proof.
  induction calls as [|[s e] rest IH]; intros c f f' Hpw Hcompat Hcol Hn Hrep Hrun.
  - injection Hrun as <-. exists c. split; assumption.
  - simpl in Hrun. apply bind_Ok in Hrun as (f1 & Hset & Hrun).
    simpl in Hpw. apply andb_true_iff in Hpw as [Hhead Hpw].
    rewrite forallb_forall in Hhead.
    pose proof Hset as Hinv.
    apply setFold_Ok in Hinv as (_ & (b & Hsb & _) & _ & _).
    destruct b.
    + apply (IH c f1 f'); auto.
      * intros a x Ha Hx. apply Hcompat; [exact Ha | right; exact Hx].
      * apply (setFold_again c f f1 s e); assumption.
    + destruct (setFold_fresh c f f1 s e Hrep Hset Hsb)
        as (Hrep1 & Hns & Hne & H0 & Hle & Hlt).
      apply (IH (mkFold s e false :: c) f1 f'); auto.
      * intros a x [<-|Ha] Hx.
        -- apply Hhead. exact Hx.
        -- apply Hcompat; [exact Ha | right; exact Hx].
      * intros a [<-|Ha]; [reflexivity | auto].
      * simpl. rewrite Hn.
        replace (0 <=? s) with true by (symmetry; apply Z.leb_le; lia).
        replace (s <=? e) with true by (symmetry; apply Z.leb_le; lia).
        replace (e <? n) with true by (symmetry; apply Z.ltb_lt; lia).
        simpl. rewrite andb_true_r. apply forallb_forall. intros a Ha.
        pose proof (Hcompat a (s, e) Ha (or_introl eq_refl)) as Hc.
        pose proof (is_start_false c s a Hns Ha).
        pose proof (is_end_false c e a Hne Ha).
        pose proof (nested_range n c Hn a Ha).
        unfold compatible in Hc. simpl in Hc. unfold separate. simpl.
        zbool; zbool_goal; lia.
Qed.

End Building.

Lemma updateVisibleLines_Ok (f f' : Folds.t) :
  Folds.updateVisibleLines f = Ok f' ->
  exists s,
    for_range 0 (QBitArray.size (Folds._filteredLines f)) (Folds.scan_line f)
              (Folds.mkScan (QBitArray.fill true (Folds._filteredLines f))
                            [] false) = Ok s
    /\ Folds.foldStack s = []
    /\ f' = {| Folds._filteredLines := Folds.filteredLines s;
               Folds._visibleLines :=
                 QBitArray.count true (Folds.filteredLines s);
               Folds._enabled := Folds._enabled f;
               Folds._foldStarts := Folds._foldStarts f;
               Folds._foldEnds := Folds._foldEnds f;
               Folds._expanded := Folds._expanded f |}.
Proof.
  unfold Folds.updateVisibleLines. intros H.
  apply bind_Ok in H as (s & Hloop & H).
  apply bind_Ok in H as (u & Hassert & H).
  exists s. split; [exact Hloop|].
  apply Q_ASSERT_Ok in Hassert. injection H as <-.
  destruct (Folds.foldStack s); [auto | discriminate].
Qed.

(** C3.  A fold table without fold points, then a sequence of
    fold-creating [setFold] calls whose ranges are pairwise nested,
    identical or disjoint and whose preconditions hold: the pass of
    [updateVisibleLines] over the result never pops the empty stack (it ends
    without a fault) and ends with the stack empty. *)
Theorem C3_nested_setFold_calls_balance_the_stack
        (n : Z) (f0 : Folds.t) (calls : list (Z * Z)) (f : Folds.t) :
  blank n f0 = true ->
  pairwise_compatible calls = true ->
  setFolds f0 calls = Ok f ->
  exists s f',
    for_range 0 (QBitArray.size (Folds._filteredLines f)) (Folds.scan_line f)
              (Folds.mkScan (QBitArray.fill true (Folds._filteredLines f))
                            [] false) = Ok s
    /\ Folds.foldStack s = []
    /\ Folds.updateVisibleLines f = Ok f'.
Proof.
  intros Hblank Hpw Hrun.
  assert (Hex : exists c, properly_nested n c = true /\ represents n c f).
  { apply (setFolds_nested n calls [] f0 f).
    - exact Hpw.
    - intros a x [].
    - intros a [].
    - reflexivity.
    - apply blank_represents. exact Hblank.
    - exact Hrun. }
  destruct Hex as (c & Hn & Hrep).
  destruct (updateVisibleLines_nested n c f Hn Hrep) as (f' & Hup & _).
  destruct (updateVisibleLines_Ok f f' Hup) as (s & Hloop & Hstack & _).
  exists s, f'. auto.
Qed.

Lemma C3_witness :
  exists s f',
    for_range 0 (QBitArray.size (Folds._filteredLines example_calls_table))
              (Folds.scan_line example_calls_table)
              (Folds.mkScan
                 (QBitArray.fill true
                    (Folds._filteredLines example_calls_table))
                 [] false) = Ok s
    /\ Folds.foldStack s = []
    /\ Folds.updateVisibleLines example_calls_table = Ok f'.
Proof.
  apply (C3_nested_setFold_calls_balance_the_stack
           9 (Folds.setLineCount (Folds.new false 0) 9) example_calls
           example_calls_table).
  - reflexivity.
  - reflexivity.
  - reflexivity.
Defined.

(** A [setFold] call that clears the start of one fold and the end of
    another passes the guard of [setFold] and leaves unbalanced markers: the
    scan of [updateVisibleLines] stops at the pop of the empty stack. *)
Example unbalanced_removal_is_detected :
  run (Folds.new false 0)
      [SetLineCount 9; SetFold 0 3 true; SetFold 5 8 true; SetFold 0 8 false;
       UpdateVisibleLines]
  = Fault PopEmptyStack.
Proof. reflexivity. Qed.

(** Two folds that share their start line: the guard of [setFold] rejects
    the second call. *)
Example shared_start_is_rejected :
  run (Folds.new false 0) [SetLineCount 9; SetFold 0 5 true; SetFold 0 3 true]
  = Fault AssertFailed.
Proof. reflexivity. Qed.

Example example_table_scan :
  Folds.updateVisibleLines example_table = Ok example_table_scanned.
Proof. reflexivity. Qed.

Example example_window_built :
  ScreenWindow.setWindowLines (ScreenWindow.new example_screen false 0) 5
  = Ok example_window.
Proof. reflexivity. Qed.

(** ** [setFold] *)

Lemma setFold_runs (f : Folds.t) (startLine endLine : Z) (fold b : bool) :
  startLine <= endLine ->
  QBitArray.testBit (Folds._foldStarts f) startLine = Ok b ->
  QBitArray.testBit (Folds._foldEnds f) endLine = Ok b ->
  0 <= startLine < QBitArray.size (Folds._expanded f) ->
  Folds.setFold f startLine endLine fold
  = Ok {| Folds._enabled := true;
          Folds._foldStarts :=
            <[Z.to_nat startLine := fold]> (Folds._foldStarts f);
          Folds._foldEnds :=
            <[Z.to_nat endLine := fold]> (Folds._foldEnds f);
          Folds._expanded :=
            <[Z.to_nat startLine := false]> (Folds._expanded f);
          Folds._filteredLines := Folds._filteredLines f;
          Folds._visibleLines := Folds._visibleLines f |}.
Proof.
  intros Hle Hsb Heb Hr. unfold Folds.setFold.
  replace (startLine <=? endLine) with true by (symmetry; apply Z.leb_le; lia).
  cbn [Q_ASSERT bind]. rewrite Hsb, Heb. cbn [bind].
  rewrite eqb_reflx. cbn [Q_ASSERT bind].
  apply testBit_Ok in Hsb as [Hrs _]. apply testBit_Ok in Heb as [Hre _].
  rewrite (proj2 (setBit_Ok (Folds._foldStarts f) startLine fold _)
             (conj Hrs eq_refl)). cbn [bind].
  rewrite (proj2 (setBit_Ok (Folds._foldEnds f) endLine fold _)
             (conj Hre eq_refl)). cbn [bind].
  rewrite (proj2 (setBit_Ok (Folds._expanded f) startLine false _)
             (conj Hr eq_refl)). cbn [bind].
  reflexivity.
Qed.

(** C2.  A [setFold] call over [startLine <= endLine] leaves the expanded
    bit of the start line false whatever its third argument is: the fold it
    creates is collapsed, and the call with the other value of the argument
    leaves the same expanded bits. *)
Theorem C2_setFold_leaves_the_fold_collapsed
        (f : Folds.t) (startLine endLine : Z) (open : bool) (f' : Folds.t) :
  startLine <= endLine ->
  Folds.setFold f startLine endLine open = Ok f' ->
  QBitArray.testBit (Folds._expanded f') startLine = Ok false
  /\ (open = true ->
      QBitArray.testBit (Folds._foldStarts f') startLine = Ok true
      /\ QBitArray.testBit (Folds._foldEnds f') endLine = Ok true)
  /\ (forall open', exists f'',
        Folds.setFold f startLine endLine open' = Ok f''
        /\ Folds._expanded f'' = Folds._expanded f').
Proof.
  intros Hle Hset.
  apply setFold_Ok in Hset as (_ & (b & Hsb & Heb) & Hr & ->).
  cbn [Folds._expanded Folds._foldStarts Folds._foldEnds].
  split; [|split].
  - apply testBit_insert_eq. exact Hr.
  - intros ->. pose proof Hsb as Hrs. apply testBit_Ok in Hrs as [Hrs _].
    pose proof Heb as Hre. apply testBit_Ok in Hre as [Hre _].
    split; apply testBit_insert_eq; assumption.
  - intros open'. eexists. split.
    + apply (setFold_runs f startLine endLine open' b); assumption.
    + reflexivity.
Qed.

Lemma C2_witness :
  exists f',
    Folds.setFold (Folds.setLineCount (Folds.new false 0) 6) 1 4 true = Ok f'
    /\ QBitArray.testBit (Folds._expanded f') 1 = Ok false
    /\ (true = true ->
        QBitArray.testBit (Folds._foldStarts f') 1 = Ok true
        /\ QBitArray.testBit (Folds._foldEnds f') 4 = Ok true)
    /\ (forall open', exists f'',
          Folds.setFold (Folds.setLineCount (Folds.new false 0) 6) 1 4 open'
          = Ok f''
          /\ Folds._expanded f'' = Folds._expanded f').
Proof.
  eexists. split.
  - reflexivity.
  - apply (C2_setFold_leaves_the_fold_collapsed
             (Folds.setLineCount (Folds.new false 0) 6) 1 4 true).
    + lia.
    + reflexivity.
Defined.

(** ** Building a configuration *)

Lemma represents_encodes (n : Z) (c : list Fold) (f : Folds.t) :
  represents n c f -> encodes n c f = true.
Proof.
  intros (Hsizes & Hstarts & Hends & Hexp). unfold encodes.
  rewrite Hsizes. cbn [andb]. apply andb_true_iff. split.
  - apply forallb_forall. intros i Hi.
    apply list_elem_of_In, elem_of_seqZ in Hi.
    rewrite Hstarts, Hends by lia. cbn. rewrite !eqb_reflx. reflexivity.
  - apply forallb_forall. intros a Ha. rewrite (Hexp a Ha). cbn.
    apply eqb_reflx.
Qed.

Lemma setOpen_top (n : Z) (c : list Fold) (f : Folds.t) (s e : Z) (b : bool) :
  Folds._enabled f = true ->
  is_start c s = false ->
  0 <= s < n ->
  represents n (mkFold s e false :: c) f ->
  exists f',
    Folds.setOpen f s b = Ok f'
    /\ Folds._enabled f' = true
    /\ represents n (mkFold s e b :: c) f'.
Proof.
  intros Hen Hns Hs (Hsizes & Hstarts & Hends & Hexp).
  pose proof Hsizes as Hsz.
  apply sizes_agree_true in Hsz as (Hs1 & Hs2 & Hs3 & Hs4).
  unfold Folds.setOpen, Folds.type. rewrite Hen. cbn [negb].
  rewrite (Hstarts s Hs).
  change (is_start (mkFold s e false :: c) s) with ((s =? s) || is_start c s).
  rewrite Z.eqb_refl. cbn [orb bind Folds.Type_eqb Q_ASSERT].
  assert (Hr : 0 <= s < QBitArray.size (Folds._expanded f)) by lia.
  rewrite (proj2 (setBit_Ok (Folds._expanded f) s b _) (conj Hr eq_refl)).
  cbn [bind]. eexists. split; [reflexivity|]. split; [reflexivity|].
  unfold represents. split; [|split; [|split]].
  - apply sizes_agree_true. cbn. rewrite size_insert. auto.
  - exact Hstarts.
  - exact Hends.
  - intros a [<-|Ha]; cbn [Folds._expanded fstart fexpanded].
    + apply testBit_insert_eq. lia.
    + pose proof (Hexp a (or_intror Ha)) as Hea.
      pose proof (is_start_false c s a Hns Ha) as Hsa.
      pose proof Hea as Hra. apply testBit_Ok in Hra as [Hra _].
      rewrite testBit_insert_ne by lia. exact Hea.
Qed.

(** Every properly nested configuration can be built on a table without
    fold points, and the table built holds it. *)
Lemma configure_encodes (n : Z) (f0 : Folds.t) (c : list Fold) :
  blank n f0 = true ->
  properly_nested n c = true ->
  exists f, configure f0 c = Ok f /\ encodes n c f = true.
Proof.
  intros Hblank Hnested.
  assert (H : exists f, configure f0 c = Ok f /\ represents n c f
                        /\ (c <> [] -> Folds._enabled f = true)).
  { induction c as [|a c IH].
    - exists f0. split; [reflexivity|]. split.
      + apply blank_represents. exact Hblank.
      + intros Hne. contradiction.
    - pose proof (nested_range n (a :: c) Hnested a (or_introl eq_refl))
        as Hra.
      simpl in Hnested.
      apply andb_true_iff in Hnested as [Hhead Hrest].
      apply andb_true_iff in Hhead as [Hrange Hsep].
      destruct (IH Hrest) as (f & Hrun & Hrep & _).
      cbn [configure]. rewrite Hrun. cbn [bind].
      rewrite forallb_forall in Hsep. zbool.
      assert (Hns : is_start c (fstart a) = false).
      { destruct (is_start c (fstart a)) eqn:E; [|reflexivity].
        apply is_start_true in E as (b & Hb & Heq).
        specialize (Hsep b Hb). pose proof (nested_range n c Hrest b Hb).
        unfold separate in Hsep. zbool; lia. }
      assert (Hne : is_end c (fend a) = false).
      { destruct (is_end c (fend a)) eqn:E; [|reflexivity].
        apply is_end_true in E as (b & Hb & Heq).
        specialize (Hsep b Hb). pose proof (nested_range n c Hrest b Hb).
        unfold separate in Hsep. zbool; lia. }
      pose proof Hrep as (Hsizes & Hstarts & Hends & _).
      apply sizes_agree_true in Hsizes as (Hs1 & Hs2 & Hs3 & Hs4).
      pose proof (setFold_runs f (fstart a) (fend a) true false) as Hset.
      rewrite Hstarts, Hends, Hns, Hne in Hset by lia.
      assert (Hr : 0 <= fstart a < QBitArray.size (Folds._expanded f)) by lia.
      specialize (Hset (proj1 (proj2 Hra)) eq_refl eq_refl Hr).
      rewrite Hset. cbn [bind].
      destruct (setFold_fresh n c f _ (fstart a) (fend a) Hrep Hset)
        as (Hrep1 & _).
      { rewrite Hstarts, Hns by lia. reflexivity. }
      assert (Hsn : 0 <= fstart a < n) by lia.
      match type of Hrep1 with
      | represents _ _ ?f1 =>
          destruct (setOpen_top n c f1 (fstart a) (fend a) (fexpanded a)
                      eq_refl Hns Hsn Hrep1)
            as (f2 & Hopen & Hen2 & Hrep2)
      end.
      exists f2. split; [exact Hopen|]. split.
      + destruct a as [s e b]. exact Hrep2.
      + intros _. exact Hen2. }
  destruct H as (f & Hrun & Hrep & _).
  exists f. split; [exact Hrun|]. apply represents_encodes. exact Hrep.
Qed.

(** ** [setLineCount] *)

(** C9, as the claim states it, fails: the table [example_table_scanned]
    has six lines, line 2 is hidden, and [setLineCount(8)] makes the bit of
    line 2 in the filtered-lines bitmap true. *)
Lemma C9_counterexample :
  ~ (forall i b,
       QBitArray.testBit (Folds._filteredLines example_table_scanned) i = Ok b ->
       QBitArray.testBit
         (Folds._filteredLines (Folds.setLineCount example_table_scanned 8)) i
       = Ok b).
Proof.
  intros H. specialize (H 2 false eq_refl). discriminate H.
Qed.

(** C9, amended.  [setLineCount(n)] changes nothing when [n] is the length
    of the fold-start array.  When it grows a table of [m] lines to [n > m]
    lines, every bit of the fold-start, fold-end and expanded arrays keeps
    its value, their new bits are false, and the filtered-lines bitmap
    becomes [n] bits that all say visible, the existing ones included. *)
Theorem C9_setLineCount_keeps_fold_bits_and_resets_visibility
        (f : Folds.t) (m n : Z) :
  sizes_agree m f = true ->
  (n = m -> Folds.setLineCount f n = f)
  /\ (m < n ->
      let f' := Folds.setLineCount f n in
      sizes_agree n f' = true
      /\ Folds._enabled f' = Folds._enabled f
      /\ Folds._visibleLines f' = Folds._visibleLines f
      /\ (forall i, 0 <= i < m ->
            QBitArray.testBit (Folds._foldStarts f') i
            = QBitArray.testBit (Folds._foldStarts f) i
            /\ QBitArray.testBit (Folds._foldEnds f') i
               = QBitArray.testBit (Folds._foldEnds f) i
            /\ QBitArray.testBit (Folds._expanded f') i
               = QBitArray.testBit (Folds._expanded f) i)
      /\ (forall i, m <= i < n ->
            QBitArray.testBit (Folds._foldStarts f') i = Ok false
            /\ QBitArray.testBit (Folds._foldEnds f') i = Ok false
            /\ QBitArray.testBit (Folds._expanded f') i = Ok false)
      /\ (forall i, 0 <= i < n ->
            QBitArray.testBit (Folds._filteredLines f') i = Ok true)).
Proof.
  intros Hsizes. apply sizes_agree_true in Hsizes as (Hs1 & Hs2 & Hs3 & Hs4).
  pose proof (size_nonneg (Folds._foldStarts f)) as Hm.
  unfold Folds.setLineCount. split.
  - intros ->. rewrite Hs1, Z.eqb_refl. reflexivity.
  - intros Hlt.
    replace (QBitArray.size (Folds._foldStarts f) =? n) with false
      by (symmetry; apply Z.eqb_neq; lia).
    cbn. split; [|split; [|split; [|split; [|split]]]].
    + apply sizes_agree_true. cbn.
      rewrite !size_resize, size_fill_size by lia. auto.
    + reflexivity.
    + reflexivity.
    + intros i Hi. rewrite !testBit_resize_old by lia. auto.
    + intros i Hi. rewrite !testBit_resize_new by lia. auto.
    + intros i Hi. apply testBit_fill_size. exact Hi.
Qed.

Lemma C9_witness :
  (8 = 6 -> Folds.setLineCount example_table_scanned 8 = example_table_scanned)
  /\ (6 < 8 ->
      let f' := Folds.setLineCount example_table_scanned 8 in
      sizes_agree 8 f' = true
      /\ Folds._enabled f' = Folds._enabled example_table_scanned
      /\ Folds._visibleLines f' = Folds._visibleLines example_table_scanned
      /\ (forall i, 0 <= i < 6 ->
            QBitArray.testBit (Folds._foldStarts f') i
            = QBitArray.testBit (Folds._foldStarts example_table_scanned) i
            /\ QBitArray.testBit (Folds._foldEnds f') i
               = QBitArray.testBit (Folds._foldEnds example_table_scanned) i
            /\ QBitArray.testBit (Folds._expanded f') i
               = QBitArray.testBit (Folds._expanded example_table_scanned) i)
      /\ (forall i, 6 <= i < 8 ->
            QBitArray.testBit (Folds._foldStarts f') i = Ok false
            /\ QBitArray.testBit (Folds._foldEnds f') i = Ok false
            /\ QBitArray.testBit (Folds._expanded f') i = Ok false)
      /\ (forall i, 0 <= i < 8 ->
            QBitArray.testBit (Folds._filteredLines f') i = Ok true)).
Proof.
  apply (C9_setLineCount_keeps_fold_bits_and_resets_visibility
           example_table_scanned 6 8).
  reflexivity.
Defined.

(** ** Scrolling *)

Lemma qBound_max_min (min val max : Z) :
  qBound min val max = Z.max min (Z.min max val).
Proof.
  unfold qBound, qMax, qMin.
  destruct (max <? val) eqn:E1; zbool.
  - destruct (min <? max) eqn:E2; zbool; lia.
  - destruct (min <? val) eqn:E2; zbool; lia.
Qed.

Example small_window_built :
  (let* w := ScreenWindow.setWindowLines
               (ScreenWindow.new foo_screen false 0) 4 in
   Ok (ScreenWindow.scrollTo w 2))
  = Ok small_window.
Proof. reflexivity. Qed.

(** Ten lines under a window of four: the top line stays within 0 .. 6. *)
Example scrollTo_beyond_the_end :
  ScreenWindow._currentLine (ScreenWindow.scrollTo small_window 100) = 6
  /\ ScreenWindow._scrollCount (ScreenWindow.scrollTo small_window 100) = 6.
Proof. split; reflexivity. Qed.

Example scrollTo_negative :
  ScreenWindow._currentLine (ScreenWindow.scrollTo small_window (-3)) = 0
  /\ ScreenWindow._scrollCount (ScreenWindow.scrollTo small_window (-3)) = 0.
Proof. split; reflexivity. Qed.

Example scrollTo_inside :
  ScreenWindow._currentLine (ScreenWindow.scrollTo small_window 5) = 5
  /\ ScreenWindow._scrollCount (ScreenWindow.scrollTo small_window 5) = 5.
Proof. split; reflexivity. Qed.

(** C7, as the claim states it, fails: on the window of five lines over a
    screen of three lines, [scrollTo(10)] is beyond [lineCount - height]
    and leaves the top line at 0, not at [lineCount - height = -2]. *)
Lemma C7_counterexample :
  ScreenWindow.lineCount example_window
  - ScreenWindow.windowLines example_window < 10
  /\ ScreenWindow._currentLine (ScreenWindow.scrollTo example_window 10)
     <> ScreenWindow.lineCount example_window
        - ScreenWindow.windowLines example_window.
Proof. split; [reflexivity | discriminate]. Qed.

(** C7, amended.  [scrollTo(line)] stores [qBound(0, line, lineCount -
    height)] as the top line: when [lineCount >= height] that is [line]
    clamped into [0 .. lineCount - height], when [lineCount < height] it is
    0 for every [line].  In both cases the scroll counter grows by the new
    top line minus the old one, the image is marked dirty and [scrolled] is
    emitted with the new top line. *)
Theorem C7_scrollTo_clamps_and_counts (w : ScreenWindow.t) (line : Z) :
  let upper := ScreenWindow.lineCount w - ScreenWindow.windowLines w in
  let w' := ScreenWindow.scrollTo w line in
  let top := ScreenWindow._currentLine w' in
  (0 <= upper ->
   0 <= top <= upper
   /\ (upper < line -> top = upper)
   /\ (line < 0 -> top = 0)
   /\ (0 <= line <= upper -> top = line))
  /\ (upper < 0 -> top = 0)
  /\ ScreenWindow._scrollCount w'
     = ScreenWindow._scrollCount w + (top - ScreenWindow._currentLine w)
  /\ ScreenWindow._bufferNeedsUpdate w' = true
  /\ ScreenWindow.emitted w'
     = ScreenWindow.scrolled top :: ScreenWindow.emitted w.
Proof.
  cbn -[qBound ScreenWindow.lineCount ScreenWindow.windowLines].
  rewrite qBound_max_min.
  repeat split; lia.
Qed.

(** C8.  [currentLine()] is the stored top line clamped into
    [0 .. visibleLineCount() - height]; when [visibleLineCount() < height]
    it is 0 whatever the stored top line is. *)
Theorem C8_currentLine_clamps (w : ScreenWindow.t) :
  let upper := ScreenWindow.visibleLineCount w - ScreenWindow.windowLines w in
  let stored := ScreenWindow._currentLine w in
  let top := ScreenWindow.currentLine w in
  (0 <= upper ->
   0 <= top <= upper
   /\ (stored < 0 -> top = 0)
   /\ (upper < stored -> top = upper)
   /\ (0 <= stored <= upper -> top = stored))
  /\ (ScreenWindow.visibleLineCount w < ScreenWindow.windowLines w -> top = 0).
Proof.
  cbn -[qBound ScreenWindow.visibleLineCount ScreenWindow.windowLines].
  unfold ScreenWindow.currentLine. rewrite qBound_max_min.
  repeat split; lia.
Qed.

Example currentLine_inside :
  ScreenWindow.currentLine small_window = 2.
Proof. reflexivity. Qed.

(** Three lines under a window of five: the bounds of the clamp are
    inverted and the top line is 0. *)
Example currentLine_taller_window :
  ScreenWindow.currentLine (ScreenWindow.scrollTo example_window 10) = 0
  /\ ScreenWindow.currentLine example_window = 0.
Proof. split; reflexivity. Qed.

(** ** What every reachable fold table satisfies *)

Lemma size_resize_max (n : Z) (a : list bool) :
  QBitArray.size (QBitArray.resize n a) = Z.max 0 n.
Proof.
  unfold QBitArray.size, QBitArray.resize. rewrite length_resize. lia.
Qed.

Lemma size_fill_size_max (v : bool) (n : Z) (a : list bool) :
  QBitArray.size (QBitArray.fill_size v n a) = Z.max 0 n.
Proof.
  unfold QBitArray.size, QBitArray.fill_size. rewrite length_replicate. lia.
Qed.

Lemma forallb_negb_take (k : nat) (a : list bool) :
  forallb negb a = true -> forallb negb (take k a) = true.
Proof.
  revert k. induction a as [|b a IH]; intros [|k] H; simpl in *; auto.
  apply andb_true_iff in H as [-> H]. simpl. auto.
Qed.

Lemma forallb_negb_replicate (k : nat) :
  forallb negb (replicate k false) = true.
Proof. induction k as [|k IH]; simpl; auto. Qed.

Lemma forallb_negb_resize (n : Z) (a : list bool) :
  forallb negb a = true -> forallb negb (QBitArray.resize n a) = true.
Proof.
  intros H. unfold QBitArray.resize. rewrite resize_spec, forallb_app.
  rewrite forallb_negb_take by exact H. apply forallb_negb_replicate.
Qed.

Lemma for_loop_preserves {S : Type} (Q : S -> Prop)
      (body : Z -> S -> result S) (n : nat) :
  (forall i s s', body i s = Ok s' -> Q s -> Q s') ->
  forall lo s s', Q s -> for_loop n lo body s = Ok s' -> Q s'.
Proof.
  intros Hbody. induction n as [|n IH]; intros lo s s' Hs Hrun.
  - injection Hrun as <-. exact Hs.
  - simpl in Hrun. apply bind_Ok in Hrun as (s1 & Hb & Hrun).
    apply (IH (lo + 1) s1 s'); [|exact Hrun].
    apply (Hbody lo s s1); assumption.
Qed.

Lemma scan_line_size (f : Folds.t) (i : Z) (s s' : Folds.scan) :
  Folds.scan_line f i s = Ok s' ->
  QBitArray.size (Folds.filteredLines s')
  = QBitArray.size (Folds.filteredLines s).
Proof.
  unfold Folds.scan_line. intros H.
  apply bind_Ok in H as (filtered & Hset & H).
  apply bind_Ok in H as (isStart & _ & H).
  apply bind_Ok in H as (s1 & Hs1 & H).
  apply bind_Ok in H as (isEnd & _ & H).
  apply setBit_Ok in Hset as [_ ->].
  assert (H1 : Folds.filteredLines s1
               = <[Z.to_nat i := negb (Folds.stackHasClosedFold s)]>
                   (Folds.filteredLines s)).
  { destruct isStart.
    - apply bind_Ok in Hs1 as (open & _ & Hs1). injection Hs1 as <-.
      reflexivity.
    - injection Hs1 as <-. reflexivity. }
  assert (H2 : Folds.filteredLines s' = Folds.filteredLines s1).
  { destruct isEnd.
    - destruct (Folds.foldStack s1); [discriminate|].
      injection H as <-. reflexivity.
    - injection H as <-. reflexivity. }
  rewrite H2, H1. apply size_insert.
Qed.

Lemma setOpen_Ok (f : Folds.t) (line : Z) (open : bool) (f' : Folds.t) :
  Folds.setOpen f line open = Ok f' ->
  f' = {| Folds._expanded := <[Z.to_nat line := open]> (Folds._expanded f);
          Folds._enabled := Folds._enabled f;
          Folds._foldStarts := Folds._foldStarts f;
          Folds._foldEnds := Folds._foldEnds f;
          Folds._filteredLines := Folds._filteredLines f;
          Folds._visibleLines := Folds._visibleLines f |}.
Proof.
  unfold Folds.setOpen. intros H.
  apply bind_Ok in H as (ty & _ & H).
  apply bind_Ok in H as (u & _ & H).
  apply bind_Ok in H as (expanded & Hset & H).
  apply setBit_Ok in Hset as [_ ->]. injection H as <-. reflexivity.
Qed.

Lemma table_inv_new (enabled : bool) (visibleLines : Z) :
  table_inv (Folds.new enabled visibleLines).
Proof. split; [reflexivity | intros _; split; reflexivity]. Qed.

Lemma table_inv_mutate (f : Folds.t) (m : mutator) (f' : Folds.t) :
  table_inv f -> mutate f m = Ok f' -> table_inv f'.
Proof.
  intros [Hsizes Hoff] Hm.
  apply sizes_agree_true in Hsizes as (_ & Hs2 & Hs3 & Hs4).
  destruct m as [size|startLine endLine fold|line open| |]; simpl in Hm.
  - injection Hm as <-. unfold Folds.setLineCount.
    destruct (negb (QBitArray.size (Folds._foldStarts f) =? size)).
    + split.
      * apply sizes_agree_true. cbn.
        rewrite !size_resize_max, size_fill_size_max. auto.
      * cbn. intros He. destruct (Hoff He) as [H1 H2].
        split; apply forallb_negb_resize; assumption.
    + split; [|exact Hoff]. apply sizes_agree_true. auto.
  - apply setFold_Ok in Hm as (_ & _ & _ & ->). split.
    + apply sizes_agree_true. cbn. rewrite !size_insert. auto.
    + cbn. discriminate.
  - apply setOpen_Ok in Hm as ->. split.
    + apply sizes_agree_true. cbn. rewrite !size_insert. auto.
    + cbn. exact Hoff.
  - injection Hm as <-. split.
    + apply sizes_agree_true. cbn. rewrite !size_fill. auto.
    + cbn. intros _. split; apply forallb_negb_fill.
  - apply updateVisibleLines_Ok in Hm as (s & Hloop & _ & ->). split.
    + assert (Hsize : QBitArray.size (Folds.filteredLines s)
                      = QBitArray.size
                          (QBitArray.fill true (Folds._filteredLines f))).
      { unfold for_range in Hloop.
        apply (for_loop_preserves
                 (fun s => QBitArray.size (Folds.filteredLines s)
                           = QBitArray.size
                               (QBitArray.fill true (Folds._filteredLines f)))
                 (Folds.scan_line f) _) in Hloop.
        - exact Hloop.
        - intros i s0 s1 Hstep Hs0. rewrite <- Hs0.
          apply (scan_line_size f i). exact Hstep.
        - reflexivity. }
      rewrite size_fill in Hsize.
      apply sizes_agree_true. cbn. rewrite Hsize. auto.
    + cbn. exact Hoff.
Qed.

Lemma table_inv_run (ms : list mutator) :
  forall f f', table_inv f -> run f ms = Ok f' -> table_inv f'.
Proof.
  induction ms as [|m ms IH]; intros f f' Hinv Hrun.
  - injection Hrun as <-. exact Hinv.
  - simpl in Hrun. apply bind_Ok in Hrun as (f1 & Hm & Hrun).
    apply (IH f1 f'); [|exact Hrun].
    apply (table_inv_mutate f m f1); assumption.
Qed.

(** ** Counting visible lines *)

Lemma Folds_count_nonneg (f : Folds.t) : 0 <= Folds.count f.
Proof.
  unfold Folds.count. destruct (Folds._enabled f); [|lia].
  apply count_le_size.
Qed.

(** C4.  On every fold table that the mutators of the class can build,
    after [updateVisibleLines] the result of [Folds::visibleLineCount()] is
    the number of true bits of the visibility bitmap; and a window whose
    fold table counts no fold reports [lineCount()] as its
    [visibleLineCount()]. *)
Theorem C4_visibleLineCount_counts_true_bits
        (ms : list mutator) (enabled : bool) (visibleLines : Z)
        (f f' : Folds.t) :
  run (Folds.new enabled visibleLines) ms = Ok f ->
  Folds.updateVisibleLines f = Ok f' ->
  Folds.visibleLineCount f'
  = QBitArray.count true (Folds._filteredLines f')
  /\ (forall w, Folds.count (ScreenWindow._folds w) = 0 ->
                ScreenWindow.visibleLineCount w = ScreenWindow.lineCount w).
Proof.
  intros Hrun Hup. split.
  - pose proof (table_inv_run ms _ f (table_inv_new enabled visibleLines) Hrun)
      as [Hsizes Hoff].
    pose proof Hup as Hshape.
    apply updateVisibleLines_Ok in Hshape as (s & _ & _ & Hf').
    unfold Folds.visibleLineCount.
    destruct (Folds._enabled f') eqn:He.
    + rewrite Hf'. reflexivity.
    + assert (He0 : Folds._enabled f = false) by (rewrite Hf' in He; exact He).
      destruct (Hoff He0) as [Hst Hen].
      assert (Hrep : represents (QBitArray.size (Folds._foldStarts f)) [] f).
      { apply blank_represents. unfold blank. rewrite Hsizes, Hst, Hen.
        reflexivity. }
      destruct (updateVisibleLines_nested _ [] f eq_refl Hrep)
        as (f2 & Hup2 & _ & _ & _ & _ & Hsz & _ & Hvis).
      rewrite Hup in Hup2. injection Hup2 as <-.
      symmetry. apply count_all. intros i Hi. rewrite Hsz in Hi.
      apply (Hvis i Hi).
  - intros w Hnone. unfold ScreenWindow.visibleLineCount.
    rewrite Hnone. reflexivity.
Qed.

Lemma C4_witness :
  Folds.visibleLineCount example_table_scanned
  = QBitArray.count true (Folds._filteredLines example_table_scanned)
  /\ (forall w, Folds.count (ScreenWindow._folds w) = 0 ->
                ScreenWindow.visibleLineCount w = ScreenWindow.lineCount w).
Proof.
  apply (C4_visibleLineCount_counts_true_bits
           example_mutators false 0 example_table example_table_scanned).
  - reflexivity.
  - reflexivity.
Defined.

(** ** The filter *)

Example foo_window_built :
  ScreenWindow.setWindowLines (ScreenWindow.new foo_screen false 0) 10
  = Ok foo_window.
Proof. reflexivity. Qed.

Example foo_createFilterFolds :
  ScreenWindow.createFilterFolds foo_window "foo"
  = Ok (ScreenWindow.with_folds foo_window (foo_table 0)).
Proof. reflexivity. Qed.

(** ** The folds of the filter *)

Lemma for_loop_ext {S : Type} (body1 body2 : Z -> S -> result S) (n : nat) :
  forall lo s,
    (forall i s, lo <= i < lo + Z.of_nat n -> body1 i s = body2 i s) ->
    for_loop n lo body1 s = for_loop n lo body2 s.
Proof.
  induction n as [|n IH]; intros lo s Hext.
  - reflexivity.
  - simpl. rewrite (Hext lo s) by lia.
    destruct (body2 lo s) as [s1|e]; simpl; [|reflexivity].
    apply IH. intros i s0 Hi. apply Hext. lia.
Qed.

Lemma removeAll_setLineCount (f : Folds.t) (m n : Z) :
  sizes_agree m f = true -> 0 <= n ->
  Folds.removeAll (Folds.setLineCount f n)
  = {| Folds._enabled := false;
       Folds._foldStarts := replicate (Z.to_nat n) false;
       Folds._foldEnds := replicate (Z.to_nat n) false;
       Folds._expanded := replicate (Z.to_nat n) false;
       Folds._filteredLines := replicate (Z.to_nat n) true;
       Folds._visibleLines := Folds._visibleLines f |}.
Proof.
  intros Hsizes Hn. apply sizes_agree_true in Hsizes as (Hs1 & Hs2 & Hs3 & Hs4).
  unfold Folds.removeAll, Folds.setLineCount.
  destruct (QBitArray.size (Folds._foldStarts f) =? n) eqn:E; zbool; cbn.
  - unfold QBitArray.fill, QBitArray.size in *.
    replace (length (Folds._foldStarts f)) with (Z.to_nat n) by lia.
    replace (length (Folds._foldEnds f)) with (Z.to_nat n) by lia.
    replace (length (Folds._expanded f)) with (Z.to_nat n) by lia.
    replace (length (Folds._filteredLines f)) with (Z.to_nat n) by lia.
    reflexivity.
  - unfold QBitArray.fill, QBitArray.resize, QBitArray.fill_size.
    rewrite !length_resize, length_replicate. reflexivity.
Qed.

Lemma createFilterFolds_foo (w : ScreenWindow.t) (m : Z) :
  ScreenWindow.lineCount w = 10 ->
  (forall i, 0 <= i < 10 ->
     contains (Screen.decodedLine (ScreenWindow._screen w) i) "foo"
     = (i =? 5)) ->
  sizes_agree m (ScreenWindow._folds w) = true ->
  ScreenWindow.createFilterFolds w "foo"
  = Ok (ScreenWindow.with_folds
          (ScreenWindow.with_filterNeedsUpdate w false)
          (foo_table (Folds._visibleLines (ScreenWindow._folds w)))).
Proof.
  intros Hcount Hmatch Hsizes.
  unfold ScreenWindow.createFilterFolds.
  cbn [isEmpty].
  change (ScreenWindow.lineCount (ScreenWindow.with_filterNeedsUpdate w false))
    with (ScreenWindow.lineCount w).
  change (ScreenWindow._folds (ScreenWindow.with_filterNeedsUpdate w false))
    with (ScreenWindow._folds w).
  rewrite Hcount.
  rewrite (removeAll_setLineCount _ m 10 Hsizes) by lia.
  unfold for_range.
  rewrite (for_loop_ext _
             (fun i (st : Folds.t * Z) =>
                let '(folds, foldStart) := st in
                if (i =? 5) || (i =? 0) || (i =? 9) then
                  let* folds :=
                    if negb (i =? 0) then Folds.setFold folds foldStart (i - 1) true
                    else Ok folds in
                  Ok (folds, i)
                else Ok (folds, foldStart))).
  - generalize (Folds._visibleLines (ScreenWindow._folds w)). intros v.
    reflexivity.
  - intros i [folds foldStart] Hi. unfold ScreenWindow.filter_line.
    change (ScreenWindow._screen (ScreenWindow.with_filterNeedsUpdate w false))
      with (ScreenWindow._screen w).
    rewrite Hmatch by lia. reflexivity.
Qed.

Lemma write_app (pre rest cells : list Character) (offset : Z) :
  Z.of_nat (length pre) = offset ->
  (length cells <= length rest)%nat ->
  Screen.write (pre ++ rest) offset cells
  = Ok (pre ++ cells ++ drop (length cells) rest).
Proof.
  intros Hpre Hlen. unfold Screen.write.
  rewrite length_app.
  replace (0 <=? offset) with true by (symmetry; apply Z.leb_le; lia).
  replace (offset + Z.of_nat (length cells)
           <=? Z.of_nat (length pre + length rest)) with true
    by (symmetry; apply Z.leb_le; lia).
  cbn [andb].
  replace (Z.to_nat offset) with (length pre) by lia.
  rewrite take_app_length, drop_app_add. reflexivity.
Qed.

Lemma length_lineImage (screen : Screen.t) (line : Z) :
  length (Screen.lineImage screen line) = Z.to_nat (Screen.getColumns screen).
Proof.
  unfold Screen.lineImage. rewrite length_map, length_seqZ. reflexivity.
Qed.

Lemma getImage_line (screen : Screen.t) (pre rest : list Character)
      (i count : Z) :
  0 <= Screen.getColumns screen ->
  0 <= i < Screen.getHistLines screen + Screen.getLines screen ->
  Z.of_nat (length pre) = Screen.getColumns screen * count ->
  Screen.getColumns screen <= Z.of_nat (length rest) ->
  Screen.getImage screen (pre ++ rest) (Screen.getColumns screen * count)
                  (Screen.getColumns screen) i i
  = Ok (pre ++ Screen.lineImage screen i
            ++ drop (Z.to_nat (Screen.getColumns screen)) rest).
Proof.
  intros Hcols Hi Hpre Hrest. unfold Screen.getImage.
  replace (0 <=? i) with true by (symmetry; apply Z.leb_le; lia).
  rewrite Z.leb_refl.
  replace (i <? Screen.getHistLines screen + Screen.getLines screen)
    with true by (symmetry; apply Z.ltb_lt; lia).
  replace (i - i + 1) with 1 by lia.
  replace (1 * Screen.getColumns screen <=? Screen.getColumns screen)
    with true by (symmetry; apply Z.leb_le; lia).
  cbn [andb Q_ASSERT bind].
  change (seqZ i 1) with [i]. cbn [flat_map]. rewrite app_nil_r.
  rewrite write_app.
  - rewrite length_lineImage. reflexivity.
  - exact Hpre.
  - rewrite length_lineImage. lia.
Qed.

Section CopyVisible.
Variable screen : Screen.t.
Variable folds : Folds.t.
Variable cursorLine limit : Z.
Variable vis : Z -> bool.
Let cols := Screen.getColumns screen.
Let shown (j : Z) : bool := vis j || (j =? cursorLine).
Hypothesis Hcols : 0 <= cols.

Lemma copy_visible_spec (n : nat) :
  forall (i : Z) (pre rest : list Character) (count : Z),
    0 <= i ->
    i + Z.of_nat n <= Screen.getHistLines screen + Screen.getLines screen ->
    0 <= count ->
    (forall j, i <= j < i + Z.of_nat n ->
               Folds.isLineVisible folds j = Ok (vis j)) ->
    let lines := List.filter shown (seqZ i (Z.of_nat n)) in
    count + Z.of_nat (length lines) <= limit ->
    Z.of_nat (length pre) = cols * count ->
    cols * Z.of_nat (length lines) <= Z.of_nat (length rest) ->
    ScreenWindow.copy_visible screen folds cursorLine limit n i
                              (pre ++ rest) count
    = Ok (pre ++ flat_map (Screen.lineImage screen) lines
              ++ drop (Z.to_nat (cols * Z.of_nat (length lines))) rest,
          count + Z.of_nat (length lines)).
Proof using Hcols.
  induction n as [|n IH]; intros i pre rest count Hi Hend Hcount Hvis.
  - cbn. intros _ _ _. rewrite Z.mul_0_r, Z.add_0_r. reflexivity.
  - rewrite seqZ_cons by lia.
    replace (Z.pred (Z.of_nat (S n))) with (Z.of_nat n) by lia.
    replace (Z.succ i) with (i + 1) by lia.
    cbn [List.filter ScreenWindow.copy_visible].
    assert (Hs : shown i = (vis i || (i =? cursorLine))) by reflexivity.
    rewrite Hs. clear Hs.
    rewrite (Hvis i) by lia. cbn [bind].
    set (rest_lines := List.filter shown (seqZ (i + 1) (Z.of_nat n))).
    assert (Hprod : 0 <= cols * Z.of_nat (length rest_lines)) by nia.
    destruct (vis i || (i =? cursorLine)) eqn:Hshown.
    + cbn [length flat_map]. rewrite Nat2Z.inj_succ, Z.mul_succ_r.
      intros Hlimit Hpre Hrest.
      replace (count <? limit) with true by (symmetry; apply Z.ltb_lt; lia).
      fold cols.
      rewrite getImage_line; try assumption; try lia.
      cbn [bind]. fold cols. rewrite app_assoc.
      rewrite (IH (i + 1)); try lia.
      * fold rest_lines. rewrite <- !app_assoc. rewrite drop_drop.
        replace (Z.to_nat cols
                 + Z.to_nat (cols * Z.of_nat (length rest_lines)))%nat
          with (Z.to_nat (cols * Z.of_nat (length rest_lines) + cols))
          by lia.
        replace (count + 1 + Z.of_nat (length rest_lines))
          with (count + Z.succ (Z.of_nat (length rest_lines))) by lia.
        reflexivity.
      * intros j Hj. apply Hvis. lia.
      * fold rest_lines. lia.
      * rewrite length_app, length_lineImage. fold cols. lia.
      * fold rest_lines. rewrite length_drop. fold cols. lia.
    + intros Hlimit Hpre Hrest.
      destruct (count <? limit) eqn:Hlt.
      * rewrite (IH (i + 1)); try lia; try assumption.
        -- reflexivity.
        -- intros j Hj. apply Hvis. lia.
      * zbool.
        assert (Hnil : rest_lines = []).
        { destruct rest_lines; [reflexivity | cbn [length] in Hlimit; lia]. }
        rewrite Hnil. cbn. rewrite Z.mul_0_r, Z.add_0_r. reflexivity.
Qed.
End CopyVisible.

Lemma fill_tail (pre rest : list Character) (offset count : Z) :
  Z.of_nat (length pre) = offset ->
  Z.of_nat (length rest) = count ->
  Screen.fillWithDefaultChar (pre ++ rest) offset count
  = Ok (pre ++ replicate (Z.to_nat count) DefaultChar).
Proof.
  intros Hpre Hrest. unfold Screen.fillWithDefaultChar.
  destruct (count <=? 0) eqn:E; zbool.
  - assert (Hnil : rest = []) by (apply nil_length_inv; lia).
    subst rest. replace (Z.to_nat count) with 0%nat by lia. reflexivity.
  - rewrite write_app.
    + rewrite drop_ge by (rewrite length_replicate; lia). rewrite app_nil_r.
      reflexivity.
    + exact Hpre.
    + rewrite length_replicate. lia.
Qed.

Lemma fill_blank (pre : list Character) (k : nat) (offset count : Z) :
  Z.of_nat (length pre) <= offset ->
  offset + count = Z.of_nat (length pre) + Z.of_nat k ->
  Screen.fillWithDefaultChar (pre ++ replicate k DefaultChar) offset count
  = Ok (pre ++ replicate k DefaultChar).
Proof.
  intros Hpre Hsum. unfold Screen.fillWithDefaultChar.
  destruct (count <=? 0) eqn:E; zbool; [reflexivity|].
  replace k with (Z.to_nat (offset - Z.of_nat (length pre)) + Z.to_nat count)%nat
    at 1 by lia.
  rewrite replicate_add, app_assoc. rewrite write_app.
  - rewrite drop_ge by (rewrite !length_replicate; lia).
    rewrite app_nil_r, <- app_assoc, <- replicate_add. do 3 f_equal. lia.
  - rewrite length_app, length_replicate. lia.
  - rewrite !length_replicate. lia.
Qed.

Lemma length_flat_map_lineImage (screen : Screen.t) (lines : list Z) :
  0 <= Screen.getColumns screen ->
  Z.of_nat (length (flat_map (Screen.lineImage screen) lines))
  = Screen.getColumns screen * Z.of_nat (length lines).
Proof.
  intros Hcols. induction lines as [|i lines IH]; cbn [flat_map length].
  - lia.
  - rewrite length_app, length_lineImage. lia.
Qed.

Lemma foo_lines_length (cursorLine : Z) :
  Z.of_nat (length (foo_lines cursorLine)) <= 4.
Proof.
  assert (H : cursorLine = 1 \/ cursorLine = 2 \/ cursorLine = 3
              \/ cursorLine = 4 \/ cursorLine = 6 \/ cursorLine = 7
              \/ cursorLine = 8
              \/ (cursorLine <> 1 /\ cursorLine <> 2 /\ cursorLine <> 3
                  /\ cursorLine <> 4 /\ cursorLine <> 6 /\ cursorLine <> 7
                  /\ cursorLine <> 8)) by lia.
  destruct H as [->|[->|[->|[->|[->|[->|[->|H]]]]]]]; try (vm_compute; discriminate).
  assert (Hk : forall k, k <> cursorLine ->
                         (k =? 0) || (k =? 5) || (k =? 9) = false ->
                         foo_shown cursorLine k = false).
  { intros k Hne Hk. unfold foo_shown. rewrite Hk.
    apply Z.eqb_neq. exact Hne. }
  unfold foo_lines.
  change (seqZ 0 10) with [0; 1; 2; 3; 4; 5; 6; 7; 8; 9].
  cbn [List.filter].
  change (foo_shown cursorLine 0) with true.
  change (foo_shown cursorLine 5) with true.
  change (foo_shown cursorLine 9) with true.
  rewrite (Hk 1), (Hk 2), (Hk 3), (Hk 4), (Hk 6), (Hk 7), (Hk 8)
    by (reflexivity || lia).
  cbn [length]. lia.
Qed.

Lemma foo_lines_In (cursorLine i : Z) :
  In i (foo_lines cursorLine) <->
  0 <= i < 10 /\ (i = 0 \/ i = 5 \/ i = 9 \/ i = cursorLine).
Proof.
  unfold foo_lines. rewrite filter_In, <- list_elem_of_In, elem_of_seqZ.
  unfold foo_shown. zbool_goal. lia.
Qed.

Lemma foo_table_scanned_visible (i : Z) :
  0 <= i < 10 ->
  Folds.isLineVisible foo_table_scanned i
  = Ok ((i =? 0) || (i =? 5) || (i =? 9)).
Proof.
  intros Hi.
  assert (H : i = 0 \/ i = 1 \/ i = 2 \/ i = 3 \/ i = 4 \/ i = 5 \/ i = 6
              \/ i = 7 \/ i = 8 \/ i = 9) by lia.
  destruct H as [->|[->|[->|[->|[->|[->|[->|[->|[->| ->]]]]]]]]];
    reflexivity.
Qed.

(** ** The filtered image *)

Lemma qBound_0_0 (max : Z) : qBound 0 0 max = 0.
Proof. rewrite qBound_max_min. lia. Qed.

Lemma getFilteredImage_foo (w : ScreenWindow.t) (buffer : list Character)
      (v endLine : Z) :
  ScreenWindow.lineCount w = 10 ->
  ScreenWindow._folds w = foo_table v ->
  ScreenWindow._windowBuffer w = Some buffer ->
  0 <= ScreenWindow.windowColumns w ->
  4 <= ScreenWindow.windowLines w ->
  Z.of_nat (length buffer)
  = ScreenWindow.windowLines w * ScreenWindow.windowColumns w ->
  3 <= endLine ->
  ScreenWindow.getFilteredImage
    w (ScreenWindow.windowLines w * ScreenWindow.windowColumns w) 0 endLine
  = Ok (ScreenWindow.with_windowBuffer
          (ScreenWindow.with_folds w foo_table_scanned)
          (Some (image_of (ScreenWindow._screen w) (ScreenWindow.windowLines w)
                          (foo_lines
                             (Screen.getHistLines (ScreenWindow._screen w)
                              + Screen.getCursorY (ScreenWindow._screen w)))))
          (ScreenWindow._windowBufferSize w)).
Proof.
  intros Hcount Hfolds Hbuf Hcols Hlines Hlen Hend.
  unfold ScreenWindow.getFilteredImage.
  replace (0 <=? endLine) with true by (symmetry; apply Z.leb_le; lia).
  replace ((0 - endLine + 1) * ScreenWindow.windowColumns w
           <=? ScreenWindow.windowLines w * ScreenWindow.windowColumns w)
    with true by (symmetry; apply Z.leb_le; nia).
  cbn [Q_ASSERT bind]. rewrite Hfolds, Hcount.
  change (Folds.updateVisibleLines (Folds.setLineCount (foo_table v) 10))
    with (Ok foo_table_scanned).
  cbn [bind].
  change (ScreenWindow.lineCount (ScreenWindow.with_folds w foo_table_scanned))
    with (ScreenWindow.lineCount w).
  change (ScreenWindow._screen (ScreenWindow.with_folds w foo_table_scanned))
    with (ScreenWindow._screen w).
  change (ScreenWindow._windowBuffer
            (ScreenWindow.with_folds w foo_table_scanned))
    with (ScreenWindow._windowBuffer w).
  change (ScreenWindow.windowColumns
            (ScreenWindow.with_folds w foo_table_scanned))
    with (ScreenWindow.windowColumns w).
  change (ScreenWindow.windowLines
            (ScreenWindow.with_folds w foo_table_scanned))
    with (ScreenWindow.windowLines w).
  change (ScreenWindow._windowBufferSize
            (ScreenWindow.with_folds w foo_table_scanned))
    with (ScreenWindow._windowBufferSize w).
  rewrite Hcount, Hbuf.
  set (cursorLine := Screen.getHistLines (ScreenWindow._screen w)
                     + Screen.getCursorY (ScreenWindow._screen w)).
  change (ScreenWindow.find_start foo_table_scanned cursorLine 0
                                  (Z.to_nat 10) 0 0 0)
    with (@Ok Z 0).
  cbn [bind Q_ASSERT Z.leb Z.compare].
  pose proof (foo_lines_length cursorLine) as Hfour.
  unfold ScreenWindow.windowColumns in *.
  set (cols := Screen.getColumns (ScreenWindow._screen w)) in *.
  set (h := ScreenWindow.windowLines w) in *.
  change (Z.to_nat (10 - 0)) with 10%nat.
  pose proof (copy_visible_spec (ScreenWindow._screen w) foo_table_scanned
                cursorLine (endLine - 0 + 1)
                (fun j => (j =? 0) || (j =? 5) || (j =? 9)) Hcols
                10 0 [] buffer 0) as Hcopy.
  change (List.filter _ (seqZ 0 (Z.of_nat 10))) with (foo_lines cursorLine)
    in Hcopy.
  cbn zeta in Hcopy. fold cols in Hcopy.
  rewrite app_nil_l in Hcopy. rewrite Hcopy; clear Hcopy.
  - cbn [bind app]. rewrite Z.add_0_l.
    replace (cols * Z.of_nat (length (foo_lines cursorLine))
             + (h - Z.of_nat (length (foo_lines cursorLine))) * cols
             <=? h * cols) with true by (symmetry; apply Z.leb_le; nia).
    cbn [Q_ASSERT bind].
    rewrite fill_tail.
    + reflexivity.
    + apply length_flat_map_lineImage. exact Hcols.
    + rewrite length_drop. nia.
  - lia.
  - unfold ScreenWindow.lineCount in Hcount. lia.
  - lia.
  - intros j Hj. apply foo_table_scanned_visible. lia.
  - lia.
  - cbn. lia.
  - nia.
Qed.

Lemma fillUnusedArea_foo (w : ScreenWindow.t) (lines : list Z) :
  ScreenWindow.lineCount w = 10 ->
  ScreenWindow._currentLine w = 0 ->
  0 <= ScreenWindow.windowColumns w ->
  4 <= ScreenWindow.windowLines w ->
  Z.of_nat (length lines) <= 4 ->
  ScreenWindow._windowBufferSize w
  = ScreenWindow.windowLines w * ScreenWindow.windowColumns w ->
  ScreenWindow._windowBuffer w
  = Some (image_of (ScreenWindow._screen w) (ScreenWindow.windowLines w) lines) ->
  ScreenWindow.fillUnusedArea w
  = Ok (ScreenWindow.with_windowBuffer
          w (ScreenWindow._windowBuffer w) (ScreenWindow._windowBufferSize w)).
Proof.
  intros Hcount Hcur Hcols Hlines Hfour Hsize Hbuf.
  unfold ScreenWindow.fillUnusedArea, ScreenWindow.currentLine.
  rewrite Hcur, qBound_0_0, Hbuf. cbn [bind].
  unfold ScreenWindow.lineCount in Hcount.
  unfold ScreenWindow.windowColumns in *.
  set (cols := Screen.getColumns (ScreenWindow._screen w)) in *.
  set (h := ScreenWindow.windowLines w) in *.
  unfold image_of. fold cols.
  pose proof (length_flat_map_lineImage (ScreenWindow._screen w) lines Hcols)
    as Hlen. fold cols in Hlen.
  rewrite fill_blank.
  - reflexivity.
  - rewrite Hlen, Hsize. nia.
  - rewrite Hlen, Hsize. nia.
Qed.

Lemma write_in_range (dest cells : list Character) (offset : Z) :
  0 <= offset ->
  offset + Z.of_nat (length cells) <= Z.of_nat (length dest) ->
  exists buffer,
    Screen.write dest offset cells = Ok buffer
    /\ length buffer = length dest.
Proof.
  intros H0 Hfit. unfold Screen.write.
  replace (0 <=? offset) with true by (symmetry; apply Z.leb_le; lia).
  replace (offset + Z.of_nat (length cells) <=? Z.of_nat (length dest))
    with true by (symmetry; apply Z.leb_le; lia).
  eexists. split; [reflexivity|].
  rewrite !length_app, length_take, length_drop. lia.
Qed.

Lemma fillWithDefaultChar_in_range (buffer : list Character)
      (offset count : Z) :
  0 <= offset ->
  offset + count <= Z.of_nat (length buffer) ->
  exists buffer',
    Screen.fillWithDefaultChar buffer offset count = Ok buffer'
    /\ length buffer' = length buffer.
Proof.
  intros H0 Hfit. unfold Screen.fillWithDefaultChar.
  destruct (count <=? 0) eqn:E; zbool.
  - exists buffer. split; reflexivity.
  - apply write_in_range; [exact H0|]. rewrite length_replicate. lia.
Qed.

(** What [getImage()] does to its buffer before it looks at the content:
    afterwards the buffer has [windowLines() * windowColumns()] cells. *)
Lemma buffer_after_allocation (w : ScreenWindow.t) (size : Z) :
  0 <= size ->
  buffer_sized w = true ->
  ScreenWindow._bufferNeedsUpdate w = true ->
  exists buffer,
    Z.of_nat (length buffer) = size
    /\ (if match ScreenWindow._windowBuffer w with
           | Some _ => false
           | None => true
           end || negb (ScreenWindow._windowBufferSize w =? size)
        then ScreenWindow.with_bufferNeedsUpdate
               (ScreenWindow.with_windowBuffer
                  w (Some (replicate (Z.to_nat size) DefaultChar)) size)
               true
        else w)
       = ScreenWindow.with_windowBuffer w (Some buffer) size.
Proof.
  intros Hsize Hsized Hdirty. unfold buffer_sized in Hsized.
  destruct w as [screen buffer bsize dirty fdirty lines cur track scnt folds
                   filter em].
  cbn in *. subst dirty.
  destruct buffer as [buffer|].
  - destruct (bsize =? size) eqn:Hs.
    + apply Z.eqb_eq in Hs. apply Z.eqb_eq in Hsized. rewrite Hs in *.
      exists buffer. split; [exact Hsized | reflexivity].
    + exists (replicate (Z.to_nat size) DefaultChar).
      split; [rewrite length_replicate; lia | reflexivity].
  - exists (replicate (Z.to_nat size) DefaultChar).
    split; [rewrite length_replicate; lia | reflexivity].
Qed.

Lemma getImage_foo (w : ScreenWindow.t) :
  ScreenWindow.lineCount w = 10 ->
  (forall i, 0 <= i < 10 ->
     contains (Screen.decodedLine (ScreenWindow._screen w) i) "foo"
     = (i =? 5)) ->
  sizes_agree (QBitArray.size (Folds._foldStarts (ScreenWindow._folds w)))
              (ScreenWindow._folds w) = true ->
  buffer_sized w = true ->
  0 <= ScreenWindow.windowColumns w ->
  4 <= ScreenWindow.windowLines w ->
  ScreenWindow._currentLine w = 0 ->
  exists w',
    ScreenWindow.getImage (ScreenWindow.setFilter w "foo") = Ok w'
    /\ ScreenWindow._windowBuffer w'
       = Some (image_of (ScreenWindow._screen w) (ScreenWindow.windowLines w)
                        (foo_lines
                           (Screen.getHistLines (ScreenWindow._screen w)
                            + Screen.getCursorY (ScreenWindow._screen w))))
    /\ ScreenWindow._folds w' = foo_table_scanned.
Proof.
  intros Hcount Hmatch Hsizes Hsized Hcols Hlines Hcur.
  set (cursorLine := Screen.getHistLines (ScreenWindow._screen w)
                     + Screen.getCursorY (ScreenWindow._screen w)).
  unfold ScreenWindow.getImage.
  change (ScreenWindow._filterNeedsUpdate (ScreenWindow.setFilter w "foo"))
    with true.
  change (ScreenWindow._filter (ScreenWindow.setFilter w "foo"))
    with "foo"%string.
  rewrite (createFilterFolds_foo
             (ScreenWindow.setFilter w "foo")
             (QBitArray.size (Folds._foldStarts (ScreenWindow._folds w))));
    [|exact Hcount|exact Hmatch|exact Hsizes].
  cbn [bind].
  set (v := Folds._visibleLines
              (ScreenWindow._folds (ScreenWindow.setFilter w "foo"))).
  set (w1 := ScreenWindow.with_folds
               (ScreenWindow.with_filterNeedsUpdate
                  (ScreenWindow.setFilter w "foo") false) (foo_table v)).
  change (ScreenWindow.windowLines w1) with (ScreenWindow.windowLines w).
  change (ScreenWindow.windowColumns w1) with (ScreenWindow.windowColumns w).
  set (size := ScreenWindow.windowLines w * ScreenWindow.windowColumns w).
  assert (Hsize0 : 0 <= size) by (unfold size; nia).
  destruct (buffer_after_allocation w1 size Hsize0 Hsized eq_refl)
    as (buffer & Hlen & ->).
  set (w2 := ScreenWindow.with_windowBuffer w1 (Some buffer) size).
  change (ScreenWindow._bufferNeedsUpdate w2) with true. cbn [negb].
  change (ScreenWindow._folds w2) with (foo_table v).
  change (Folds.count (foo_table v) >? 0) with true. cbn iota.
  assert (Hcur2 : ScreenWindow.currentLine w2 = 0).
  { unfold ScreenWindow.currentLine.
    change (ScreenWindow._currentLine w2) with (ScreenWindow._currentLine w).
    rewrite Hcur. apply qBound_0_0. }
  unfold ScreenWindow.endWindowLine. rewrite Hcur2.
  change (ScreenWindow.lineCount w2) with (ScreenWindow.lineCount w).
  change (ScreenWindow.windowLines w2) with (ScreenWindow.windowLines w).
  rewrite Hcount.
  rewrite (getFilteredImage_foo w2 buffer v); try assumption; try reflexivity.
  - cbn [bind].
    set (w3 := ScreenWindow.with_windowBuffer
                 (ScreenWindow.with_folds w2 foo_table_scanned) _ _).
    rewrite (fillUnusedArea_foo w3 (foo_lines cursorLine));
      try assumption; try reflexivity.
    + cbn [bind]. eexists. split; [reflexivity|]. split; reflexivity.
    + apply foo_lines_length.
  - unfold qMin. destruct (0 + ScreenWindow.windowLines w - 1 <? 10 - 1);
      zbool; lia.
Qed.

(** Ten lines of which only line 5 contains the pattern.  The folds that
    the filter builds make [updateVisibleLines] show the lines 0, 5 and 9
    and hide the other seven.  On a window of at least four lines whose
    stored top line is 0, [setFilter] with the pattern followed by
    [getImage()] returns the image whose rows are the cells of the lines 0,
    5 and 9 and of the cursor line (when that is another one of the ten),
    in the order of the lines, followed by default characters.  Where the
    stored top line is not 0 the image depends on the visible-line counter
    that the fold table held before the pattern was set. *)
Lemma filter_foo_at_the_top_shows_lines_0_5_9_and_cursor
      (w : ScreenWindow.t) :
  ScreenWindow.lineCount w = 10 ->
  (forall i, 0 <= i < 10 ->
     contains (Screen.decodedLine (ScreenWindow._screen w) i) "foo"
     = (i =? 5)) ->
  sizes_agree (QBitArray.size (Folds._foldStarts (ScreenWindow._folds w)))
              (ScreenWindow._folds w) = true ->
  let cursorLine :=
    Screen.getHistLines (ScreenWindow._screen w)
    + Screen.getCursorY (ScreenWindow._screen w) in
  (exists w1 f',
      ScreenWindow.createFilterFolds w "foo" = Ok w1
      /\ Folds.updateVisibleLines
           (Folds.setLineCount (ScreenWindow._folds w1)
                               (ScreenWindow.lineCount w1)) = Ok f'
      /\ forall i, 0 <= i < 10 ->
           Folds.isLineVisible f' i = Ok ((i =? 0) || (i =? 5) || (i =? 9)))
  /\ (forall i, In i (foo_lines cursorLine) <->
                0 <= i < 10 /\ (i = 0 \/ i = 5 \/ i = 9 \/ i = cursorLine))
  /\ (buffer_sized w = true ->
      0 <= ScreenWindow.windowColumns w ->
      4 <= ScreenWindow.windowLines w ->
      ScreenWindow._currentLine w = 0 ->
      exists w',
        ScreenWindow.getImage (ScreenWindow.setFilter w "foo") = Ok w'
        /\ ScreenWindow._windowBuffer w'
           = Some (image_of (ScreenWindow._screen w)
                            (ScreenWindow.windowLines w)
                            (foo_lines cursorLine))
        /\ forall i, 0 <= i < 10 ->
             Folds.isLineVisible (ScreenWindow._folds w') i
             = Ok ((i =? 0) || (i =? 5) || (i =? 9))).
Proof.
  intros Hcount Hmatch Hsizes cursorLine. split; [|split].
  - eexists. exists foo_table_scanned. split; [|split].
    + apply (createFilterFolds_foo w _ Hcount Hmatch Hsizes).
    + change (ScreenWindow.lineCount (ScreenWindow.with_folds _ _))
        with (ScreenWindow.lineCount w).
      rewrite Hcount. reflexivity.
    + apply foo_table_scanned_visible.
  - apply foo_lines_In.
  - intros Hsized Hcols Hlines Hcur.
    destruct (getImage_foo w Hcount Hmatch Hsizes Hsized Hcols Hlines Hcur)
      as (w' & Hrun & Hbuf & Hfolds).
    exists w'. split; [exact Hrun|]. split; [exact Hbuf|].
    rewrite Hfolds. apply foo_table_scanned_visible.
Qed.

Lemma filter_foo_at_the_top_witness :
  (exists w1 f',
      ScreenWindow.createFilterFolds foo_window "foo" = Ok w1
      /\ Folds.updateVisibleLines
           (Folds.setLineCount (ScreenWindow._folds w1)
                               (ScreenWindow.lineCount w1)) = Ok f'
      /\ forall i, 0 <= i < 10 ->
           Folds.isLineVisible f' i = Ok ((i =? 0) || (i =? 5) || (i =? 9)))
  /\ (forall i, In i (foo_lines 7) <->
                0 <= i < 10 /\ (i = 0 \/ i = 5 \/ i = 9 \/ i = 7))
  /\ (exists w',
        ScreenWindow.getImage (ScreenWindow.setFilter foo_window "foo") = Ok w'
        /\ ScreenWindow._windowBuffer w'
           = Some (image_of foo_screen 10 (foo_lines 7))
        /\ forall i, 0 <= i < 10 ->
             Folds.isLineVisible (ScreenWindow._folds w') i
             = Ok ((i =? 0) || (i =? 5) || (i =? 9))).
Proof.
  destruct (filter_foo_at_the_top_shows_lines_0_5_9_and_cursor foo_window)
    as (Hfolds & Hlines & Himage).
  - reflexivity.
  - intros i _. cbn. destruct (i =? 5); reflexivity.
  - reflexivity.
  - split; [exact Hfolds|]. split; [exact Hlines|].
    apply Himage.
    + reflexivity.
    + apply Z.leb_le. reflexivity.
    + apply Z.leb_le. reflexivity.
    + reflexivity.
Defined.

(** C5.  The claim fails on the code.  On [stale_screen] only line 5
    contains the pattern, and [stale_window] is a window of five lines that
    the public operations reach: its stored top line is 5 and its fold table
    still counts the nine lines that the earlier filter left visible.
    [setFilter] with the pattern followed by [getImage()] rebuilds the folds,
    and the table then shows the lines 0, 5 and 9 and hides the other seven;
    but the image holds none of the lines 0, 5, 7 (the cursor) and 9: all
    its cells are default characters.  [createFilterFolds] does not call
    [updateVisibleLines], so [currentLine()] clamps the stored top line with
    the counter of the earlier filter, to 4, and [getFilteredImage] skips
    the four lines it should show. *)
Theorem C5_filter_foo_after_an_earlier_filter_renders_no_line :
  forallb (fun i =>
             Bool.eqb (contains (Screen.decodedLine stale_screen i) "foo")
                      (i =? 5))
          (seqZ 0 10) = true
  /\ match stale_window with
     | Ok w =>
         ScreenWindow._screen w = stale_screen
         /\ ScreenWindow.lineCount w = 10
         /\ ScreenWindow.windowLines w = 5
         /\ ScreenWindow._currentLine w = 5
         /\ Folds._visibleLines (ScreenWindow._folds w) = 9
         /\ cursor_line w = 7
         /\ match ScreenWindow.getImage (ScreenWindow.setFilter w "foo") with
            | Ok w' =>
                map (Folds.isLineVisible (ScreenWindow._folds w')) (seqZ 0 10)
                = map (fun i => Ok ((i =? 0) || (i =? 5) || (i =? 9)))
                      (seqZ 0 10)
                /\ ScreenWindow._windowBuffer w'
                   = Some (replicate 15 DefaultChar)
                /\ ScreenWindow._windowBuffer w'
                   <> Some (image_of stale_screen 5 [0; 5; 7; 9])
            | Fault _ => False
            end
     | Fault _ => False
     end.
Proof.
  split; [vm_compute; reflexivity|].
  assert (Hw : exists w, stale_window = Ok w) by (vm_compute; eauto).
  destruct Hw as [w Hw]. rewrite Hw.
  assert (Hval : Ok w = stale_window) by (symmetry; exact Hw).
  vm_compute in Hval. injection Hval as ->. clear Hw.
  split; [reflexivity|]. split; [reflexivity|]. split; [reflexivity|].
  split; [reflexivity|]. split; [reflexivity|]. split; [reflexivity|].
  vm_compute. split; [reflexivity|]. split; [reflexivity|].
  intros H. discriminate H.
Qed.

(** The image of the example window, cell by cell: the rows of the lines
    0, 5, 7 (the cursor) and 9, then six blank rows. *)
Example foo_window_image :
  match ScreenWindow.getImage (ScreenWindow.setFilter foo_window "foo") with
  | Ok w' => ScreenWindow._windowBuffer w'
  | Fault _ => None
  end
  = Some ([ScreenChar 0 0; ScreenChar 0 1; ScreenChar 0 2;
           ScreenChar 5 0; ScreenChar 5 1; ScreenChar 5 2;
           ScreenChar 7 0; ScreenChar 7 1; ScreenChar 7 2;
           ScreenChar 9 0; ScreenChar 9 1; ScreenChar 9 2]
          ++ replicate 18 DefaultChar).
Proof. vm_compute. reflexivity. Qed.

(** ** The empty filter *)

Lemma getImage_empty_filter (w : ScreenWindow.t) :
  1 <= ScreenWindow.lineCount w ->
  1 <= ScreenWindow.windowLines w ->
  0 <= ScreenWindow.windowColumns w ->
  buffer_sized w = true ->
  exists w',
    ScreenWindow.getImage (ScreenWindow.setFilter w EmptyString) = Ok w'
    /\ ScreenWindow._screen w' = ScreenWindow._screen w
    /\ ScreenWindow._folds w'
       = Folds.removeAll (Folds.setLineCount (ScreenWindow._folds w)
                                             (ScreenWindow.lineCount w)).
Proof.
  intros Hcount Hlines Hcols Hsized.
  unfold ScreenWindow.getImage.
  change (ScreenWindow._filterNeedsUpdate
            (ScreenWindow.setFilter w EmptyString)) with true.
  change (ScreenWindow._filter (ScreenWindow.setFilter w EmptyString))
    with EmptyString.
  unfold ScreenWindow.createFilterFolds. cbn [isEmpty bind].
  set (folds := Folds.removeAll _).
  set (w1 := ScreenWindow.with_folds _ folds).
  change (ScreenWindow.windowLines w1) with (ScreenWindow.windowLines w).
  change (ScreenWindow.windowColumns w1) with (ScreenWindow.windowColumns w).
  set (size := ScreenWindow.windowLines w * ScreenWindow.windowColumns w).
  assert (Hsize0 : 0 <= size) by (unfold size; nia).
  destruct (buffer_after_allocation w1 size Hsize0 Hsized eq_refl)
    as (buffer & Hlen & ->).
  set (w2 := ScreenWindow.with_windowBuffer w1 (Some buffer) size).
  change (ScreenWindow._bufferNeedsUpdate w2) with true. cbn [negb].
  change (Folds.count (ScreenWindow._folds w2) >? 0) with false. cbn iota.
  change (ScreenWindow._windowBuffer w2) with (Some buffer). cbn [bind].
  change (ScreenWindow._screen w2) with (ScreenWindow._screen w).
  assert (Hcur : ScreenWindow.currentLine w2
                 = Z.max 0 (Z.min (ScreenWindow.lineCount w
                                   - ScreenWindow.windowLines w)
                                  (ScreenWindow._currentLine w))).
  { unfold ScreenWindow.currentLine. apply qBound_max_min. }
  unfold ScreenWindow.endWindowLine.
  change (ScreenWindow.lineCount w2) with (ScreenWindow.lineCount w).
  change (ScreenWindow.windowLines w2) with (ScreenWindow.windowLines w).
  set (cur := ScreenWindow.currentLine w2) in *.
  set (h := ScreenWindow.windowLines w) in *.
  unfold ScreenWindow.lineCount in *. unfold ScreenWindow.windowColumns in *.
  set (screen := ScreenWindow._screen w) in *.
  set (count := Screen.getHistLines screen + Screen.getLines screen) in *.
  set (cols := Screen.getColumns screen) in *.
  set (endl := qMin (cur + h - 1) (count - 1)).
  assert (Hendl : cur <= endl /\ endl < count /\ endl - cur + 1 <= h).
  { unfold endl, qMin. destruct (cur + h - 1 <? count - 1) eqn:E; zbool; lia. }
  unfold Screen.getImage. fold count cols.
  replace (0 <=? cur) with true by (symmetry; apply Z.leb_le; lia).
  replace (cur <=? endl) with true by (symmetry; apply Z.leb_le; lia).
  replace (endl <? count) with true by (symmetry; apply Z.ltb_lt; lia).
  replace ((endl - cur + 1) * cols <=? size) with true
    by (symmetry; apply Z.leb_le; unfold size; nia).
  cbn [andb Q_ASSERT bind].
  destruct (write_in_range
              buffer
              (flat_map (Screen.lineImage screen) (seqZ cur (endl - cur + 1)))
              0) as (buffer1 & -> & Hlen1).
  { lia. }
  { rewrite length_flat_map_lineImage by exact Hcols. fold cols.
    rewrite length_seqZ. unfold size in Hlen. nia. }
  cbn [bind].
  set (w3 := ScreenWindow.with_windowBuffer w2 (Some buffer1) _).
  unfold ScreenWindow.fillUnusedArea.
  change (ScreenWindow._windowBuffer w3) with (Some buffer1). cbn [bind].
  change (ScreenWindow.currentLine w3) with cur.
  change (ScreenWindow.windowLines w3) with h.
  change (ScreenWindow.windowColumns w3) with cols.
  change (ScreenWindow._windowBufferSize w3) with size.
  change (Screen.getHistLines (ScreenWindow._screen w3)
          + Screen.getLines (ScreenWindow._screen w3) - 1) with (count - 1).
  destruct (fillWithDefaultChar_in_range
              buffer1 (size - (cur + h - 1 - (count - 1)) * cols)
              ((cur + h - 1 - (count - 1)) * cols))
    as (buffer2 & -> & Hlen2).
  { unfold size. nia. }
  { lia. }
  cbn [bind]. eexists. split; [reflexivity|]. split; reflexivity.
Qed.

(** C6.  Whatever state a non-empty filter has left, applying the empty
    filter ([createFilterFolds] on the empty pattern) returns without a
    fault, removes every fold point and disables folding, so that the fold
    count is 0 and [ScreenWindow::visibleLineCount()] is [lineCount()].
    [setFilter] applies its pattern at the next [getImage()]: on a window of
    at least one line over a screen of at least one line, [setFilter] with
    the empty pattern followed by [getImage()] returns and leaves
    [visibleLineCount()] equal to [lineCount()]. *)
Theorem C6_empty_filter_removes_all_folds
        (w : ScreenWindow.t) (pattern : string) (w1 : ScreenWindow.t) :
  isEmpty pattern = false ->
  ScreenWindow.createFilterFolds w pattern = Ok w1 ->
  (exists w2,
      ScreenWindow.createFilterFolds w1 EmptyString = Ok w2
      /\ Folds._enabled (ScreenWindow._folds w2) = false
      /\ forallb negb (Folds._foldStarts (ScreenWindow._folds w2)) = true
      /\ forallb negb (Folds._foldEnds (ScreenWindow._folds w2)) = true
      /\ Folds.count (ScreenWindow._folds w2) = 0
      /\ ScreenWindow.lineCount w2 = ScreenWindow.lineCount w1
      /\ ScreenWindow.visibleLineCount w2 = ScreenWindow.lineCount w2)
  /\ (1 <= ScreenWindow.lineCount w1 ->
      1 <= ScreenWindow.windowLines w1 ->
      0 <= ScreenWindow.windowColumns w1 ->
      buffer_sized w1 = true ->
      exists w2,
        ScreenWindow.getImage (ScreenWindow.setFilter w1 EmptyString) = Ok w2
        /\ Folds.count (ScreenWindow._folds w2) = 0
        /\ ScreenWindow.lineCount w2 = ScreenWindow.lineCount w1
        /\ ScreenWindow.visibleLineCount w2 = ScreenWindow.lineCount w2).
Proof.
  intros _ _. split.
  - eexists. split; [reflexivity|].
    cbn -[Folds.setLineCount ScreenWindow.lineCount].
    repeat split; try apply forallb_negb_fill.
  - intros Hcount Hlines Hcols Hsized.
    destruct (getImage_empty_filter w1 Hcount Hlines Hcols Hsized)
      as (w2 & Hrun & Hscreen & Hfolds).
    exists w2. split; [exact Hrun|].
    assert (Hnone : Folds.count (ScreenWindow._folds w2) = 0).
    { rewrite Hfolds. reflexivity. }
    split; [exact Hnone|]. split.
    + unfold ScreenWindow.lineCount. rewrite Hscreen. reflexivity.
    + unfold ScreenWindow.visibleLineCount. rewrite Hnone. reflexivity.
Qed.

Lemma C6_witness :
  (exists w2,
      ScreenWindow.createFilterFolds
        (ScreenWindow.with_folds foo_window (foo_table 0)) EmptyString = Ok w2
      /\ Folds._enabled (ScreenWindow._folds w2) = false
      /\ forallb negb (Folds._foldStarts (ScreenWindow._folds w2)) = true
      /\ forallb negb (Folds._foldEnds (ScreenWindow._folds w2)) = true
      /\ Folds.count (ScreenWindow._folds w2) = 0
      /\ ScreenWindow.lineCount w2
         = ScreenWindow.lineCount
             (ScreenWindow.with_folds foo_window (foo_table 0))
      /\ ScreenWindow.visibleLineCount w2 = ScreenWindow.lineCount w2)
  /\ (exists w2,
        ScreenWindow.getImage
          (ScreenWindow.setFilter
             (ScreenWindow.with_folds foo_window (foo_table 0)) EmptyString)
        = Ok w2
        /\ Folds.count (ScreenWindow._folds w2) = 0
        /\ ScreenWindow.lineCount w2
           = ScreenWindow.lineCount
               (ScreenWindow.with_folds foo_window (foo_table 0))
        /\ ScreenWindow.visibleLineCount w2 = ScreenWindow.lineCount w2).
Proof.
  destruct (C6_empty_filter_removes_all_folds
              foo_window "foo"
              (ScreenWindow.with_folds foo_window (foo_table 0)))
    as (Hfolds & Himage).
  - reflexivity.
  - reflexivity.
  - split; [exact Hfolds|]. apply Himage.
    + apply Z.leb_le. reflexivity.
    + apply Z.leb_le. reflexivity.
    + apply Z.leb_le. reflexivity.
    + reflexivity.
Defined.


(** ** More on the scan *)

Lemma updateVisibleLines_size (f f' : Folds.t) :
  Folds.updateVisibleLines f = Ok f' ->
  QBitArray.size (Folds._filteredLines f')
  = QBitArray.size (Folds._filteredLines f).
Proof.
  intros Hup. apply updateVisibleLines_Ok in Hup as (s & Hloop & _ & ->).
  cbn [Folds._filteredLines]. unfold for_range in Hloop.
  rewrite <- (size_fill true (Folds._filteredLines f)).
  assert (Hbody : forall i s0 s1,
             Folds.scan_line f i s0 = Ok s1 ->
             QBitArray.size (Folds.filteredLines s0)
             = QBitArray.size (QBitArray.fill true (Folds._filteredLines f)) ->
             QBitArray.size (Folds.filteredLines s1)
             = QBitArray.size (QBitArray.fill true (Folds._filteredLines f))).
  { intros i s0 s1 Hstep Hs0. rewrite <- Hs0.
    apply (scan_line_size f i). exact Hstep. }
  apply (for_loop_preserves
           (fun s => QBitArray.size (Folds.filteredLines s)
                     = QBitArray.size
                         (QBitArray.fill true (Folds._filteredLines f)))
           (Folds.scan_line f)
           (Z.to_nat (QBitArray.size (Folds._filteredLines f) - 0)) Hbody 0
           (Folds.mkScan (QBitArray.fill true (Folds._filteredLines f))
                         [] false) s); [reflexivity | exact Hloop].
Qed.

(** X1.  [updateVisibleLines] is idempotent: on the table that a call
    returns, a second call returns the same table. *)
Theorem updateVisibleLines_idempotent (f f' : Folds.t) :
  Folds.updateVisibleLines f = Ok f' ->
  Folds.updateVisibleLines f' = Ok f'.
Proof.
  intros Hup. pose proof (updateVisibleLines_size f f' Hup) as Hsize.
  pose proof Hup as Hshape.
  apply updateVisibleLines_Ok in Hshape as (s & Hloop & Hstack & Hf').
  assert (Hfill : QBitArray.fill true (Folds._filteredLines f')
                  = QBitArray.fill true (Folds._filteredLines f)).
  { unfold QBitArray.fill. unfold QBitArray.size in Hsize.
    f_equal. lia. }
  unfold Folds.updateVisibleLines. rewrite Hsize, Hfill.
  assert (Hbody : Folds.scan_line f' = Folds.scan_line f).
  { rewrite Hf'. reflexivity. }
  rewrite Hbody, Hloop. cbn [bind]. rewrite Hstack. cbn [Q_ASSERT bind].
  rewrite Hf'. reflexivity.
Qed.

Lemma updateVisibleLines_idempotent_witness :
  Folds.updateVisibleLines example_table_scanned = Ok example_table_scanned.
Proof.
  apply (updateVisibleLines_idempotent example_table example_table_scanned).
  reflexivity.
Defined.

(** An invariant that every iteration keeps when it returns holds of
    the state the loop returns. *)
Lemma for_loop_partial {S : Type} (P : Z -> S -> Prop)
      (body : Z -> S -> result S) (n : nat) :
  forall lo s s',
    (forall i s s', lo <= i < lo + Z.of_nat n ->
                    body i s = Ok s' -> P i s -> P (i + 1) s') ->
    P lo s ->
    for_loop n lo body s = Ok s' ->
    P (lo + Z.of_nat n) s'.
Proof.
  induction n as [|n IH]; intros lo s s' Hstep Hlo Hrun.
  - injection Hrun as <-. replace (lo + Z.of_nat 0) with lo by lia. exact Hlo.
  - simpl in Hrun. apply bind_Ok in Hrun as (s1 & Hb & Hrun).
    replace (lo + Z.of_nat (Datatypes.S n)) with (lo + 1 + Z.of_nat n) by lia.
    apply (IH (lo + 1) s1 s'); [|apply (Hstep lo s s1); [lia|exact Hb|exact Hlo]
                               |exact Hrun].
    intros i s0 s2 Hi. apply Hstep. lia.
Qed.

Lemma count_app (v : bool) (a b : list bool) :
  QBitArray.count v (a ++ b) = QBitArray.count v a + QBitArray.count v b.
Proof.
  induction a as [|x a IH]; cbn [app QBitArray.count]; [lia|].
  rewrite IH. lia.
Qed.

(** The number of bits equal to [v] before position [i]. *)
Lemma count_take_succ (v : bool) (a : list bool) (i : Z) (b : bool) :
  QBitArray.testBit a i = Ok b ->
  QBitArray.count v (take (Z.to_nat (i + 1)) a)
  = QBitArray.count v (take (Z.to_nat i) a) + (if eqb b v then 1 else 0).
Proof.
  intros Hb. apply testBit_Ok in Hb as [Hi Hl].
  replace (Z.to_nat (i + 1)) with (S (Z.to_nat i)) by lia.
  rewrite (take_S_r a _ b Hl), count_app. cbn [QBitArray.count]. lia.
Qed.

Lemma count_take_all (v : bool) (a : list bool) (n : Z) :
  QBitArray.size a <= n ->
  QBitArray.count v (take (Z.to_nat n) a) = QBitArray.count v a.
Proof.
  intros Hn. rewrite take_ge; [reflexivity|]. unfold QBitArray.size in Hn. lia.
Qed.

(** What one iteration of the scan does when it returns. *)
Lemma scan_line_Ok (f : Folds.t) (i : Z) (s s' : Folds.scan) :
  Folds.scan_line f i s = Ok s' ->
  exists isStart isEnd : bool,
    0 <= i < QBitArray.size (Folds.filteredLines s)
    /\ QBitArray.testBit (Folds._foldStarts f) i = Ok isStart
    /\ QBitArray.testBit (Folds._foldEnds f) i = Ok isEnd
    /\ Folds.filteredLines s'
       = <[Z.to_nat i := negb (Folds.stackHasClosedFold s)]>
           (Folds.filteredLines s)
    /\ Z.of_nat (length (Folds.foldStack s'))
       = Z.of_nat (length (Folds.foldStack s))
         + (if isStart then 1 else 0) - (if isEnd then 1 else 0).
Proof.
  unfold Folds.scan_line. intros H.
  apply bind_Ok in H as (filtered & Hset & H).
  apply bind_Ok in H as (isStart & Hst & H).
  apply bind_Ok in H as (s1 & Hs1 & H).
  apply bind_Ok in H as (isEnd & Hen & H).
  apply setBit_Ok in Hset as [Hr ->].
  exists isStart, isEnd. split; [exact Hr|]. split; [exact Hst|].
  split; [exact Hen|].
  assert (H1 : Folds.filteredLines s1
               = <[Z.to_nat i := negb (Folds.stackHasClosedFold s)]>
                   (Folds.filteredLines s)
               /\ Z.of_nat (length (Folds.foldStack s1))
                  = Z.of_nat (length (Folds.foldStack s))
                    + (if isStart then 1 else 0)).
  { destruct isStart.
    - apply bind_Ok in Hs1 as (open & _ & Hs1). injection Hs1 as <-.
      cbn [Folds.filteredLines Folds.foldStack length]. split; [reflexivity|lia].
    - injection Hs1 as <-. cbn [Folds.filteredLines Folds.foldStack].
      split; [reflexivity|lia]. }
  destruct H1 as [Hf1 Hl1].
  destruct isEnd.
  - destruct (Folds.foldStack s1) as [|top rest] eqn:Hstack; [discriminate|].
    injection H as <-. cbn [Folds.filteredLines Folds.foldStack].
    cbn [length] in Hl1. split; [exact Hf1|lia].
  - injection H as <-. split; [exact Hf1|lia].
Qed.

(** X2.  When [updateVisibleLines] returns, the fold markers are balanced:
    as many lines carry a fold start as carry a fold end. *)
Theorem updateVisibleLines_returns_only_on_balanced_markers
        (n : Z) (f f' : Folds.t) :
  sizes_agree n f = true ->
  Folds.updateVisibleLines f = Ok f' ->
  QBitArray.count true (Folds._foldStarts f)
  = QBitArray.count true (Folds._foldEnds f).
Proof.
  intros Hsizes Hup.
  apply sizes_agree_true in Hsizes as (Hs1 & Hs2 & _ & Hs4).
  apply updateVisibleLines_Ok in Hup as (s & Hloop & Hstack & _).
  unfold for_range in Hloop. rewrite Hs4 in Hloop.
  pose proof (size_nonneg (Folds._foldStarts f)) as Hn.
  apply (for_loop_partial
           (fun i s =>
              Z.of_nat (length (Folds.foldStack s))
              = QBitArray.count true (take (Z.to_nat i) (Folds._foldStarts f))
                - QBitArray.count true (take (Z.to_nat i) (Folds._foldEnds f))))
    in Hloop.
  - rewrite Hstack in Hloop. cbn [length] in Hloop.
    rewrite !count_take_all in Hloop by lia. lia.
  - intros i s0 s1 Hi Hstep Hinv.
    apply scan_line_Ok in Hstep
        as (isStart & isEnd & _ & Hst & Hen & _ & Hlen).
    rewrite (count_take_succ true _ i isStart Hst).
    rewrite (count_take_succ true _ i isEnd Hen).
    rewrite Hlen, Hinv. destruct isStart, isEnd; cbn [eqb]; lia.
  - reflexivity.
Qed.

Lemma updateVisibleLines_returns_only_on_balanced_markers_witness :
  QBitArray.count true (Folds._foldStarts example_table)
  = QBitArray.count true (Folds._foldEnds example_table).
Proof.
  apply (updateVisibleLines_returns_only_on_balanced_markers
           6 example_table example_table_scanned); reflexivity.
Defined.

(** X3.  The first line is never hidden: after [updateVisibleLines] line 0
    is visible whatever the folds are. *)
Theorem updateVisibleLines_shows_first_line (f f' : Folds.t) :
  1 <= QBitArray.size (Folds._filteredLines f) ->
  Folds.updateVisibleLines f = Ok f' ->
  Folds.isLineVisible f' 0 = Ok true.
Proof.
  intros Hn Hup.
  apply updateVisibleLines_Ok in Hup as (s & Hloop & _ & ->).
  unfold Folds.isLineVisible. cbn [Folds._filteredLines].
  unfold for_range in Hloop.
  replace (Z.to_nat (QBitArray.size (Folds._filteredLines f) - 0))
    with (S (Z.to_nat (QBitArray.size (Folds._filteredLines f) - 1)))
    in Hloop by lia.
  cbn [for_loop] in Hloop. apply bind_Ok in Hloop as (s1 & Hfirst & Hloop).
  apply (for_loop_partial
           (fun i s => QBitArray.testBit (Folds.filteredLines s) 0 = Ok true))
    in Hloop.
  - exact Hloop.
  - intros i s0 s2 Hi Hstep Hinv.
    apply scan_line_Ok in Hstep as (_ & _ & _ & _ & _ & -> & _).
    rewrite testBit_insert_ne by lia. exact Hinv.
  - apply scan_line_Ok in Hfirst as (_ & _ & Hr & _ & _ & -> & _).
    cbn [Folds.stackHasClosedFold negb].
    apply (testBit_insert_eq _ 0 true). exact Hr.
Qed.

Lemma updateVisibleLines_shows_first_line_witness :
  Folds.isLineVisible example_table_scanned 0 = Ok true.
Proof.
  apply (updateVisibleLines_shows_first_line example_table).
  - apply Z.leb_le. reflexivity.
  - reflexivity.
Defined.

(** ** Fold points *)

Lemma testBit_insert_other (a : list bool) (i j : Z) (v : bool) :
  0 <= i -> i <> j ->
  QBitArray.testBit (<[Z.to_nat i := v]> a) j = QBitArray.testBit a j.
Proof.
  intros Hi Hne. destruct (Z.le_gt_cases 0 j) as [Hj|Hj].
  - apply testBit_insert_ne; assumption.
  - unfold QBitArray.testBit.
    replace (0 <=? j) with false by (symmetry; apply Z.leb_gt; lia).
    reflexivity.
Qed.

Lemma type_FoldStart (f : Folds.t) (line : Z) :
  Folds.type f line = Ok Folds.FoldStart <->
  Folds._enabled f = true
  /\ QBitArray.testBit (Folds._foldStarts f) line = Ok true.
Proof.
  unfold Folds.type. destruct (Folds._enabled f); cbn [negb].
  - destruct (QBitArray.testBit (Folds._foldStarts f) line) as [[|]|e];
      cbn [bind].
    + split; auto.
    + destruct (QBitArray.testBit (Folds._foldEnds f) line) as [[|]|e];
        cbn [bind]; split; try discriminate; intros [_ H]; discriminate.
    + split; [discriminate | intros [_ H]; discriminate].
  - split; [discriminate | intros [H _]; discriminate].
Qed.

(** X4.  [setOpen] accepts exactly the lines that [type] reports as fold
    starts; [isOpen] then returns the value set and keeps what it returned
    for every other line. *)
Theorem setOpen_then_isOpen (n : Z) (f : Folds.t) (line : Z) (open : bool) :
  sizes_agree n f = true ->
  (Folds.type f line = Ok Folds.FoldStart ->
   exists f',
     Folds.setOpen f line open = Ok f'
     /\ Folds.isOpen f' line = Ok open
     /\ (forall l, l <> line -> Folds.isOpen f' l = Folds.isOpen f l)
     /\ (forall l, Folds.type f' l = Folds.type f l))
  /\ (forall ty, Folds.type f line = Ok ty -> ty <> Folds.FoldStart ->
                 Folds.setOpen f line open = Fault AssertFailed).
Proof.
  intros Hsizes. apply sizes_agree_true in Hsizes as (Hs1 & _ & Hs3 & _).
  split.
  - intros Hty. pose proof Hty as Hst.
    apply type_FoldStart in Hst as [Hen Hbit].
    pose proof Hbit as Hr. apply testBit_Ok in Hr as [Hr _].
    assert (Hr3 : 0 <= line < QBitArray.size (Folds._expanded f)) by lia.
    unfold Folds.setOpen. rewrite Hty. cbn [bind Folds.Type_eqb Q_ASSERT].
    rewrite (proj2 (setBit_Ok (Folds._expanded f) line open _)
               (conj Hr3 eq_refl)).
    cbn [bind]. eexists. split; [reflexivity|].
    assert (Htype : forall l,
               Folds.type
                 {| Folds._expanded :=
                      <[Z.to_nat line := open]> (Folds._expanded f);
                    Folds._enabled := Folds._enabled f;
                    Folds._foldStarts := Folds._foldStarts f;
                    Folds._foldEnds := Folds._foldEnds f;
                    Folds._filteredLines := Folds._filteredLines f;
                    Folds._visibleLines := Folds._visibleLines f |} l
               = Folds.type f l) by reflexivity.
    split; [|split].
    + unfold Folds.isOpen. rewrite Htype, Hty.
      cbn [bind Folds.Type_eqb Q_ASSERT Folds._expanded].
      apply testBit_insert_eq. exact Hr3.
    + intros l Hne. unfold Folds.isOpen. rewrite Htype.
      cbn [Folds._expanded]. rewrite testBit_insert_other by lia.
      reflexivity.
    + exact Htype.
  - intros ty Hty Hne. unfold Folds.setOpen. rewrite Hty. cbn [bind].
    destruct ty; [reflexivity | contradiction | reflexivity].
Qed.

Lemma setOpen_then_isOpen_witness :
  (Folds.type example_table 1 = Ok Folds.FoldStart ->
   exists f',
     Folds.setOpen example_table 1 true = Ok f'
     /\ Folds.isOpen f' 1 = Ok true
     /\ (forall l, l <> 1 -> Folds.isOpen f' l = Folds.isOpen example_table l)
     /\ (forall l, Folds.type f' l = Folds.type example_table l))
  /\ (forall ty, Folds.type example_table 1 = Ok ty ->
                 ty <> Folds.FoldStart ->
                 Folds.setOpen example_table 1 true = Fault AssertFailed).
Proof.
  apply (setOpen_then_isOpen 6 example_table 1 true). reflexivity.
Defined.

(** X5.  A fold that [setFold] creates shows in [type] and [isOpen]: its
    first line is a fold start that is not open, its last line a fold end
    unless it is the first line too or starts another fold.  A second
    [setFold] over the same range with [false] takes the fold points away
    again: where no fold point was before the first call, the fold-start
    and fold-end arrays are what they were. *)
Theorem setFold_creates_and_removes
        (f : Folds.t) (startLine endLine : Z) (f1 : Folds.t) :
  Folds.setFold f startLine endLine true = Ok f1 ->
  Folds.type f1 startLine = Ok Folds.FoldStart
  /\ Folds.isOpen f1 startLine = Ok false
  /\ (QBitArray.testBit (Folds._foldStarts f) endLine = Ok false ->
      startLine <> endLine ->
      Folds.type f1 endLine = Ok Folds.FoldEnd)
  /\ (startLine = endLine -> Folds.type f1 endLine = Ok Folds.FoldStart)
  /\ exists f2,
       Folds.setFold f1 startLine endLine false = Ok f2
       /\ (QBitArray.testBit (Folds._foldStarts f) startLine = Ok false ->
           Folds._foldStarts f2 = Folds._foldStarts f
           /\ Folds._foldEnds f2 = Folds._foldEnds f).
Proof.
  intros Hset.
  apply setFold_Ok in Hset as (Hle & (b & Hsb & Heb) & Hr & ->).
  pose proof Hsb as Hrs. apply testBit_Ok in Hrs as [Hrs Hls].
  pose proof Heb as Hre. apply testBit_Ok in Hre as [Hre Hle'].
  assert (Hstart : QBitArray.testBit
                     (<[Z.to_nat startLine := true]> (Folds._foldStarts f))
                     startLine = Ok true)
    by (apply testBit_insert_eq; exact Hrs).
  assert (Hend : QBitArray.testBit
                   (<[Z.to_nat endLine := true]> (Folds._foldEnds f))
                   endLine = Ok true)
    by (apply testBit_insert_eq; exact Hre).
  split; [|split; [|split; [|split]]].
  - apply type_FoldStart. split; [reflexivity | exact Hstart].
  - unfold Folds.isOpen, Folds.type.
    cbn [Folds._enabled negb Folds._foldStarts Folds._expanded].
    rewrite Hstart. cbn [bind Folds.Type_eqb Q_ASSERT].
    apply testBit_insert_eq. exact Hr.
  - intros Hfree Hne. unfold Folds.type.
    cbn [Folds._enabled negb Folds._foldStarts Folds._foldEnds].
    rewrite testBit_insert_other by lia. rewrite Hfree. cbn [bind].
    rewrite Hend. reflexivity.
  - intros <-. apply type_FoldStart. split; [reflexivity | exact Hstart].
  - eexists. split.
    + apply (setFold_runs _ startLine endLine false true).
      * exact Hle.
      * exact Hstart.
      * exact Hend.
      * cbn [Folds._expanded]. rewrite size_insert. exact Hr.
    + intros Hfree. rewrite Hfree in Hsb. injection Hsb as <-.
      cbn [Folds._foldStarts Folds._foldEnds].
      rewrite !list_insert_insert_eq.
      split; apply list_insert_id; assumption.
Qed.

Lemma setFold_creates_and_removes_witness :
  exists f1,
    Folds.setFold (Folds.setLineCount (Folds.new false 0) 6) 1 4 true = Ok f1
    /\ Folds.type f1 1 = Ok Folds.FoldStart
    /\ Folds.isOpen f1 1 = Ok false
    /\ Folds.type f1 4 = Ok Folds.FoldEnd
    /\ exists f2,
         Folds.setFold f1 1 4 false = Ok f2
         /\ Folds._foldStarts f2
            = Folds._foldStarts (Folds.setLineCount (Folds.new false 0) 6)
         /\ Folds._foldEnds f2
            = Folds._foldEnds (Folds.setLineCount (Folds.new false 0) 6).
Proof.
  eexists. split; [reflexivity|].
  destruct (setFold_creates_and_removes
              (Folds.setLineCount (Folds.new false 0) 6) 1 4 _ eq_refl)
    as (Hty & Hopen & Hend & _ & f2 & Hset & Hback).
  split; [exact Hty|]. split; [exact Hopen|]. split.
  - apply Hend; [reflexivity | discriminate].
  - exists f2. split; [exact Hset|]. apply Hback. reflexivity.
Defined.

(** ** Counting bits *)

Lemma count_true_filter (p : Z -> bool) (l : list bool) :
  forall k : Z,
    (forall j : nat, (j < length l)%nat ->
                     l !! j = Some (p (k + Z.of_nat j))) ->
    QBitArray.count true l
    = Z.of_nat (length (List.filter p (seqZ k (Z.of_nat (length l))))).
Proof.
  induction l as [|b l IH]; intros k Hl.
  - reflexivity.
  - cbn [length]. rewrite seqZ_cons by lia.
    replace (Z.pred (Z.of_nat (S (length l)))) with (Z.of_nat (length l))
      by lia.
    assert (Hlt0 : (0 < length (b :: l))%nat) by (cbn [length]; lia).
    assert (Hb : b = p k).
    { pose proof (Hl 0%nat Hlt0) as H0.
      replace (k + Z.of_nat 0) with k in H0 by lia.
      injection H0 as H0. exact H0. }
    cbn [QBitArray.count List.filter].
    rewrite (IH (Z.succ k)).
    + rewrite Hb. destruct (p k); cbn [Bool.eqb length]; lia.
    + intros j Hj.
      assert (Hlt : (S j < length (b :: l))%nat) by (cbn [length]; lia).
      specialize (Hl (S j) Hlt).
      change ((b :: l) !! S j) with (l !! j) in Hl.
      rewrite Hl. f_equal. f_equal. lia.
Qed.

Lemma count_true_bits (p : Z -> bool) (a : list bool) (n : Z) :
  QBitArray.size a = n ->
  (forall i, 0 <= i < n -> QBitArray.testBit a i = Ok (p i)) ->
  QBitArray.count true a
  = Z.of_nat (length (List.filter p (seqZ 0 n))).
Proof.
  intros Hsize Hbits. subst n. unfold QBitArray.size.
  apply (count_true_filter p a 0). intros j Hj.
  specialize (Hbits (Z.of_nat j)). unfold QBitArray.size in Hbits.
  apply testBit_Ok in Hbits as [_ Hl]; [|lia].
  rewrite Nat2Z.id in Hl. exact Hl.
Qed.

(** X6.  On a table that holds a properly nested configuration and has
    folding enabled, [visibleLineCount()] after [updateVisibleLines] is the
    number of lines that lie in no collapsed fold behind its start line. *)
Theorem visibleLineCount_counts_lines_outside_collapsed_folds
        (n : Z) (c : list Fold) (f : Folds.t) :
  properly_nested n c = true ->
  encodes n c f = true ->
  Folds._enabled f = true ->
  exists f',
    Folds.updateVisibleLines f = Ok f'
    /\ Folds.visibleLineCount f'
       = Z.of_nat
           (length (List.filter (fun i => negb (inside_collapsed c i))
                                (seqZ 0 n))).
Proof.
  intros Hnested Henc Hen. apply encodes_represents in Henc.
  destruct (updateVisibleLines_nested n c f Hnested Henc)
    as (f' & Hup & Hen' & _ & _ & _ & Hsize & Hcount & Hvis).
  exists f'. split; [exact Hup|].
  unfold Folds.visibleLineCount. rewrite Hen', Hen, Hcount.
  apply count_true_bits; assumption.
Qed.

Lemma visibleLineCount_counts_lines_outside_collapsed_folds_witness :
  exists f',
    Folds.updateVisibleLines example_table = Ok f'
    /\ Folds.visibleLineCount f' = 3.
Proof.
  apply (visibleLineCount_counts_lines_outside_collapsed_folds
           6 example_folds example_table); reflexivity.
Defined.

Lemma nested_starts_NoDup (n : Z) (c : list Fold) :
  properly_nested n c = true -> NoDup (map fstart c).
Proof.
  induction c as [|a c IH]; intros Hn; cbn [map].
  - constructor.
  - pose proof Hn as Hall. simpl in Hn.
    apply andb_true_iff in Hn as [_ Hrest].
    constructor; [|apply IH; exact Hrest].
    intros Hin. apply list_elem_of_In, in_map_iff in Hin as (b & Heq & Hb).
    assert (Hab : a = b).
    { apply (unique_start n (a :: c) Hall); [left; reflexivity | right; exact Hb
                                            | congruence]. }
    subst b. simpl in Hall.
    apply andb_true_iff in Hall as [Hhead _].
    apply andb_true_iff in Hhead as [Hrange Hsep].
    rewrite forallb_forall in Hsep. specialize (Hsep a Hb).
    unfold separate in Hsep. zbool; lia.
Qed.

Lemma NoDup_List_filter {A : Type} (p : A -> bool) (l : list A) :
  NoDup l -> NoDup (List.filter p l).
Proof.
  induction 1 as [|x l Hx Hl IH]; cbn [List.filter].
  - constructor.
  - destruct (p x); [|exact IH]. constructor; [|exact IH].
    intros Hin. apply Hx. apply list_elem_of_In, filter_In in Hin as [Hin _].
    apply list_elem_of_In. exact Hin.
Qed.

(** X7.  [count()] is the number of folds: on an enabled table that holds a
    properly nested configuration it returns the number of its folds. *)
Theorem count_is_the_number_of_folds (n : Z) (c : list Fold) (f : Folds.t) :
  properly_nested n c = true ->
  encodes n c f = true ->
  Folds._enabled f = true ->
  Folds.count f = Z.of_nat (length c).
Proof.
  intros Hnested Henc Hen. apply encodes_represents in Henc.
  destruct Henc as (Hsizes & Hstarts & _).
  apply sizes_agree_true in Hsizes as (Hs1 & _).
  unfold Folds.count. rewrite Hen.
  rewrite (count_true_bits (is_start c) _ n Hs1 Hstarts).
  f_equal. rewrite <- (length_map fstart c).
  apply Permutation_length, NoDup_Permutation.
  - apply NoDup_List_filter, NoDup_seqZ.
  - apply (nested_starts_NoDup n c Hnested).
  - intros i. rewrite !list_elem_of_In, filter_In, in_map_iff.
    rewrite is_start_true, <- list_elem_of_In, elem_of_seqZ. split.
    + intros [_ (a & Ha & Heq)]. exists a. auto.
    + intros (a & Heq & Ha). pose proof (nested_range n c Hnested a Ha).
      split; [lia|]. exists a. auto.
Qed.

Lemma count_is_the_number_of_folds_witness :
  Folds.count example_table = 2.
Proof.
  apply (count_is_the_number_of_folds 6 example_folds example_table);
    reflexivity.
Defined.

(** ** [mapToBufferLine] *)

Section MapToBufferLine.
Variable f : Folds.t.
Variable visibleLine : Z.
Let n := QBitArray.size (Folds._filteredLines f).
Let before (r : Z) : Z := visible_before f r.

Lemma mapToBufferLine_loop_spec (fuel : nat) :
  forall r visibleCount,
    0 <= r ->
    r + Z.of_nat fuel = n - 1 ->
    visibleCount = before r ->
    visibleCount <= visibleLine ->
    (forall r', 0 <= r' < r -> before r' < visibleLine) ->
    exists p,
      Folds.mapToBufferLine_loop f visibleLine fuel r visibleCount = Ok p
      /\ r <= p <= n - 1
      /\ (forall r', 0 <= r' < p -> before r' < visibleLine)
      /\ (before p = visibleLine \/ (p = n - 1 /\ before p < visibleLine)).
Proof.
  induction fuel as [|fuel IH]; intros r vc Hr Hfuel Hvc Hle Hmin.
  - exists r. split; [reflexivity|]. split; [lia|]. split; [exact Hmin|].
    destruct (Z.eq_dec vc visibleLine); [left; lia | right; lia].
  - cbn [Folds.mapToBufferLine_loop]. fold n.
    destruct (vc <? visibleLine) eqn:Hlt; cbn [andb].
    + replace (r <? n - 1) with true by (symmetry; apply Z.ltb_lt; lia).
      apply Z.ltb_lt in Hlt.
      destruct (testBit_in_range (Folds._filteredLines f) r) as [b Hb].
      { fold n. lia. }
      unfold Folds.isLineVisible. rewrite Hb. cbn [bind].
      destruct (IH (r + 1) (vc + (if b then 1 else 0))) as (p & Hp & Hrange & Hmin' & Hpost).
      * lia.
      * lia.
      * unfold before, visible_before. rewrite (count_take_succ true _ r b Hb).
        fold (visible_before f r). fold (before r).
        destruct b; cbn [Bool.eqb]; lia.
      * destruct b; lia.
      * intros r' Hr'. destruct (Z.eq_dec r' r) as [->|Hne]; [lia|].
        apply Hmin. lia.
      * exists p. split; [exact Hp|]. split; [lia|]. split; assumption.
    + apply Z.ltb_ge in Hlt. exists r. split; [reflexivity|].
      split; [lia|]. split; [exact Hmin|]. left. lia.
Qed.

End MapToBufferLine.

(** X8.  [mapToBufferLine(visibleLine)] on an enabled table over at least one
    line returns the first buffer line that has [visibleLine] visible lines
    before it; if the table has fewer visible lines than that before its
    last line, it returns the last line.  It never reads a bit out of
    range. *)
Theorem mapToBufferLine_finds_the_line_after_the_visible_ones
  (f : Folds.t) (visibleLine : Z) :
  Folds._enabled f = true ->
  1 <= QBitArray.size (Folds._filteredLines f) ->
  0 <= visibleLine ->
  exists p,
    Folds.mapToBufferLine f visibleLine = Ok p
    /\ 0 <= p <= QBitArray.size (Folds._filteredLines f) - 1
    /\ (forall r, 0 <= r < p -> visible_before f r < visibleLine)
    /\ (visible_before f p = visibleLine
        \/ (p = QBitArray.size (Folds._filteredLines f) - 1
            /\ visible_before f p < visibleLine)).
Proof.
  intros Hen Hn Hv. unfold Folds.mapToBufferLine. rewrite Hen. cbn [negb].
  destruct (mapToBufferLine_loop_spec f visibleLine
              (Z.to_nat (QBitArray.size (Folds._filteredLines f) - 1)) 0 0)
    as (p & Hp & Hrange & Hmin & Hpost).
  - lia.
  - lia.
  - reflexivity.
  - exact Hv.
  - intros r' Hr'. lia.
  - exists p. repeat split; try assumption; lia.
Qed.

Lemma mapToBufferLine_finds_the_line_after_the_visible_ones_witness :
  exists p,
    Folds.mapToBufferLine example_table_scanned 3 = Ok p
    /\ 0 <= p <= QBitArray.size (Folds._filteredLines example_table_scanned) - 1
    /\ (forall r, 0 <= r < p -> visible_before example_table_scanned r < 3)
    /\ (visible_before example_table_scanned p = 3
        \/ (p = QBitArray.size (Folds._filteredLines example_table_scanned) - 1
            /\ visible_before example_table_scanned p < 3)).
Proof.
  apply (mapToBufferLine_finds_the_line_after_the_visible_ones
           example_table_scanned 3).
  - reflexivity.
  - apply Z.leb_le. reflexivity.
  - lia.
Defined.

(** ** The folds of the filter, for any pattern and any screen *)

Lemma all_visible_before (f : Folds.t) (v : Z) :
  0 <= v ->
  (forall j, 0 <= j < v -> Folds.isLineVisible f j = Ok true) ->
  forall r, 0 <= r <= v -> visible_before f r = r.
Proof.
  intros Hv Hall r Hr.
  replace r with (Z.of_nat (Z.to_nat r)) by lia.
  assert (Hle : (Z.to_nat r <= Z.to_nat v)%nat) by lia.
  clear Hr. induction (Z.to_nat r) as [|k IH].
  - reflexivity.
  - unfold visible_before in *.
    replace (Z.of_nat (S k)) with (Z.of_nat k + 1) by lia.
    rewrite (count_take_succ true _ (Z.of_nat k) true).
    + rewrite IH by lia. cbn [Bool.eqb]. lia.
    + apply Hall. lia.
Qed.

(** X9.  Where no line before [visibleLine] is hidden, or folding is not
    enabled, [mapToBufferLine] is the identity. *)
Theorem mapToBufferLine_identity_without_hidden_lines
        (f : Folds.t) (visibleLine : Z) :
  0 <= visibleLine <= QBitArray.size (Folds._filteredLines f) - 1 ->
  (Folds._enabled f = true ->
   forall j, 0 <= j < visibleLine -> Folds.isLineVisible f j = Ok true) ->
  Folds.mapToBufferLine f visibleLine = Ok visibleLine.
Proof.
  intros Hv Hall. destruct (Folds._enabled f) eqn:Hen.
  - specialize (Hall eq_refl).
    destruct (mapToBufferLine_loop_spec f visibleLine
                (Z.to_nat (QBitArray.size (Folds._filteredLines f) - 1)) 0 0)
      as (p & Hp & Hrange & Hmin & Hpost).
    + lia.
    + lia.
    + reflexivity.
    + lia.
    + intros r' Hr'. lia.
    + unfold Folds.mapToBufferLine. rewrite Hen. cbn [negb]. rewrite Hp.
      f_equal.
      assert (Hpv : p <= visibleLine).
      { destruct (Z_le_gt_dec p visibleLine) as [Hle|Hgt]; [exact Hle|].
        specialize (Hmin visibleLine ltac:(lia)).
        rewrite (all_visible_before f visibleLine) in Hmin by (try assumption; lia).
        lia. }
      rewrite (all_visible_before f visibleLine) in Hpost by (try assumption; lia).
      lia.
  - unfold Folds.mapToBufferLine. rewrite Hen. reflexivity.
Qed.

Lemma mapToBufferLine_identity_without_hidden_lines_witness :
  Folds.mapToBufferLine example_table_scanned 1 = Ok 1.
Proof.
  apply (mapToBufferLine_identity_without_hidden_lines example_table_scanned 1).
  - split; [lia | apply Z.leb_le; reflexivity].
  - intros _ j Hj. assert (j = 0) as -> by lia. reflexivity.
Defined.

Lemma count_pos (a : list bool) (i : Z) :
  QBitArray.testBit a i = Ok true -> 0 < QBitArray.count true a.
Proof.
  intros Hb. apply testBit_Ok in Hb as [Hi Hl].
  rewrite <- (take_drop_middle a _ true Hl), count_app.
  cbn [QBitArray.count Bool.eqb].
  pose proof (count_le_size true (take (Z.to_nat i) a)).
  pose proof (count_le_size true (drop (S (Z.to_nat i)) a)). lia.
Qed.

Lemma filter_line_inv (w : ScreenWindow.t) (filter : string) (i : Z)
      (st : Folds.t * Z) :
  0 <= i < ScreenWindow.lineCount w ->
  filter_inv w filter i st ->
  exists st',
    ScreenWindow.filter_line w filter 0 (ScreenWindow.lineCount w - 1) i st
    = Ok st'
    /\ filter_inv w filter (i + 1) st'.
Proof.
  intros Hi Hinv. destruct st as [folds fs].
  destruct Hinv as (Ha & Hb & Hd & Hgap & Hfl & Hvl & Hcnt & c & Hrep & Hnest
                    & Hc & Hin).
  cbn [fst snd] in *.
  unfold ScreenWindow.filter_line.
  change (contains (Screen.decodedLine (ScreenWindow._screen w) i) filter
          || (i =? 0) || (i =? ScreenWindow.lineCount w - 1))
    with (filter_boundary w filter i).
  destruct (filter_boundary w filter i) eqn:Hbd.
  - destruct (i =? 0) eqn:Hi0; cbn [negb].
    + apply Z.eqb_eq in Hi0. subst i. cbn [bind].
      exists (folds, 0). split; [reflexivity|].
      unfold filter_inv. cbn [fst snd].
      split; [lia|]. split; [lia|]. split; [intros _; exact Hbd|].
      split; [intros j Hj; lia|]. split; [exact Hfl|].
      split; [exact Hvl|]. split; [lia|].
      exists c. split; [exact Hrep|]. split; [exact Hnest|].
      split.
      * intros a Ha'. destruct (Hc a Ha') as [He Hend].
        pose proof (nested_range _ c Hnest a Ha'). lia.
      * intros j Hj. lia.
    + apply Z.eqb_neq in Hi0.
      assert (Hfs : 0 <= fs) by (apply Hb; lia).
      destruct Hrep as (Hsizes & Hstarts & Hends & Hexp).
      pose proof Hsizes as Hsz.
      apply sizes_agree_true in Hsz as (Hs1 & Hs2 & Hs3 & Hs4).
      assert (Hnostart : is_start c fs = false).
      { destruct (is_start c fs) eqn:E; [|reflexivity].
        apply is_start_true in E as (a & Ha' & Hst).
        destruct (Hc a Ha') as [_ Hend].
        pose proof (nested_range _ c Hnest a Ha'). lia. }
      assert (Hnoend : is_end c (i - 1) = false).
      { destruct (is_end c (i - 1)) eqn:E; [|reflexivity].
        apply is_end_true in E as (a & Ha' & Hen).
        destruct (Hc a Ha') as [_ Hend]. lia. }
      assert (Hrun := setFold_runs folds fs (i - 1) true false
                        ltac:(lia)).
      rewrite Hstarts, Hends, Hnostart, Hnoend in Hrun by lia.
      specialize (Hrun eq_refl eq_refl ltac:(lia)).
      rewrite Hrun. cbn [bind].
      eexists. split; [reflexivity|].
      destruct (setFold_fresh (ScreenWindow.lineCount w) c folds _ fs (i - 1)
                  (conj Hsizes (conj Hstarts (conj Hends Hexp))) Hrun)
        as (Hrep' & _).
      { rewrite Hstarts by lia. rewrite Hnostart. reflexivity. }
      unfold filter_inv.
      cbn [fst snd Folds._filteredLines Folds._visibleLines].
      split; [lia|]. split; [lia|]. split; [intros _; exact Hbd|].
      split; [intros j Hj; lia|]. split; [exact Hfl|].
      split; [exact Hvl|].
      split.
      { intros _. unfold Folds.count. cbn [Folds._enabled Folds._foldStarts].
        apply (count_pos _ fs). apply testBit_insert_eq. lia. }
      exists (mkFold fs (i - 1) false :: c).
      split; [exact Hrep'|]. split.
      * cbn [properly_nested fstart fend]. rewrite Hnest.
        replace (0 <=? fs) with true by (symmetry; apply Z.leb_le; lia).
        replace (fs <=? i - 1) with true by (symmetry; apply Z.leb_le; lia).
        replace (i - 1 <? ScreenWindow.lineCount w) with true
          by (symmetry; apply Z.ltb_lt; lia).
        cbn [andb]. rewrite andb_true_r. apply forallb_forall.
        intros a Ha'. destruct (Hc a Ha') as [_ Hend].
        unfold separate. cbn [fstart fend].
        replace (fend a <? fs) with true by (symmetry; apply Z.ltb_lt; lia).
        rewrite orb_true_r. reflexivity.
      * split.
        -- intros a [<-|Ha']; cbn [fexpanded fend].
           ++ split; [reflexivity | lia].
           ++ destruct (Hc a Ha') as [He Hend]. split; [exact He | lia].
        -- intros j Hj. cbn [inside_collapsed existsb fexpanded negb andb].
           fold (inside_collapsed c j). unfold inside at 1.
           cbn [fstart fend].
           destruct (Z_lt_le_dec j fs) as [Hlt|Hge].
           ++ replace (fs <? j) with false by (symmetry; apply Z.ltb_ge; lia).
              cbn [andb orb]. apply Hin. lia.
           ++ assert (Hold : inside_collapsed c j = false).
              { destruct (inside_collapsed c j) eqn:E; [|reflexivity].
                apply inside_collapsed_true in E as (a & Ha' & _ & Hins).
                destruct (Hc a Ha') as [_ Hend]. unfold inside in Hins.
                zbool. lia. }
              rewrite Hold, orb_false_r.
              destruct (Z.eq_dec j fs) as [->|Hne].
              ** rewrite (Hd Hfs). rewrite Z.ltb_irrefl. reflexivity.
              ** rewrite (Hgap j) by lia.
                 replace (fs <? j) with true by (symmetry; apply Z.ltb_lt; lia).
                 replace (j <=? i - 1) with true
                   by (symmetry; apply Z.leb_le; lia).
                 reflexivity.
  - assert (Hi0 : i <> 0).
    { intros ->. unfold filter_boundary in Hbd. cbn in Hbd.
      rewrite orb_true_r in Hbd. discriminate. }
    exists (folds, fs). split; [reflexivity|].
    unfold filter_inv. cbn [fst snd].
    split; [lia|]. split; [lia|]. split; [exact Hd|].
    split.
    { intros j Hj. destruct (Z.eq_dec j i) as [->|Hne]; [exact Hbd|].
      apply Hgap. lia. }
    split; [exact Hfl|]. split; [exact Hvl|]. split; [exact Hcnt|].
    exists c. split; [exact Hrep|]. split; [exact Hnest|].
    split; [exact Hc | exact Hin].
Qed.

Lemma createFilterFolds_spec (w : ScreenWindow.t) (filter : string) (m : Z) :
  isEmpty filter = false ->
  0 <= ScreenWindow.lineCount w ->
  sizes_agree m (ScreenWindow._folds w) = true ->
  exists folds f',
    ScreenWindow.createFilterFolds w filter
    = Ok (ScreenWindow.with_folds
            (ScreenWindow.with_filterNeedsUpdate w false) folds)
    /\ sizes_agree (ScreenWindow.lineCount w) folds = true
    /\ Folds._visibleLines folds
       = Folds._visibleLines (ScreenWindow._folds w)
    /\ (2 <= ScreenWindow.lineCount w -> 0 < Folds.count folds)
    /\ Folds.updateVisibleLines folds = Ok f'
    /\ (forall i, 0 <= i < ScreenWindow.lineCount w ->
          Folds.isLineVisible f' i = Ok (filter_boundary w filter i))
    /\ Folds._visibleLines f'
       = Z.of_nat (length (List.filter (filter_boundary w filter)
                                       (seqZ 0 (ScreenWindow.lineCount w)))).
Proof.
  intros Hne Hn Hsizes. unfold ScreenWindow.createFilterFolds. rewrite Hne.
  change (ScreenWindow.lineCount (ScreenWindow.with_filterNeedsUpdate w false))
    with (ScreenWindow.lineCount w).
  change (ScreenWindow._folds (ScreenWindow.with_filterNeedsUpdate w false))
    with (ScreenWindow._folds w).
  rewrite (removeAll_setLineCount _ m _ Hsizes Hn).
  set (n := ScreenWindow.lineCount w) in *.
  set (start := {| Folds._enabled := false;
                   Folds._foldStarts := replicate (Z.to_nat n) false;
                   Folds._foldEnds := replicate (Z.to_nat n) false;
                   Folds._expanded := replicate (Z.to_nat n) false;
                   Folds._filteredLines := replicate (Z.to_nat n) true;
                   Folds._visibleLines :=
                     Folds._visibleLines (ScreenWindow._folds w) |}).
  assert (Hstart : filter_inv w filter 0 (start, -1)).
  { unfold filter_inv. cbn [fst snd]. fold n.
    split; [lia|]. split; [lia|]. split; [lia|].
    split; [intros j Hj; lia|]. split; [reflexivity|].
    split; [reflexivity|]. split; [lia|].
    exists []. split.
    - apply blank_represents. unfold blank, start. cbn.
      rewrite !forallb_negb_replicate, !andb_true_r.
      apply sizes_agree_true. cbn. unfold QBitArray.size.
      rewrite !length_replicate. lia.
    - split; [reflexivity|]. split; [intros a []|]. intros j Hj. lia. }
  destruct (for_loop_invariant (filter_inv w filter)
              (ScreenWindow.filter_line w filter 0 (n - 1))
              (Z.to_nat (n - 0)) 0 (start, -1))
    as ([folds fs] & Hloop & Hinv).
  { intros i st Hi Hst. apply filter_line_inv; [lia | exact Hst]. }
  { exact Hstart. }
  unfold for_range.
  change (ScreenWindow.filter_line (ScreenWindow.with_filterNeedsUpdate w false))
    with (ScreenWindow.filter_line w).
  rewrite Hloop. cbn [bind].
  replace (0 + Z.of_nat (Z.to_nat (n - 0))) with n in Hinv by lia.
  destruct Hinv as (Ha & Hb & Hd & Hgap & Hfl & Hvl & Hcnt & c & Hrep & Hnest
                    & Hc & Hin).
  cbn [fst snd] in *. fold n in Hrep, Hnest.
  destruct (updateVisibleLines_nested n c folds Hnest Hrep)
    as (f' & Hup & _ & _ & _ & _ & Hsize & Hcount & Hvis).
  assert (Hlast : 1 <= n -> fs = n - 1).
  { intros Hn1. destruct (Z.eq_dec fs (n - 1)) as [E|E]; [exact E|].
    assert (Hbd : filter_boundary w filter (n - 1) = false)
      by (apply Hgap; lia).
    unfold filter_boundary in Hbd. fold n in Hbd.
    rewrite Z.eqb_refl, orb_true_r in Hbd. discriminate. }
  assert (Hall : forall i, 0 <= i < n ->
                   Folds.isLineVisible f' i = Ok (filter_boundary w filter i)).
  { intros i Hi. rewrite (Hvis i Hi). f_equal.
    specialize (Hlast ltac:(lia)).
    destruct (Z.eq_dec i fs) as [->|Hne'].
    - rewrite (Hd ltac:(lia)).
      destruct (inside_collapsed c fs) eqn:E; [|reflexivity].
      apply inside_collapsed_true in E as (a & Ha' & _ & Hins).
      destruct (Hc a Ha') as [_ Hend]. unfold inside in Hins. zbool. lia.
    - rewrite Hin by lia. apply negb_involutive. }
  exists folds, f'. split; [reflexivity|].
  split; [apply Hrep|]. split; [exact Hvl|].
  split; [intros Hn2; apply Hcnt; specialize (Hlast ltac:(lia)); lia|].
  split; [exact Hup|]. split; [exact Hall|].
  rewrite Hcount. apply count_true_bits; [exact Hsize|].
  intros i Hi. apply (Hall i Hi).
Qed.


(** X10.  For any pattern that is not empty and any screen,
    [createFilterFolds] returns, and after [updateVisibleLines] on the
    table it builds the visible lines are exactly the lines that contain
    the pattern, the first line and the last line; the visible-line counter
    is their number.  The call changes the fold table and the
    filter-update flag only. *)
Theorem createFilterFolds_shows_matches_and_both_ends
        (w : ScreenWindow.t) (filter : string) (m : Z) :
  isEmpty filter = false ->
  0 <= ScreenWindow.lineCount w ->
  sizes_agree m (ScreenWindow._folds w) = true ->
  exists folds f',
    ScreenWindow.createFilterFolds w filter
    = Ok (ScreenWindow.with_folds
            (ScreenWindow.with_filterNeedsUpdate w false) folds)
    /\ Folds.updateVisibleLines folds = Ok f'
    /\ (forall i, 0 <= i < ScreenWindow.lineCount w ->
          Folds.isLineVisible f' i = Ok (filter_boundary w filter i))
    /\ Folds._visibleLines f'
       = Z.of_nat (length (List.filter (filter_boundary w filter)
                                       (seqZ 0 (ScreenWindow.lineCount w)))).
Proof.
  intros Hne Hn Hsizes.
  destruct (createFilterFolds_spec w filter m Hne Hn Hsizes)
    as (folds & f' & Hrun & _ & _ & _ & Hup & Hvis & Hcount).
  exists folds, f'. repeat split; assumption.
Qed.

Lemma createFilterFolds_shows_matches_and_both_ends_witness :
  exists folds f',
    ScreenWindow.createFilterFolds foo_window "foo"
    = Ok (ScreenWindow.with_folds
            (ScreenWindow.with_filterNeedsUpdate foo_window false) folds)
    /\ Folds.updateVisibleLines folds = Ok f'
    /\ (forall i, 0 <= i < ScreenWindow.lineCount foo_window ->
          Folds.isLineVisible f' i = Ok (filter_boundary foo_window "foo" i))
    /\ Folds._visibleLines f'
       = Z.of_nat (length (List.filter (filter_boundary foo_window "foo")
                             (seqZ 0 (ScreenWindow.lineCount foo_window)))).
Proof.
  apply (createFilterFolds_shows_matches_and_both_ends foo_window "foo" 0).
  - reflexivity.
  - apply Z.leb_le. reflexivity.
  - reflexivity.
Defined.

(** ** Scrolling, continued *)

Lemma scroll_keeps_the_balance (w : ScreenWindow.t) (r : scroll_request) :
  ScreenWindow._scrollCount (scroll w r)
  - ScreenWindow._currentLine (scroll w r)
  = ScreenWindow._scrollCount w - ScreenWindow._currentLine w.
Proof.
  destruct r as [line|[|] amount]; cbn; lia.
Qed.

(** X11.  The scroll counter follows the top line: over any sequence of
    [scrollTo] and [scrollBy] calls it changes by as much as the stored top
    line does, so after [resetScrollCount()] it is the net movement of the
    window, however often a request was clamped. *)
Theorem scrollCount_is_the_net_movement
        (w : ScreenWindow.t) (rs : list scroll_request) :
  ScreenWindow.scrollCount (scroll_all w rs) - ScreenWindow.scrollCount w
  = ScreenWindow._currentLine (scroll_all w rs) - ScreenWindow._currentLine w
  /\ ScreenWindow.scrollCount (scroll_all (ScreenWindow.resetScrollCount w) rs)
     = ScreenWindow._currentLine (scroll_all (ScreenWindow.resetScrollCount w) rs)
       - ScreenWindow._currentLine w.
Proof.
  assert (Hnet : forall rs w,
             ScreenWindow._scrollCount (scroll_all w rs)
             - ScreenWindow._currentLine (scroll_all w rs)
             = ScreenWindow._scrollCount w - ScreenWindow._currentLine w).
  { clear. induction rs as [|r rs IH]; intros w; [reflexivity|].
    cbn [scroll_all fold_left]. fold (scroll_all (scroll w r) rs).
    rewrite IH. apply scroll_keeps_the_balance. }
  unfold ScreenWindow.scrollCount. split.
  - pose proof (Hnet rs w). lia.
  - pose proof (Hnet rs (ScreenWindow.resetScrollCount w)) as H.
    cbn [ScreenWindow.resetScrollCount ScreenWindow._scrollCount
         ScreenWindow._currentLine] in H. lia.
Qed.

Lemma currentLine_without_folds (w : ScreenWindow.t) :
  Folds.count (ScreenWindow._folds w) <= 0 ->
  ScreenWindow.currentLine w
  = Z.max 0 (Z.min (ScreenWindow.lineCount w - ScreenWindow.windowLines w)
                   (ScreenWindow._currentLine w)).
Proof.
  intros Hc. unfold ScreenWindow.currentLine, ScreenWindow.visibleLineCount.
  replace (Folds.count (ScreenWindow._folds w) >? 0) with false
    by (symmetry; rewrite Z.gtb_ltb; apply Z.ltb_ge; exact Hc).
  apply qBound_max_min.
Qed.

(** X12.  On a window without folds, scrolling by a number of lines and back
    by the same number returns to the top line the window showed, as long
    as the first step is not clamped; the scroll counter ends where the
    net movement puts it. *)
Theorem scrollBy_there_and_back (w : ScreenWindow.t) (amount : Z) :
  Folds.count (ScreenWindow._folds w) <= 0 ->
  0 <= ScreenWindow.currentLine w + amount
    <= ScreenWindow.lineCount w - ScreenWindow.windowLines w ->
  let w1 := ScreenWindow.scrollBy w ScreenWindow.ScrollLines amount in
  let w2 := ScreenWindow.scrollBy w1 ScreenWindow.ScrollLines (- amount) in
  ScreenWindow.currentLine w1 = ScreenWindow.currentLine w + amount
  /\ ScreenWindow.currentLine w2 = ScreenWindow.currentLine w
  /\ ScreenWindow._currentLine w2 = ScreenWindow.currentLine w.
Proof.
  intros Hc Hrange w1 w2.
  pose proof (currentLine_without_folds w Hc) as Hcur.
  assert (H1 : ScreenWindow._currentLine w1 = ScreenWindow.currentLine w + amount).
  { subst w1. cbn [ScreenWindow.scrollBy ScreenWindow.scrollTo
                   ScreenWindow._currentLine].
    rewrite qBound_max_min. lia. }
  assert (Hc1 : ScreenWindow.currentLine w1 = ScreenWindow.currentLine w + amount).
  { rewrite (currentLine_without_folds w1 Hc).
    change (ScreenWindow.lineCount w1) with (ScreenWindow.lineCount w).
    change (ScreenWindow.windowLines w1) with (ScreenWindow.windowLines w).
    rewrite H1. lia. }
  assert (H2 : ScreenWindow._currentLine w2 = ScreenWindow.currentLine w).
  { subst w2. cbn [ScreenWindow.scrollBy]. rewrite Hc1.
    cbn [ScreenWindow.scrollTo ScreenWindow._currentLine].
    change (ScreenWindow.lineCount w1) with (ScreenWindow.lineCount w).
    change (ScreenWindow.windowLines w1) with (ScreenWindow.windowLines w).
    rewrite qBound_max_min. lia. }
  split; [exact Hc1|]. split; [|exact H2].
  rewrite (currentLine_without_folds w2 Hc).
  change (ScreenWindow.lineCount w2) with (ScreenWindow.lineCount w).
  change (ScreenWindow.windowLines w2) with (ScreenWindow.windowLines w).
  rewrite H2. lia.
Qed.

Lemma scrollBy_there_and_back_witness :
  let w1 := ScreenWindow.scrollBy small_window ScreenWindow.ScrollLines 3 in
  let w2 := ScreenWindow.scrollBy w1 ScreenWindow.ScrollLines (- 3) in
  ScreenWindow.currentLine w1 = ScreenWindow.currentLine small_window + 3
  /\ ScreenWindow.currentLine w2 = ScreenWindow.currentLine small_window
  /\ ScreenWindow._currentLine w2 = ScreenWindow.currentLine small_window.
Proof.
  apply (scrollBy_there_and_back small_window 3).
  - apply Z.leb_le. reflexivity.
  - split; apply Z.leb_le; reflexivity.
Defined.

Lemma currentLine_nonneg (w : ScreenWindow.t) : 0 <= ScreenWindow.currentLine w.
Proof. unfold ScreenWindow.currentLine. rewrite qBound_max_min. lia. Qed.

Lemma qMin_min (a b : Z) : qMin a b = Z.min a b.
Proof. unfold qMin. destruct (a <? b) eqn:E; zbool; lia. Qed.

Lemma qMax_max (a b : Z) : qMax a b = Z.max a b.
Proof. unfold qMax. destruct (a <? b) eqn:E; zbool; lia. Qed.

(** X13.  A window whose folds hide a line is never at the end of the
    output, unless it is exactly as tall as the output: [currentLine()] is
    clamped by the number of visible lines, [atEndOfOutput()] compares it
    with the number of all lines. *)
Theorem atEndOfOutput_never_with_hidden_lines (w : ScreenWindow.t) :
  ScreenWindow.visibleLineCount w < ScreenWindow.lineCount w ->
  ScreenWindow.lineCount w <> ScreenWindow.windowLines w ->
  ScreenWindow.atEndOfOutput w = false.
Proof.
  intros Hhidden Hne. unfold ScreenWindow.atEndOfOutput.
  apply Z.eqb_neq. unfold ScreenWindow.currentLine.
  rewrite qBound_max_min. lia.
Qed.

Lemma atEndOfOutput_never_with_hidden_lines_witness :
  ScreenWindow.atEndOfOutput
    (ScreenWindow.with_folds small_window foo_table_scanned) = false.
Proof.
  apply (atEndOfOutput_never_with_hidden_lines
           (ScreenWindow.with_folds small_window foo_table_scanned)).
  - apply Z.ltb_lt. reflexivity.
  - discriminate.
Defined.

(** X14.  A window that is taller than the output is never at the end of the
    output: its top line is not negative, and [atEndOfOutput()] compares it
    with the negative [lineCount() - windowLines()]. *)
Theorem atEndOfOutput_never_on_a_taller_window (w : ScreenWindow.t) :
  ScreenWindow.lineCount w < ScreenWindow.windowLines w ->
  ScreenWindow.atEndOfOutput w = false.
Proof.
  intros Htall. pose proof (currentLine_nonneg w) as Hpos.
  unfold ScreenWindow.atEndOfOutput. apply Z.eqb_neq. lia.
Qed.

Lemma atEndOfOutput_never_on_a_taller_window_witness :
  ScreenWindow.atEndOfOutput example_window = false.
Proof.
  apply (atEndOfOutput_never_on_a_taller_window example_window).
  apply Z.ltb_lt. reflexivity.
Defined.

(** X15.  A window that tracks the output, has no folds and is not taller
    than the output is at the end of the output after
    [notifyOutputChanged()]: its top line is [lineCount() - windowLines()].
    The scroll counter falls by the lines the screen has scrolled, both
    update flags are set and [outputChanged] is emitted. *)
Theorem notifyOutputChanged_follows_the_output (w : ScreenWindow.t) :
  ScreenWindow.trackOutput w = true ->
  Folds.count (ScreenWindow._folds w) <= 0 ->
  ScreenWindow.windowLines w <= ScreenWindow.lineCount w ->
  let w' := ScreenWindow.notifyOutputChanged w in
  ScreenWindow.atEndOfOutput w' = true
  /\ ScreenWindow.currentLine w'
     = ScreenWindow.lineCount w - ScreenWindow.windowLines w
  /\ ScreenWindow.scrollCount w'
     = ScreenWindow.scrollCount w
       - Screen.scrolledLines (ScreenWindow._screen w)
  /\ ScreenWindow._bufferNeedsUpdate w' = true
  /\ ScreenWindow._filterNeedsUpdate w' = true
  /\ ScreenWindow.emitted w'
     = ScreenWindow.outputChanged :: ScreenWindow.emitted w.
Proof.
  intros Htrack Hnofolds Hfits w'. unfold ScreenWindow.trackOutput in Htrack.
  assert (Hcur : ScreenWindow.currentLine w'
                 = ScreenWindow.lineCount w - ScreenWindow.windowLines w).
  { rewrite (currentLine_without_folds w' Hnofolds).
    change (ScreenWindow.lineCount w') with (ScreenWindow.lineCount w).
    change (ScreenWindow.windowLines w') with (ScreenWindow.windowLines w).
    subst w'. unfold ScreenWindow.notifyOutputChanged.
    cbn [ScreenWindow._currentLine]. rewrite Htrack, qMax_max.
    unfold ScreenWindow.lineCount, ScreenWindow.windowLines in *. lia. }
  split.
  { unfold ScreenWindow.atEndOfOutput. rewrite Hcur. apply Z.eqb_refl. }
  split; [exact Hcur|].
  subst w'. unfold ScreenWindow.notifyOutputChanged, ScreenWindow.scrollCount.
  cbn [ScreenWindow._scrollCount ScreenWindow._bufferNeedsUpdate
       ScreenWindow._filterNeedsUpdate ScreenWindow.emitted].
  rewrite Htrack. repeat split.
Qed.

Lemma notifyOutputChanged_follows_the_output_witness :
  let w' := ScreenWindow.notifyOutputChanged small_window in
  ScreenWindow.atEndOfOutput w' = true
  /\ ScreenWindow.currentLine w'
     = ScreenWindow.lineCount small_window
       - ScreenWindow.windowLines small_window
  /\ ScreenWindow.scrollCount w'
     = ScreenWindow.scrollCount small_window
       - Screen.scrolledLines (ScreenWindow._screen small_window)
  /\ ScreenWindow._bufferNeedsUpdate w' = true
  /\ ScreenWindow._filterNeedsUpdate w' = true
  /\ ScreenWindow.emitted w'
     = ScreenWindow.outputChanged :: ScreenWindow.emitted small_window.
Proof.
  apply (notifyOutputChanged_follows_the_output small_window).
  - reflexivity.
  - apply Z.leb_le. reflexivity.
  - apply Z.leb_le. reflexivity.
Defined.

(** X16.  A window that does not track the output keeps its place when the
    output changes: [notifyOutputChanged()] moves the stored top line up by
    the lines the history has dropped and keeps it between 0 and the number
    of history lines; the scroll counter is not touched. *)
Theorem notifyOutputChanged_keeps_the_place (w : ScreenWindow.t) :
  ScreenWindow.trackOutput w = false ->
  0 <= Screen.getHistLines (ScreenWindow._screen w) ->
  let w' := ScreenWindow.notifyOutputChanged w in
  let dropped := Screen.droppedLines (ScreenWindow._screen w) in
  0 <= ScreenWindow._currentLine w'
    <= Screen.getHistLines (ScreenWindow._screen w)
  /\ (0 <= ScreenWindow._currentLine w - dropped
        <= Screen.getHistLines (ScreenWindow._screen w) ->
      ScreenWindow._currentLine w' = ScreenWindow._currentLine w - dropped)
  /\ (ScreenWindow._currentLine w < dropped ->
      ScreenWindow._currentLine w' = 0)
  /\ ScreenWindow.scrollCount w' = ScreenWindow.scrollCount w
  /\ ScreenWindow._bufferNeedsUpdate w' = true
  /\ ScreenWindow._filterNeedsUpdate w' = true.
Proof.
  intros Htrack Hhist w' dropped. unfold ScreenWindow.trackOutput in Htrack.
  subst w' dropped.
  unfold ScreenWindow.notifyOutputChanged, ScreenWindow.scrollCount.
  cbn [ScreenWindow._scrollCount ScreenWindow._currentLine
       ScreenWindow._bufferNeedsUpdate ScreenWindow._filterNeedsUpdate].
  rewrite Htrack, qMin_min, qMax_max.
  repeat split; lia.
Qed.

Lemma notifyOutputChanged_keeps_the_place_witness :
  let w := ScreenWindow.setTrackOutput small_window false in
  let w' := ScreenWindow.notifyOutputChanged w in
  let dropped := Screen.droppedLines (ScreenWindow._screen w) in
  0 <= ScreenWindow._currentLine w'
    <= Screen.getHistLines (ScreenWindow._screen w)
  /\ (0 <= ScreenWindow._currentLine w - dropped
        <= Screen.getHistLines (ScreenWindow._screen w) ->
      ScreenWindow._currentLine w' = ScreenWindow._currentLine w - dropped)
  /\ (ScreenWindow._currentLine w < dropped ->
      ScreenWindow._currentLine w' = 0)
  /\ ScreenWindow.scrollCount w' = ScreenWindow.scrollCount w
  /\ ScreenWindow._bufferNeedsUpdate w' = true
  /\ ScreenWindow._filterNeedsUpdate w' = true.
Proof.
  apply (notifyOutputChanged_keeps_the_place
           (ScreenWindow.setTrackOutput small_window false)).
  - reflexivity.
  - apply Z.leb_le. reflexivity.
Defined.

(** X17.  [mapToScreen] never leaves the window or the screen: on a window
    without folds over a screen with at least one line, a row that is not
    negative maps to a line between the top line and [endWindowLine()],
    which is at most the last line of the screen and less than
    [windowLines()] below the top; rows that lie on the screen map to the
    top line plus the row. *)
Theorem mapToScreen_stays_in_the_window (w : ScreenWindow.t) (line : Z) :
  Folds.count (ScreenWindow._folds w) <= 0 ->
  1 <= ScreenWindow.windowLines w ->
  1 <= ScreenWindow.lineCount w ->
  0 <= line ->
  ScreenWindow.currentLine w <= ScreenWindow.mapToScreen w line
                             <= ScreenWindow.endWindowLine w
  /\ ScreenWindow.endWindowLine w <= ScreenWindow.lineCount w - 1
  /\ ScreenWindow.endWindowLine w
     < ScreenWindow.currentLine w + ScreenWindow.windowLines w
  /\ (line < ScreenWindow.windowLines w ->
      ScreenWindow.currentLine w + line < ScreenWindow.lineCount w ->
      ScreenWindow.mapToScreen w line = ScreenWindow.currentLine w + line).
Proof.
  intros Hnofolds Hwl Hlc Hline.
  pose proof (currentLine_without_folds w Hnofolds) as Hcur.
  unfold ScreenWindow.mapToScreen, ScreenWindow.endWindowLine.
  rewrite !qMin_min. repeat split; lia.
Qed.

Lemma mapToScreen_stays_in_the_window_witness :
  ScreenWindow.currentLine small_window
    <= ScreenWindow.mapToScreen small_window 1
    <= ScreenWindow.endWindowLine small_window
  /\ ScreenWindow.endWindowLine small_window
     <= ScreenWindow.lineCount small_window - 1
  /\ ScreenWindow.endWindowLine small_window
     < ScreenWindow.currentLine small_window
       + ScreenWindow.windowLines small_window
  /\ (1 < ScreenWindow.windowLines small_window ->
      ScreenWindow.currentLine small_window + 1
      < ScreenWindow.lineCount small_window ->
      ScreenWindow.mapToScreen small_window 1
      = ScreenWindow.currentLine small_window + 1).
Proof.
  apply (mapToScreen_stays_in_the_window small_window 1).
  - apply Z.leb_le. reflexivity.
  - apply Z.leb_le. reflexivity.
  - apply Z.leb_le. reflexivity.
  - lia.
Defined.

(** ** The cached image *)

Lemma createFilterFolds_shape (w w' : ScreenWindow.t) (filter : string) :
  ScreenWindow.createFilterFolds w filter = Ok w' ->
  w' = ScreenWindow.with_folds (ScreenWindow.with_filterNeedsUpdate w false)
                               (ScreenWindow._folds w').
Proof.
  unfold ScreenWindow.createFilterFolds. intros H.
  destruct (isEmpty filter).
  - injection H as <-. reflexivity.
  - apply bind_Ok in H as ([folds fs] & _ & H). injection H as <-. reflexivity.
Qed.

Lemma getFilteredImage_shape (w w' : ScreenWindow.t) (size s e : Z) :
  ScreenWindow.getFilteredImage w size s e = Ok w' ->
  exists folds buffer,
    w' = ScreenWindow.with_windowBuffer
           (ScreenWindow.with_folds w folds) (Some buffer)
           (ScreenWindow._windowBufferSize w).
Proof.
  unfold ScreenWindow.getFilteredImage. intros H.
  apply bind_Ok in H as (_ & _ & H).
  apply bind_Ok in H as (_ & _ & H).
  apply bind_Ok in H as (folds & _ & H).
  apply bind_Ok in H as (startFrom & _ & H).
  apply bind_Ok in H as (_ & _ & H).
  apply bind_Ok in H as (buffer & _ & H).
  apply bind_Ok in H as ([buffer' count] & _ & H).
  apply bind_Ok in H as (_ & _ & H).
  apply bind_Ok in H as (buffer'' & _ & H).
  injection H as <-. exists folds, buffer''. reflexivity.
Qed.

Lemma fillUnusedArea_shape (w w' : ScreenWindow.t) :
  ScreenWindow.fillUnusedArea w = Ok w' ->
  exists buffer,
    w' = ScreenWindow.with_windowBuffer
           w (Some buffer) (ScreenWindow._windowBufferSize w).
Proof.
  unfold ScreenWindow.fillUnusedArea. intros H.
  apply bind_Ok in H as (buffer & _ & H).
  apply bind_Ok in H as (buffer' & _ & H).
  injection H as <-. exists buffer'. reflexivity.
Qed.

Lemma getImage_cached (w : ScreenWindow.t) :
  image_cached w = true -> ScreenWindow.getImage w = Ok w.
Proof.
  unfold image_cached. intros H.
  apply andb_prop in H as [H Hbuf]. apply andb_prop in H as [Hf Hb].
  apply negb_true_iff in Hf, Hb.
  unfold ScreenWindow.getImage. rewrite Hf. cbn [bind].
  destruct (ScreenWindow._windowBuffer w) as [buffer|]; [|discriminate].
  rewrite Hbuf. cbn [negb orb]. rewrite Hb. reflexivity.
Qed.

(** X18.  [getImage()] caches: when it returns, no update is pending and the
    buffer has the size of the window, so that a second call returns the
    same window state without recomputing; a window that already holds such
    an image is returned as it is.  It never scrolls and emits nothing: it
    changes the buffer, the update flags and the fold table only. *)
Theorem getImage_caches_the_image (w w' : ScreenWindow.t) :
  ScreenWindow.getImage w = Ok w' ->
  image_cached w' = true
  /\ ScreenWindow.getImage w' = Ok w'
  /\ (image_cached w = true -> w' = w)
  /\ same_view w w'.
Proof.
  intros Hget.
  assert (Hhit : image_cached w = true -> w' = w).
  { intros Hc. rewrite (getImage_cached w Hc) in Hget.
    injection Hget as <-. reflexivity. }
  assert (Hmain : image_cached w' = true /\ same_view w w').
  { unfold ScreenWindow.getImage in Hget.
    apply bind_Ok in Hget as (w1 & H1 & Hget).
    assert (Hw1 : same_view w w1
                  /\ ScreenWindow._filterNeedsUpdate w1 = false).
    { destruct (ScreenWindow._filterNeedsUpdate w) eqn:Hf.
      - apply createFilterFolds_shape in H1. rewrite H1.
        repeat split; reflexivity.
      - injection H1 as <-. repeat split; try reflexivity. exact Hf. }
    clear H1. destruct Hw1 as [Hview1 Hf1].
    set (size := ScreenWindow.windowLines w1 * ScreenWindow.windowColumns w1)
      in *.
    set (w2 := if match ScreenWindow._windowBuffer w1 with
                  | Some _ => false
                  | None => true
                  end || negb (ScreenWindow._windowBufferSize w1 =? size)
               then ScreenWindow.with_bufferNeedsUpdate
                      (ScreenWindow.with_windowBuffer
                         w1 (Some (replicate (Z.to_nat size) DefaultChar))
                         size) true
               else w1) in *.
    assert (Hw2 : same_view w1 w2
                  /\ ScreenWindow._filterNeedsUpdate w2 = false
                  /\ ScreenWindow._windowBufferSize w2 = size
                  /\ exists buffer, ScreenWindow._windowBuffer w2 = Some buffer).
    { subst w2.
      destruct (ScreenWindow._windowBuffer w1) as [buffer|] eqn:Hbuf;
        cbn [orb].
      - destruct (ScreenWindow._windowBufferSize w1 =? size) eqn:Hsz;
          cbn [negb].
        + apply Z.eqb_eq in Hsz. repeat split; try assumption.
          exists buffer. exact Hbuf.
        + repeat split; try assumption. eexists. reflexivity.
      - repeat split; try assumption. eexists. reflexivity. }
    clearbody w2. destruct Hw2 as (Hview2 & Hf2 & Hsz2 & buffer2 & Hbuf2).
    assert (Hsame2 : ScreenWindow.windowLines w2 * ScreenWindow.windowColumns w2
                     = size).
    { subst size. unfold ScreenWindow.windowLines, ScreenWindow.windowColumns.
      destruct Hview2 as (-> & -> & _). reflexivity. }
    assert (Hview : same_view w w2).
    { destruct Hview1 as (a1 & a2 & a3 & a4 & a5 & a6 & a7).
      destruct Hview2 as (b1 & b2 & b3 & b4 & b5 & b6 & b7).
      unfold same_view. rewrite b1, b2, b3, b4, b5, b6, b7.
      repeat split; assumption. }
    destruct (ScreenWindow._bufferNeedsUpdate w2) eqn:Hdirty; cbn [negb] in Hget.
    - apply bind_Ok in Hget as (w3 & H3 & Hget).
      apply bind_Ok in Hget as (w4 & H4 & Hget).
      injection Hget as <-.
      apply fillUnusedArea_shape in H4 as (buffer4 & ->).
      assert (Hw3 : exists folds buffer,
                 w3 = ScreenWindow.with_windowBuffer
                        (ScreenWindow.with_folds w2 folds) (Some buffer)
                        (ScreenWindow._windowBufferSize w2)).
      { destruct (Folds.count (ScreenWindow._folds w2) >? 0).
        - apply getFilteredImage_shape in H3. exact H3.
        - apply bind_Ok in H3 as (b & _ & H3).
          apply bind_Ok in H3 as (b' & _ & H3).
          injection H3 as <-. exists (ScreenWindow._folds w2), b'.
          destruct w2; reflexivity. }
      destruct Hw3 as (folds & buffer3 & ->).
      split.
      + unfold image_cached. cbn. rewrite Hf2. cbn.
        apply Z.eqb_eq. rewrite Hsz2. symmetry. exact Hsame2.
      + exact Hview.
    - injection Hget as <-. split; [|exact Hview].
      unfold image_cached. rewrite Hf2, Hdirty, Hbuf2. cbn [negb andb].
      apply Z.eqb_eq. rewrite Hsz2. symmetry. exact Hsame2. }
  destruct Hmain as [Hc Hview].
  split; [exact Hc|]. split; [apply getImage_cached; exact Hc|].
  split; [exact Hhit | exact Hview].
Qed.

Lemma getImage_caches_the_image_witness :
  image_cached small_window_shown = true
  /\ ScreenWindow.getImage small_window_shown = Ok small_window_shown
  /\ (image_cached small_window = true -> small_window_shown = small_window)
  /\ same_view small_window small_window_shown.
Proof.
  apply (getImage_caches_the_image small_window small_window_shown).
  vm_compute. reflexivity.
Defined.

(** ** The image of a window without folds *)

Lemma getImage_plain (w : ScreenWindow.t) :
  ScreenWindow._filterNeedsUpdate w = false ->
  Folds.count (ScreenWindow._folds w) <= 0 ->
  ScreenWindow._bufferNeedsUpdate w = true ->
  buffer_sized w = true ->
  1 <= ScreenWindow.lineCount w ->
  1 <= ScreenWindow.windowLines w ->
  0 <= ScreenWindow.windowColumns w ->
  exists w',
    ScreenWindow.getImage w = Ok w'
    /\ ScreenWindow._windowBuffer w'
       = Some (image_of (ScreenWindow._screen w) (ScreenWindow.windowLines w)
                        (plain_lines w)).
Proof.
  intros Hf Hnofolds Hdirty Hsized Hcount Hlines Hcols.
  assert (Hcnt : (Folds.count (ScreenWindow._folds w) >? 0) = false).
  { rewrite Z.gtb_ltb. apply Z.ltb_ge. exact Hnofolds. }
  unfold ScreenWindow.getImage. rewrite Hf. cbn [bind].
  set (size := ScreenWindow.windowLines w * ScreenWindow.windowColumns w).
  assert (Hsize0 : 0 <= size) by (unfold size; nia).
  destruct (buffer_after_allocation w size Hsize0 Hsized Hdirty)
    as (buffer & Hlen & ->).
  set (w2 := ScreenWindow.with_windowBuffer w (Some buffer) size).
  change (ScreenWindow._bufferNeedsUpdate w2)
    with (ScreenWindow._bufferNeedsUpdate w).
  rewrite Hdirty. cbn [negb].
  change (ScreenWindow._folds w2) with (ScreenWindow._folds w).
  rewrite Hcnt.
  change (ScreenWindow._windowBuffer w2) with (Some buffer). cbn [bind].
  change (ScreenWindow._screen w2) with (ScreenWindow._screen w).
  assert (Hcur : ScreenWindow.currentLine w2 = plain_top w).
  { apply (currentLine_without_folds w2). exact Hnofolds. }
  unfold ScreenWindow.endWindowLine. rewrite qMin_min, Hcur.
  change (ScreenWindow.lineCount w2) with (ScreenWindow.lineCount w).
  change (ScreenWindow.windowLines w2) with (ScreenWindow.windowLines w).
  unfold plain_lines. set (top := plain_top w) in *.
  assert (Htop : 0 <= top /\ top <= ScreenWindow.lineCount w - 1
                 /\ (ScreenWindow.windowLines w <= ScreenWindow.lineCount w ->
                     top + ScreenWindow.windowLines w
                     <= ScreenWindow.lineCount w)
                 /\ (ScreenWindow.lineCount w < ScreenWindow.windowLines w ->
                     top = 0)).
  { unfold top, plain_top. lia. }
  set (h := ScreenWindow.windowLines w) in *.
  set (rows := Z.min h (ScreenWindow.lineCount w - top)).
  assert (Hrows : Z.min (top + h - 1) (ScreenWindow.lineCount w - 1) - top + 1
                  = rows) by (unfold rows; lia).
  assert (Hrows1 : 1 <= rows <= h) by (unfold rows; lia).
  unfold ScreenWindow.lineCount in *. unfold ScreenWindow.windowColumns in *.
  set (screen := ScreenWindow._screen w) in *.
  set (count := Screen.getHistLines screen + Screen.getLines screen) in *.
  set (cols := Screen.getColumns screen) in *.
  unfold Screen.getImage. fold count cols. rewrite Hrows.
  replace (0 <=? top) with true by (symmetry; apply Z.leb_le; lia).
  replace (top <=? Z.min (top + h - 1) (count - 1)) with true
    by (symmetry; apply Z.leb_le; lia).
  replace (Z.min (top + h - 1) (count - 1) <? count) with true
    by (symmetry; apply Z.ltb_lt; lia).
  replace (rows * cols <=? size) with true
    by (symmetry; apply Z.leb_le; unfold size; nia).
  cbn [andb Q_ASSERT bind].
  set (cells := flat_map (Screen.lineImage screen) (seqZ top rows)).
  assert (Hcells : Z.of_nat (length cells) = cols * rows).
  { unfold cells. rewrite length_flat_map_lineImage by exact Hcols.
    fold cols. rewrite length_seqZ. lia. }
  assert (Hfit : (length cells <= length buffer)%nat).
  { unfold size in Hlen. nia. }
  pose proof (write_app [] buffer cells 0 eq_refl Hfit) as Hwrite.
  cbn [app] in Hwrite. rewrite Hwrite. clear Hwrite. cbn [bind].
  set (rest := drop (length cells) buffer).
  assert (Hrest : Z.of_nat (length rest) = (h - rows) * cols).
  { unfold rest. rewrite length_drop. unfold size in Hlen. nia. }
  set (w3 := ScreenWindow.with_windowBuffer w2 (Some (cells ++ rest)) _).
  unfold ScreenWindow.fillUnusedArea.
  change (ScreenWindow._windowBuffer w3) with (Some (cells ++ rest)).
  cbn [bind].
  change (ScreenWindow.currentLine w3) with (ScreenWindow.currentLine w2).
  rewrite Hcur.
  change (ScreenWindow.windowLines w3) with h.
  change (ScreenWindow.windowColumns w3) with cols.
  change (ScreenWindow._windowBufferSize w3) with size.
  change (Screen.getHistLines (ScreenWindow._screen w3)
          + Screen.getLines (ScreenWindow._screen w3) - 1) with (count - 1).
  set (chars := (top + h - 1 - (count - 1)) * cols).
  assert (Himage : Screen.fillWithDefaultChar (cells ++ rest) (size - chars)
                                              chars
                   = Ok (image_of screen h (seqZ top rows))).
  { unfold image_of. fold cells cols. rewrite length_seqZ.
    replace ((h - Z.of_nat (Z.to_nat rows)) * cols) with ((h - rows) * cols)
      by (f_equal; lia).
    destruct (Z_le_gt_dec chars 0) as [Hnone|Hsome].
    - (* nothing to fill: the lines reach the end of the window *)
      assert (Hzero : (h - rows) * cols = 0).
      { destruct (Z_le_gt_dec (top + h) count) as [Hle|Hgt].
        - replace rows with h by (unfold rows; lia). lia.
        - assert (count < h) by lia.
          assert (top = 0) by (apply Htop; lia).
          unfold chars in Hnone. nia. }
      rewrite Hzero in *. destruct rest; [|cbn in Hrest; lia].
      unfold Screen.fillWithDefaultChar.
      replace (chars <=? 0) with true by (symmetry; apply Z.leb_le; lia).
      reflexivity.
    - assert (Hgt : count < top + h) by (unfold chars in Hsome; nia).
      assert (Hh : count < h) by lia.
      assert (Htop0 : top = 0) by (apply Htop; lia).
      assert (Hr : rows = count) by (unfold rows; lia).
      assert (Hchars : chars = (h - rows) * cols).
      { unfold chars. f_equal. lia. }
      rewrite <- Hchars. apply fill_tail.
      + rewrite Hcells, Hchars. unfold size. lia.
      + rewrite Hrest. symmetry. exact Hchars. }
  rewrite Himage. cbn [bind]. eexists. split; reflexivity.
Qed.

(** X19.  The image of a window without folds -- none in the table, or a
    pending filter update with the empty pattern, which removes them -- is
    the lines of the screen from the top line on, as many as the window has
    rows or the screen has lines left, followed by blank cells for the rows
    below the last line.  The top line is the stored one clamped to
    [0 .. lineCount - windowLines]. *)
Theorem getImage_without_folds_shows_the_window (w : ScreenWindow.t) :
  no_folds_pending w = true ->
  ScreenWindow._bufferNeedsUpdate w = true ->
  buffer_sized w = true ->
  1 <= ScreenWindow.lineCount w ->
  1 <= ScreenWindow.windowLines w ->
  0 <= ScreenWindow.windowColumns w ->
  exists w',
    ScreenWindow.getImage w = Ok w'
    /\ ScreenWindow._windowBuffer w'
       = Some (image_of (ScreenWindow._screen w) (ScreenWindow.windowLines w)
                        (plain_lines w)).
Proof.
  intros Hplain Hdirty Hsized Hcount Hlines Hcols.
  unfold no_folds_pending in Hplain.
  destruct (ScreenWindow._filterNeedsUpdate w) eqn:Hf.
  - set (w1 := ScreenWindow.with_folds
                 (ScreenWindow.with_filterNeedsUpdate w false)
                 (Folds.removeAll
                    (Folds.setLineCount (ScreenWindow._folds w)
                                        (ScreenWindow.lineCount w)))).
    assert (Hsame : ScreenWindow.getImage w = ScreenWindow.getImage w1).
    { unfold ScreenWindow.getImage at 1. rewrite Hf.
      unfold ScreenWindow.createFilterFolds. rewrite Hplain. cbn [bind].
      reflexivity. }
    rewrite Hsame.
    apply (getImage_plain w1); try assumption.
    + reflexivity.
    + unfold w1. cbn. lia.
  - apply Z.leb_le in Hplain. apply getImage_plain; assumption.
Qed.

Lemma getImage_without_folds_shows_the_window_witness :
  exists w',
    ScreenWindow.getImage small_window = Ok w'
    /\ ScreenWindow._windowBuffer w'
       = Some (image_of (ScreenWindow._screen small_window)
                        (ScreenWindow.windowLines small_window)
                        (plain_lines small_window)).
Proof.
  apply (getImage_without_folds_shows_the_window small_window).
  - reflexivity.
  - reflexivity.
  - reflexivity.
  - apply Z.leb_le. reflexivity.
  - apply Z.leb_le. reflexivity.
  - apply Z.leb_le. reflexivity.
Defined.

(** ** The filtered image, for any fold table *)

Section FilteredImage.
Variable folds : Folds.t.
Variable cursorLine : Z.
Variable vis : Z -> bool.
Let shown (j : Z) : bool := vis j || (j =? cursorLine).

Lemma find_start_spec (startLine : Z) (n : nat) :
  forall (i visibleLineCount startFrom : Z),
    (forall j, i <= j < i + Z.of_nat n ->
               Folds.isLineVisible folds j = Ok (vis j)) ->
    visibleLineCount <= startLine ->
    exists d,
      0 <= d <= Z.of_nat n
      /\ ScreenWindow.find_start folds cursorLine startLine n i
                                 visibleLineCount startFrom
         = Ok (startFrom + d)
      /\ List.filter shown (seqZ (i + d) (Z.of_nat n - d))
         = drop (Z.to_nat (startLine - visibleLineCount))
                (List.filter shown (seqZ i (Z.of_nat n)))
      /\ (startLine - visibleLineCount <= d \/ d = Z.of_nat n).
Proof.
  induction n as [|n IH]; intros i vlc startFrom Hvis Hle.
  - exists 0. split; [lia|]. split.
    + cbn. f_equal. lia.
    + split; [|right; reflexivity]. cbn [Z.of_nat].
      replace (0 - 0) with 0 by lia. rewrite !seqZ_nil by lia.
      cbn [List.filter]. rewrite drop_nil. reflexivity.
  - rewrite (seqZ_cons i) by lia.
    replace (Z.pred (Z.of_nat (S n))) with (Z.of_nat n) by lia.
    replace (Z.succ i) with (i + 1) by lia.
    cbn [List.filter ScreenWindow.find_start].
    rewrite (Hvis i) by lia. cbn [bind].
    assert (Hs : shown i = (vis i || (i =? cursorLine))) by reflexivity.
    rewrite Hs. clear Hs.
    destruct (vis i || (i =? cursorLine)) eqn:Hshown.
    + destruct (vlc + 1 >? startLine) eqn:Hgt.
      * rewrite Z.gtb_ltb in Hgt. apply Z.ltb_lt in Hgt.
        exists 0. split; [lia|]. split; [f_equal; lia|].
        replace (startLine - vlc) with 0 by lia.
        split; [|left; lia].
        replace (i + 0) with i by lia. rewrite Z.sub_0_r.
        rewrite (seqZ_cons i) by lia.
        replace (Z.pred (Z.of_nat (S n))) with (Z.of_nat n) by lia.
        replace (Z.succ i) with (i + 1) by lia.
        cbn [List.filter].
        assert (Hs : shown i = (vis i || (i =? cursorLine))) by reflexivity.
        rewrite Hs, Hshown. reflexivity.
      * rewrite Z.gtb_ltb in Hgt. apply Z.ltb_ge in Hgt.
        destruct (IH (i + 1) (vlc + 1) (startFrom + 1)) as (d & Hd & Hrun & Hrest & Hpos).
        { intros j Hj. apply Hvis. lia. }
        { lia. }
        exists (d + 1). split; [lia|]. split.
        { rewrite Hrun. f_equal. lia. }
        split; [|lia].
        replace (i + (d + 1)) with (i + 1 + d) by lia.
        replace (Z.of_nat (S n) - (d + 1)) with (Z.of_nat n - d) by lia.
        rewrite Hrest.
        replace (Z.to_nat (startLine - vlc))
          with (S (Z.to_nat (startLine - (vlc + 1)))) by lia.
        reflexivity.
    + replace (vlc >? startLine) with false
        by (symmetry; rewrite Z.gtb_ltb; apply Z.ltb_ge; lia).
      destruct (IH (i + 1) vlc (startFrom + 1)) as (d & Hd & Hrun & Hrest & Hpos).
      { intros j Hj. apply Hvis. lia. }
      { lia. }
      exists (d + 1). split; [lia|]. split.
      { rewrite Hrun. f_equal. lia. }
      split; [|lia].
      replace (i + (d + 1)) with (i + 1 + d) by lia.
      replace (Z.of_nat (S n) - (d + 1)) with (Z.of_nat n - d) by lia.
      exact Hrest.
Qed.

Variable screen : Screen.t.
Let cols := Screen.getColumns screen.
Hypothesis Hcols : 0 <= cols.

Lemma copy_visible_take (limit : Z) (n : nat) :
  forall (i : Z) (pre rest : list Character) (count : Z),
    0 <= i ->
    i + Z.of_nat n <= Screen.getHistLines screen + Screen.getLines screen ->
    0 <= count ->
    (forall j, i <= j < i + Z.of_nat n ->
               Folds.isLineVisible folds j = Ok (vis j)) ->
    let lines := take (Z.to_nat (limit - count))
                      (List.filter shown (seqZ i (Z.of_nat n))) in
    Z.of_nat (length pre) = cols * count ->
    cols * Z.of_nat (length lines) <= Z.of_nat (length rest) ->
    ScreenWindow.copy_visible screen folds cursorLine limit n i
                              (pre ++ rest) count
    = Ok (pre ++ flat_map (Screen.lineImage screen) lines
              ++ drop (Z.to_nat (cols * Z.of_nat (length lines))) rest,
          count + Z.of_nat (length lines)).
Proof.
  induction n as [|n IH]; intros i pre rest count Hi Hend Hcount Hvis.
  - cbn [Z.of_nat ScreenWindow.copy_visible]. rewrite seqZ_nil by lia.
    cbn [List.filter]. rewrite take_nil. cbn [length flat_map Z.of_nat].
    intros _ _. rewrite Z.mul_0_r, Z.add_0_r. cbn [Z.to_nat drop app].
    reflexivity.
  - rewrite seqZ_cons by lia.
    replace (Z.pred (Z.of_nat (S n))) with (Z.of_nat n) by lia.
    replace (Z.succ i) with (i + 1) by lia.
    cbn [List.filter ScreenWindow.copy_visible].
    assert (Hs : shown i = (vis i || (i =? cursorLine))) by reflexivity.
    rewrite Hs. clear Hs.
    set (rest_lines := List.filter shown (seqZ (i + 1) (Z.of_nat n))).
    destruct (count <? limit) eqn:Hlt.
    + apply Z.ltb_lt in Hlt.
      rewrite (Hvis i) by lia. cbn [bind].
      destruct (vis i || (i =? cursorLine)) eqn:Hshown.
      * replace (Z.to_nat (limit - count))
          with (S (Z.to_nat (limit - (count + 1)))) by lia.
        cbn [take length flat_map].
        set (lines := take (Z.to_nat (limit - (count + 1))) rest_lines).
        assert (Hprod : 0 <= cols * Z.of_nat (length lines)) by nia.
        rewrite Nat2Z.inj_succ, Z.mul_succ_r.
        intros Hpre Hrest.
        fold cols.
        rewrite getImage_line; try assumption; try lia.
        cbn [bind]. fold cols. rewrite app_assoc.
        rewrite (IH (i + 1)); try lia.
        -- fold rest_lines. fold lines. rewrite <- !app_assoc. rewrite drop_drop.
           replace (Z.to_nat cols
                    + Z.to_nat (cols * Z.of_nat (length lines)))%nat
             with (Z.to_nat (cols * Z.of_nat (length lines) + cols))
             by lia.
           replace (count + 1 + Z.of_nat (length lines))
             with (count + Z.succ (Z.of_nat (length lines))) by lia.
           reflexivity.
        -- intros j Hj. apply Hvis. lia.
        -- rewrite length_app, length_lineImage. fold cols. lia.
        -- fold rest_lines. fold lines. rewrite length_drop. fold cols. lia.
      * intros Hpre Hrest.
        rewrite (IH (i + 1)); try lia; try assumption.
        -- reflexivity.
        -- intros j Hj. apply Hvis. lia.
    + apply Z.ltb_ge in Hlt.
      replace (Z.to_nat (limit - count)) with 0%nat by lia.
      rewrite !take_0. cbn [length flat_map Z.of_nat]. intros _ _.
      rewrite Z.mul_0_r, Z.add_0_r. cbn [Z.to_nat drop app]. reflexivity.
Qed.

End FilteredImage.

Lemma filtered_size_after_setLineCount (f f' : Folds.t) (m n : Z) :
  sizes_agree m f = true -> 0 <= n ->
  Folds.updateVisibleLines (Folds.setLineCount f n) = Ok f' ->
  QBitArray.size (Folds._filteredLines f') = n.
Proof.
  intros Hsizes Hn Hup. rewrite (updateVisibleLines_size _ _ Hup).
  apply sizes_agree_true in Hsizes as (Hs1 & _ & _ & Hs4).
  unfold Folds.setLineCount.
  destruct (QBitArray.size (Folds._foldStarts f) =? n) eqn:E; cbn [negb].
  - apply Z.eqb_eq in E. lia.
  - cbn [Folds._filteredLines]. rewrite size_fill_size_max. lia.
Qed.

Lemma getFilteredImage_spec
        (w : ScreenWindow.t) (buffer : list Character) (f' : Folds.t)
        (size startLine endLine m : Z) :
  sizes_agree m (ScreenWindow._folds w) = true ->
  Folds.updateVisibleLines
    (Folds.setLineCount (ScreenWindow._folds w) (ScreenWindow.lineCount w))
  = Ok f' ->
  ScreenWindow._windowBuffer w = Some buffer ->
  Z.of_nat (length buffer)
  = ScreenWindow.windowLines w * ScreenWindow.windowColumns w ->
  ScreenWindow.windowLines w * ScreenWindow.windowColumns w <= size ->
  0 <= ScreenWindow.windowColumns w ->
  0 <= startLine <= endLine ->
  startLine <= ScreenWindow.lineCount w ->
  endLine - startLine + 1 <= ScreenWindow.windowLines w ->
  ScreenWindow.getFilteredImage w size startLine endLine
  = Ok (ScreenWindow.with_windowBuffer
          (ScreenWindow.with_folds w f')
          (Some (image_of
                   (ScreenWindow._screen w) (ScreenWindow.windowLines w)
                   (take (Z.to_nat (endLine - startLine + 1))
                         (drop (Z.to_nat startLine)
                               (shown_lines f' (cursor_line w)
                                            (ScreenWindow.lineCount w))))))
          (ScreenWindow._windowBufferSize w)).
Proof.
  intros Hsizes Hup Hbuf Hlen Hsize Hcols Hrange Hstart Hlimit.
  assert (Hn : 0 <= ScreenWindow.lineCount w) by lia.
  pose proof (filtered_size_after_setLineCount _ _ _ _ Hsizes Hn Hup) as Hfsize.
  set (vis := fun j => match Folds.isLineVisible f' j with
                       | Ok visible => visible
                       | Fault _ => false
                       end).
  assert (Hvis : forall j, 0 <= j < ScreenWindow.lineCount w ->
                   Folds.isLineVisible f' j = Ok (vis j)).
  { intros j Hj. unfold vis, Folds.isLineVisible.
    destruct (testBit_in_range (Folds._filteredLines f') j) as [b ->];
      [lia | reflexivity]. }
  unfold ScreenWindow.getFilteredImage.
  replace (startLine <=? endLine) with true by (symmetry; apply Z.leb_le; lia).
  replace ((startLine - endLine + 1) * ScreenWindow.windowColumns w <=? size)
    with true by (symmetry; apply Z.leb_le; nia).
  cbn [Q_ASSERT bind]. rewrite Hup. cbn [bind].
  change (ScreenWindow.lineCount (ScreenWindow.with_folds w f'))
    with (ScreenWindow.lineCount w).
  change (ScreenWindow._screen (ScreenWindow.with_folds w f'))
    with (ScreenWindow._screen w).
  change (ScreenWindow._windowBuffer (ScreenWindow.with_folds w f'))
    with (ScreenWindow._windowBuffer w).
  change (ScreenWindow.windowColumns (ScreenWindow.with_folds w f'))
    with (ScreenWindow.windowColumns w).
  change (ScreenWindow.windowLines (ScreenWindow.with_folds w f'))
    with (ScreenWindow.windowLines w).
  change (ScreenWindow._windowBufferSize (ScreenWindow.with_folds w f'))
    with (ScreenWindow._windowBufferSize w).
  rewrite Hbuf.
  fold (cursor_line w). set (cursorLine := cursor_line w).
  set (n := ScreenWindow.lineCount w) in *.
  destruct (find_start_spec f' cursorLine vis startLine (Z.to_nat n) 0 0 0)
    as (d & Hd & Hrun & Hrest & Hpos).
  { intros j Hj. apply Hvis. lia. }
  { lia. }
  rewrite Hrun. cbn [bind]. rewrite Z.add_0_l.
  replace (startLine <=? d) with true by (symmetry; apply Z.leb_le; lia).
  cbn [Q_ASSERT bind].
  rewrite Z.add_0_l, Z.sub_0_r, Z2Nat.id in Hrest by lia.
  change (List.filter (fun j => vis j || (j =? cursorLine)) (seqZ 0 n))
    with (shown_lines f' cursorLine n) in Hrest.
  set (rows := take (Z.to_nat (endLine - startLine + 1))
                    (drop (Z.to_nat startLine) (shown_lines f' cursorLine n))).
  assert (Hrows : Z.of_nat (length rows) <= endLine - startLine + 1).
  { unfold rows. rewrite length_take. lia. }
  unfold ScreenWindow.windowColumns in *.
  set (cols := Screen.getColumns (ScreenWindow._screen w)) in *.
  set (h := ScreenWindow.windowLines w) in *.
  pose proof (copy_visible_take f' cursorLine vis (ScreenWindow._screen w)
                Hcols (endLine - startLine + 1) (Z.to_nat (n - d)) d
                [] buffer 0) as Hcopy.
  cbn zeta in Hcopy. fold cols in Hcopy.
  rewrite Z2Nat.id, Z.sub_0_r, Hrest in Hcopy by lia.
  fold rows in Hcopy. rewrite app_nil_l in Hcopy.
  rewrite Hcopy; clear Hcopy.
  - cbn [bind app]. rewrite Z.add_0_l.
    replace (cols * Z.of_nat (length rows)
             + (h - Z.of_nat (length rows)) * cols <=? size)
      with true by (symmetry; apply Z.leb_le; nia).
    cbn [Q_ASSERT bind].
    rewrite fill_tail.
    + reflexivity.
    + apply length_flat_map_lineImage. exact Hcols.
    + rewrite length_drop. nia.
  - lia.
  - unfold n, ScreenWindow.lineCount. lia.
  - lia.
  - intros j Hj. apply Hvis. lia.
  - cbn. lia.
  - nia.
Qed.

(** X20.  [getFilteredImage] writes the lines that the fold table shows,
    and the line of the cursor whether shown or not, in their order: of
    these lines it skips the first [startLine], copies at most
    [endLine - startLine + 1] and fills the rest of the window with blank
    cells.  The fold table is brought to the line count of the screen and
    its visibility is recomputed on the way. *)
Theorem getFilteredImage_shows_the_visible_lines
        (w : ScreenWindow.t) (buffer : list Character) (f' : Folds.t)
        (size startLine endLine m : Z) :
  sizes_agree m (ScreenWindow._folds w) = true ->
  Folds.updateVisibleLines
    (Folds.setLineCount (ScreenWindow._folds w) (ScreenWindow.lineCount w))
  = Ok f' ->
  ScreenWindow._windowBuffer w = Some buffer ->
  Z.of_nat (length buffer)
  = ScreenWindow.windowLines w * ScreenWindow.windowColumns w ->
  ScreenWindow.windowLines w * ScreenWindow.windowColumns w <= size ->
  0 <= ScreenWindow.windowColumns w ->
  0 <= startLine <= endLine ->
  startLine <= ScreenWindow.lineCount w ->
  endLine - startLine + 1 <= ScreenWindow.windowLines w ->
  ScreenWindow.getFilteredImage w size startLine endLine
  = Ok (ScreenWindow.with_windowBuffer
          (ScreenWindow.with_folds w f')
          (Some (image_of
                   (ScreenWindow._screen w) (ScreenWindow.windowLines w)
                   (take (Z.to_nat (endLine - startLine + 1))
                         (drop (Z.to_nat startLine)
                               (shown_lines f' (cursor_line w)
                                            (ScreenWindow.lineCount w))))))
          (ScreenWindow._windowBufferSize w)).
Proof.
  intros Hsizes Hup Hbuf Hlen Hsize Hcols Hrange Hstart Hlimit.
  apply (getFilteredImage_spec w buffer f' size startLine endLine m);
    assumption.
Qed.

Lemma getFilteredImage_shows_the_visible_lines_witness :
  ScreenWindow.getFilteredImage folded_window 12 1 3
  = Ok (ScreenWindow.with_windowBuffer
          (ScreenWindow.with_folds folded_window foo_table_scanned)
          (Some (image_of
                   (ScreenWindow._screen folded_window)
                   (ScreenWindow.windowLines folded_window)
                   (take (Z.to_nat (3 - 1 + 1))
                         (drop (Z.to_nat 1)
                               (shown_lines foo_table_scanned
                                  (cursor_line folded_window)
                                  (ScreenWindow.lineCount folded_window))))))
          (ScreenWindow._windowBufferSize folded_window)).
Proof.
  apply (getFilteredImage_shows_the_visible_lines
           folded_window (replicate 12 DefaultChar) foo_table_scanned
           12 1 3 10).
  - reflexivity.
  - reflexivity.
  - reflexivity.
  - reflexivity.
  - apply Z.leb_le. reflexivity.
  - apply Z.leb_le. reflexivity.
  - lia.
  - apply Z.leb_le. reflexivity.
  - apply Z.leb_le. reflexivity.
Defined.

(** ** The image of a window with folds *)

Lemma fillUnusedArea_keeps_image (w : ScreenWindow.t) (rows : list Z) :
  ScreenWindow._windowBuffer w
  = Some (image_of (ScreenWindow._screen w) (ScreenWindow.windowLines w) rows) ->
  ScreenWindow._windowBufferSize w
  = ScreenWindow.windowLines w * ScreenWindow.windowColumns w ->
  0 <= ScreenWindow.windowColumns w ->
  Z.of_nat (length rows) <= ScreenWindow.windowLines w ->
  (ScreenWindow.lineCount w
   < ScreenWindow.currentLine w + ScreenWindow.windowLines w ->
   Z.of_nat (length rows)
   <= ScreenWindow.lineCount w - ScreenWindow.currentLine w) ->
  ScreenWindow.fillUnusedArea w
  = Ok (ScreenWindow.with_windowBuffer
          w (ScreenWindow._windowBuffer w) (ScreenWindow._windowBufferSize w)).
Proof.
  intros Hbuf Hsize Hcols Hrows Hfree.
  unfold ScreenWindow.fillUnusedArea. rewrite Hbuf, Hsize. cbn [bind].
  unfold ScreenWindow.lineCount, ScreenWindow.windowColumns in *.
  set (cols := Screen.getColumns (ScreenWindow._screen w)) in *.
  set (h := ScreenWindow.windowLines w) in *.
  set (cur := ScreenWindow.currentLine w) in *.
  set (count := Screen.getHistLines (ScreenWindow._screen w)
                + Screen.getLines (ScreenWindow._screen w)) in *.
  set (chars := (cur + h - 1 - (count - 1)) * cols).
  assert (Hfill : Screen.fillWithDefaultChar
                    (image_of (ScreenWindow._screen w) h rows)
                    (h * cols - chars) chars
                  = Ok (image_of (ScreenWindow._screen w) h rows)).
  { destruct (Z_le_gt_dec chars 0) as [Hnone|Hsome].
    - unfold Screen.fillWithDefaultChar.
      replace (chars <=? 0) with true by (symmetry; apply Z.leb_le; lia).
      reflexivity.
    - assert (Hgt : count < cur + h) by (unfold chars in Hsome; nia).
      specialize (Hfree Hgt).
      unfold image_of. fold cols. apply fill_blank.
      + rewrite length_flat_map_lineImage by exact Hcols. fold cols.
        unfold chars. nia.
      + rewrite length_flat_map_lineImage by exact Hcols. fold cols.
        rewrite Z2Nat.id by nia. lia. }
  rewrite Hfill. reflexivity.
Qed.

Lemma length_shown_lines (f : Folds.t) (cursorLine n : Z) :
  Z.of_nat (length (shown_lines f cursorLine n)) <= Z.max 0 n.
Proof.
  unfold shown_lines.
  pose proof (List.filter_length_le (line_shown f cursorLine) (seqZ 0 n)) as H.
  rewrite length_seqZ in H. lia.
Qed.

Lemma getImage_folds (w : ScreenWindow.t) (f' : Folds.t) (m : Z) :
  ScreenWindow._filterNeedsUpdate w = false ->
  0 < Folds.count (ScreenWindow._folds w) ->
  ScreenWindow._bufferNeedsUpdate w = true ->
  buffer_sized w = true ->
  sizes_agree m (ScreenWindow._folds w) = true ->
  Folds.updateVisibleLines
    (Folds.setLineCount (ScreenWindow._folds w) (ScreenWindow.lineCount w))
  = Ok f' ->
  1 <= ScreenWindow.windowLines w ->
  0 <= ScreenWindow.windowColumns w ->
  ScreenWindow.currentLine w <= ScreenWindow.lineCount w - 1 ->
  exists w',
    ScreenWindow.getImage w = Ok w'
    /\ ScreenWindow._windowBuffer w'
       = Some (image_of
                 (ScreenWindow._screen w) (ScreenWindow.windowLines w)
                 (take (Z.to_nat (Z.min (ScreenWindow.windowLines w)
                                        (ScreenWindow.lineCount w
                                         - ScreenWindow.currentLine w)))
                       (drop (Z.to_nat (ScreenWindow.currentLine w))
                             (shown_lines f' (cursor_line w)
                                          (ScreenWindow.lineCount w)))))
    /\ ScreenWindow._folds w' = f'.
Proof.
  intros Hf Hfolds Hdirty Hsized Hsizes Hup Hlines Hcols Htop.
  pose proof (currentLine_nonneg w) as Hcur0.
  assert (Hn : 0 <= ScreenWindow.lineCount w) by lia.
  pose proof (filtered_size_after_setLineCount _ _ _ _ Hsizes Hn Hup) as Hfsize.
  assert (Hcnt : (Folds.count (ScreenWindow._folds w) >? 0) = true).
  { rewrite Z.gtb_ltb. apply Z.ltb_lt. exact Hfolds. }
  unfold ScreenWindow.getImage. rewrite Hf. cbn [bind].
  set (size := ScreenWindow.windowLines w * ScreenWindow.windowColumns w).
  assert (Hsize0 : 0 <= size) by (unfold size; nia).
  destruct (buffer_after_allocation w size Hsize0 Hsized Hdirty)
    as (buffer & Hlen & ->).
  set (w2 := ScreenWindow.with_windowBuffer w (Some buffer) size).
  change (ScreenWindow._bufferNeedsUpdate w2)
    with (ScreenWindow._bufferNeedsUpdate w).
  rewrite Hdirty. cbn [negb].
  change (ScreenWindow._folds w2) with (ScreenWindow._folds w).
  rewrite Hcnt.
  change (ScreenWindow.currentLine w2) with (ScreenWindow.currentLine w).
  change (ScreenWindow.endWindowLine w2) with (ScreenWindow.endWindowLine w).
  set (top := ScreenWindow.currentLine w) in *.
  assert (Hend : ScreenWindow.endWindowLine w - top + 1
                 = Z.min (ScreenWindow.windowLines w)
                         (ScreenWindow.lineCount w - top)).
  { unfold ScreenWindow.endWindowLine. fold top. rewrite qMin_min. lia. }
  assert (Hendpos : top <= ScreenWindow.endWindowLine w) by lia.
  assert (Hspec := getFilteredImage_spec w2 buffer f' size top
                     (ScreenWindow.endWindowLine w) m Hsizes Hup eq_refl).
  change (ScreenWindow.windowLines w2) with (ScreenWindow.windowLines w)
    in Hspec.
  change (ScreenWindow.windowColumns w2) with (ScreenWindow.windowColumns w)
    in Hspec.
  change (ScreenWindow.lineCount w2) with (ScreenWindow.lineCount w) in Hspec.
  fold size in Hspec.
  specialize (Hspec Hlen (Z.le_refl size) Hcols (conj Hcur0 Hendpos)).
  assert (Hstart : top <= ScreenWindow.lineCount w) by lia.
  assert (Hlimit : ScreenWindow.endWindowLine w - top + 1
                   <= ScreenWindow.windowLines w) by lia.
  specialize (Hspec Hstart Hlimit).
  rewrite Hspec. clear Hspec.
  cbn [bind]. rewrite Hend.
  change (ScreenWindow._screen w2) with (ScreenWindow._screen w).
  change (ScreenWindow.windowLines w2) with (ScreenWindow.windowLines w).
  change (ScreenWindow.lineCount w2) with (ScreenWindow.lineCount w).
  change (cursor_line w2) with (cursor_line w).
  change (ScreenWindow._windowBufferSize w2) with size.
  set (rows := take _ (drop _ _)).
  set (w3 := ScreenWindow.with_windowBuffer _ _ size).
  assert (Hrows : Z.of_nat (length rows)
                  <= Z.min (ScreenWindow.windowLines w)
                           (ScreenWindow.lineCount w)).
  { unfold rows. rewrite length_take, length_drop.
    pose proof (length_shown_lines f' (cursor_line w)
                  (ScreenWindow.lineCount w)). lia. }
  assert (Hvisible : ScreenWindow.visibleLineCount w3
                     <= ScreenWindow.lineCount w).
  { unfold ScreenWindow.visibleLineCount.
    change (ScreenWindow._folds w3) with f'.
    change (ScreenWindow.lineCount w3) with (ScreenWindow.lineCount w).
    destruct (Folds.count f' >? 0) eqn:E; [|lia].
    unfold Folds.visibleLineCount.
    destruct (Folds._enabled f'); [|lia].
    pose proof Hup as Hshape.
    apply updateVisibleLines_Ok in Hshape as (s & _ & _ & Hf').
    rewrite Hf' in Hfsize |- *. cbn [Folds._visibleLines Folds._filteredLines] in *.
    pose proof (count_le_size true (Folds.filteredLines s)). lia. }
  rewrite (fillUnusedArea_keeps_image w3 rows).
  - cbn [bind]. eexists. split; [reflexivity|]. split; reflexivity.
  - reflexivity.
  - reflexivity.
  - exact Hcols.
  - change (ScreenWindow.windowLines w3) with (ScreenWindow.windowLines w). lia.
  - change (ScreenWindow.windowLines w3) with (ScreenWindow.windowLines w).
    change (ScreenWindow.lineCount w3) with (ScreenWindow.lineCount w).
    unfold ScreenWindow.currentLine. rewrite qBound_max_min.
    change (ScreenWindow.windowLines w3) with (ScreenWindow.windowLines w).
    lia.
Qed.

(** X21.  The image of a window with folds: [getImage()] recomputes the
    visibility of the lines and shows the lines that are visible or hold the
    cursor, from the one with number [currentLine()] among them on, as many
    as the window has rows, and blank cells below them.  The fold table of
    the window is the recomputed one afterwards. *)
Theorem getImage_with_folds_shows_the_visible_lines
        (w : ScreenWindow.t) (f' : Folds.t) (m : Z) :
  ScreenWindow._filterNeedsUpdate w = false ->
  0 < Folds.count (ScreenWindow._folds w) ->
  ScreenWindow._bufferNeedsUpdate w = true ->
  buffer_sized w = true ->
  sizes_agree m (ScreenWindow._folds w) = true ->
  Folds.updateVisibleLines
    (Folds.setLineCount (ScreenWindow._folds w) (ScreenWindow.lineCount w))
  = Ok f' ->
  1 <= ScreenWindow.windowLines w ->
  0 <= ScreenWindow.windowColumns w ->
  ScreenWindow.currentLine w <= ScreenWindow.lineCount w - 1 ->
  exists w',
    ScreenWindow.getImage w = Ok w'
    /\ ScreenWindow._windowBuffer w'
       = Some (image_of
                 (ScreenWindow._screen w) (ScreenWindow.windowLines w)
                 (take (Z.to_nat (Z.min (ScreenWindow.windowLines w)
                                        (ScreenWindow.lineCount w
                                         - ScreenWindow.currentLine w)))
                       (drop (Z.to_nat (ScreenWindow.currentLine w))
                             (shown_lines f' (cursor_line w)
                                          (ScreenWindow.lineCount w)))))
    /\ ScreenWindow._folds w' = f'.
Proof.
  intros Hf Hfolds Hdirty Hsized Hsizes Hup Hlines Hcols Htop.
  apply (getImage_folds w f' m); assumption.
Qed.

Lemma getImage_with_folds_shows_the_visible_lines_witness :
  exists w',
    ScreenWindow.getImage folded_window = Ok w'
    /\ ScreenWindow._windowBuffer w'
       = Some (image_of
                 (ScreenWindow._screen folded_window)
                 (ScreenWindow.windowLines folded_window)
                 (take (Z.to_nat (Z.min (ScreenWindow.windowLines folded_window)
                                        (ScreenWindow.lineCount folded_window
                                         - ScreenWindow.currentLine
                                             folded_window)))
                       (drop (Z.to_nat (ScreenWindow.currentLine folded_window))
                             (shown_lines foo_table_scanned
                                          (cursor_line folded_window)
                                          (ScreenWindow.lineCount
                                             folded_window)))))
    /\ ScreenWindow._folds w' = foo_table_scanned.
Proof.
  apply (getImage_with_folds_shows_the_visible_lines
           folded_window foo_table_scanned 10).
  - reflexivity.
  - apply Z.ltb_lt. reflexivity.
  - reflexivity.
  - reflexivity.
  - reflexivity.
  - reflexivity.
  - apply Z.leb_le. reflexivity.
  - apply Z.leb_le. reflexivity.
  - apply Z.leb_le. reflexivity.
Defined.

Lemma setLineCount_same (f : Folds.t) (n : Z) :
  sizes_agree n f = true -> Folds.setLineCount f n = f.
Proof.
  intros Hsizes. apply sizes_agree_true in Hsizes as (Hs1 & _).
  unfold Folds.setLineCount. rewrite Hs1, Z.eqb_refl. reflexivity.
Qed.

(** X22.  Setting a pattern and asking for the image, for any pattern that is
    not empty and any screen of at least two lines: the image holds the
    lines that contain the pattern, the first line, the last line and the
    line of the cursor, in their order, from the one with number
    [filtered_top] among them on, as many as the window has rows, and blank
    cells below them.  [filtered_top] clamps the stored top line with the
    visible-line counter that the fold table held before the pattern was
    set. *)
Theorem getImage_after_setFilter_shows_the_matches
        (w : ScreenWindow.t) (filter : string) (m : Z) :
  isEmpty filter = false ->
  2 <= ScreenWindow.lineCount w ->
  sizes_agree m (ScreenWindow._folds w) = true ->
  buffer_sized w = true ->
  1 <= ScreenWindow.windowLines w ->
  0 <= ScreenWindow.windowColumns w ->
  filtered_top w <= ScreenWindow.lineCount w - 1 ->
  exists w',
    ScreenWindow.getImage (ScreenWindow.setFilter w filter) = Ok w'
    /\ ScreenWindow._windowBuffer w'
       = Some (image_of
                 (ScreenWindow._screen w) (ScreenWindow.windowLines w)
                 (take (Z.to_nat (Z.min (ScreenWindow.windowLines w)
                                        (ScreenWindow.lineCount w
                                         - filtered_top w)))
                       (drop (Z.to_nat (filtered_top w))
                             (List.filter
                                (fun j => filter_boundary w filter j
                                          || (j =? cursor_line w))
                                (seqZ 0 (ScreenWindow.lineCount w)))))).
Proof.
  intros Hne Hcount Hsizes Hsized Hlines Hcols Htop.
  set (w0 := ScreenWindow.setFilter w filter).
  destruct (createFilterFolds_spec w0 filter m Hne) as
      (folds & f' & Hrun & Hsz & Hstale & Hfolds & Hup & Hvis & _).
  { change (ScreenWindow.lineCount w0) with (ScreenWindow.lineCount w). lia. }
  { exact Hsizes. }
  change (ScreenWindow.lineCount w0) with (ScreenWindow.lineCount w) in *.
  change (ScreenWindow._folds w0) with (ScreenWindow._folds w) in Hstale.
  specialize (Hfolds Hcount).
  set (w1 := ScreenWindow.with_folds
               (ScreenWindow.with_filterNeedsUpdate w0 false) folds) in *.
  assert (Hsame : ScreenWindow.getImage w0 = ScreenWindow.getImage w1).
  { unfold ScreenWindow.getImage at 1.
    change (ScreenWindow._filterNeedsUpdate w0) with true.
    change (ScreenWindow._filter w0) with filter. cbv iota.
    rewrite Hrun. cbn [bind]. reflexivity. }
  rewrite Hsame.
  assert (Hcur : ScreenWindow.currentLine w1 = filtered_top w).
  { unfold ScreenWindow.currentLine, ScreenWindow.visibleLineCount.
    change (ScreenWindow._folds w1) with folds.
    replace (Folds.count folds >? 0) with true
      by (symmetry; rewrite Z.gtb_ltb; apply Z.ltb_lt; exact Hfolds).
    unfold Folds.visibleLineCount.
    assert (Hen : Folds._enabled folds = true).
    { unfold Folds.count in Hfolds.
      destruct (Folds._enabled folds); [reflexivity | lia]. }
    rewrite Hen, Hstale, qBound_max_min. reflexivity. }
  destruct (getImage_folds w1 f' (ScreenWindow.lineCount w))
    as (w' & Hget & Hbuf & _).
  - reflexivity.
  - exact Hfolds.
  - reflexivity.
  - exact Hsized.
  - exact Hsz.
  - change (ScreenWindow._folds w1) with folds.
    change (ScreenWindow.lineCount w1) with (ScreenWindow.lineCount w).
    rewrite (setLineCount_same folds _ Hsz). exact Hup.
  - exact Hlines.
  - exact Hcols.
  - rewrite Hcur. exact Htop.
  - exists w'. split; [exact Hget|]. rewrite Hbuf, Hcur.
    change (ScreenWindow._screen w1) with (ScreenWindow._screen w).
    change (ScreenWindow.windowLines w1) with (ScreenWindow.windowLines w).
    change (ScreenWindow.lineCount w1) with (ScreenWindow.lineCount w).
    change (cursor_line w1) with (cursor_line w).
    do 4 f_equal. unfold shown_lines.
    apply List.filter_ext_in. intros j Hj.
    apply list_elem_of_In, elem_of_seqZ in Hj.
    unfold line_shown. rewrite (Hvis j) by lia. reflexivity.
Qed.

Lemma getImage_after_setFilter_shows_the_matches_witness :
  exists w',
    ScreenWindow.getImage (ScreenWindow.setFilter small_window "foo") = Ok w'
    /\ ScreenWindow._windowBuffer w'
       = Some (image_of
                 (ScreenWindow._screen small_window)
                 (ScreenWindow.windowLines small_window)
                 (take (Z.to_nat (Z.min (ScreenWindow.windowLines small_window)
                                        (ScreenWindow.lineCount small_window
                                         - filtered_top small_window)))
                       (drop (Z.to_nat (filtered_top small_window))
                             (List.filter
                                (fun j => filter_boundary small_window "foo" j
                                          || (j =? cursor_line small_window))
                                (seqZ 0 (ScreenWindow.lineCount
                                           small_window)))))).
Proof.
  apply (getImage_after_setFilter_shows_the_matches small_window "foo" 0).
  - reflexivity.
  - apply Z.leb_le. reflexivity.
  - reflexivity.
  - reflexivity.
  - apply Z.leb_le. reflexivity.
  - apply Z.leb_le. reflexivity.
  - apply Z.leb_le. reflexivity.
Defined.

(** ** [removeAll] *)

(** X23.  [removeAll] leaves a table without folds on which every line is
    visible: [count()] is 0, [type] answers [FoldNone] for every line, in
    range or not, [setOpen] is refused everywhere, [visibleLineCount()] is
    the number of lines, and [updateVisibleLines] runs and keeps every line
    visible. *)
Theorem removeAll_leaves_no_fold (n : Z) (f : Folds.t) :
  sizes_agree n f = true ->
  let f' := Folds.removeAll f in
  Folds.count f' = 0
  /\ (forall line, Folds.type f' line = Ok Folds.FoldNone)
  /\ (forall line open, Folds.setOpen f' line open = Fault AssertFailed)
  /\ (forall line, 0 <= line < n -> Folds.isLineVisible f' line = Ok true)
  /\ Folds.visibleLineCount f' = n
  /\ exists f'',
       Folds.updateVisibleLines f' = Ok f''
       /\ Folds._visibleLines f'' = n
       /\ forall line, 0 <= line < n ->
                       Folds.isLineVisible f'' line = Ok true.
Proof.
  intros Hsizes f'.
  pose proof Hsizes as Hs.
  apply sizes_agree_true in Hs as (Hs1 & Hs2 & Hs3 & Hs4).
  split; [reflexivity|]. split; [reflexivity|]. split; [reflexivity|].
  split.
  { intros line Hline. unfold Folds.isLineVisible, f'.
    cbn [Folds.removeAll Folds._filteredLines].
    apply testBit_fill. lia. }
  split.
  { unfold Folds.visibleLineCount, f'.
    cbn [Folds.removeAll Folds._enabled Folds._filteredLines].
    rewrite size_fill. exact Hs4. }
  assert (Hblank : blank n f' = true).
  { unfold blank, f'. cbn [Folds.removeAll Folds._foldStarts Folds._foldEnds].
    rewrite !forallb_negb_fill, !andb_true_r.
    apply sizes_agree_true. cbn. rewrite !size_fill. auto. }
  destruct (updateVisibleLines_nested n [] f' eq_refl
              (blank_represents n f' Hblank))
    as (f'' & Hup & _ & _ & _ & _ & Hsize & Hcount & Hvis).
  exists f''. split; [exact Hup|]. split.
  - rewrite Hcount, <- Hsize. apply count_all.
    intros i Hi. apply (Hvis i). lia.
  - intros line Hline. apply (Hvis line Hline).
Qed.

Lemma removeAll_leaves_no_fold_witness :
  let f' := Folds.removeAll example_table_scanned in
  Folds.count f' = 0
  /\ (forall line, Folds.type f' line = Ok Folds.FoldNone)
  /\ (forall line open, Folds.setOpen f' line open = Fault AssertFailed)
  /\ (forall line, 0 <= line < 6 -> Folds.isLineVisible f' line = Ok true)
  /\ Folds.visibleLineCount f' = 6
  /\ exists f'',
       Folds.updateVisibleLines f' = Ok f''
       /\ Folds._visibleLines f'' = 6
       /\ forall line, 0 <= line < 6 ->
                       Folds.isLineVisible f'' line = Ok true.
Proof.
  apply (removeAll_leaves_no_fold 6 example_table_scanned). reflexivity.
Defined.

(** ** The size of the image *)

Lemma write_length (dest cells buffer : list Character) (offset : Z) :
  Screen.write dest offset cells = Ok buffer ->
  length buffer = length dest.
Proof.
  unfold Screen.write.
  destruct ((0 <=? offset)
            && (offset + Z.of_nat (length cells) <=? Z.of_nat (length dest)))
    eqn:E; [|discriminate].
  intros H. injection H as <-. zbool.
  rewrite !length_app, length_take, length_drop. lia.
Qed.

Lemma Screen_getImage_length (s : Screen.t) (buffer buffer' : list Character)
      (offset size startLine endLine : Z) :
  Screen.getImage s buffer offset size startLine endLine = Ok buffer' ->
  length buffer' = length buffer.
Proof.
  unfold Screen.getImage. intros H.
  apply bind_Ok in H as (_ & _ & H).
  apply bind_Ok in H as (_ & _ & H).
  apply bind_Ok in H as (_ & _ & H).
  apply write_length in H. exact H.
Qed.

Lemma fillWithDefaultChar_length (buffer buffer' : list Character)
      (offset count : Z) :
  Screen.fillWithDefaultChar buffer offset count = Ok buffer' ->
  length buffer' = length buffer.
Proof.
  unfold Screen.fillWithDefaultChar.
  destruct (count <=? 0).
  - intros H. injection H as <-. reflexivity.
  - apply write_length.
Qed.

Lemma copy_visible_length (screen : Screen.t) (folds : Folds.t)
      (cursorLine limit : Z) (n : nat) :
  forall (i : Z) (buffer buffer' : list Character) (count count' : Z),
    ScreenWindow.copy_visible screen folds cursorLine limit n i buffer count
    = Ok (buffer', count') ->
    length buffer' = length buffer.
Proof.
  induction n as [|n IH]; intros i buffer buffer' count count' H.
  - cbn in H. injection H as <- _. reflexivity.
  - cbn [ScreenWindow.copy_visible] in H.
    destruct (count <? limit).
    + apply bind_Ok in H as (visible & _ & H).
      destruct (visible || (i =? cursorLine)).
      * apply bind_Ok in H as (buffer1 & H1 & H).
        apply Screen_getImage_length in H1.
        apply IH in H. lia.
      * apply IH in H. exact H.
    + injection H as <- _. reflexivity.
Qed.

Lemma getFilteredImage_length (w w' : ScreenWindow.t) (size s e : Z)
      (buffer : list Character) :
  ScreenWindow._windowBuffer w = Some buffer ->
  ScreenWindow.getFilteredImage w size s e = Ok w' ->
  exists buffer',
    ScreenWindow._windowBuffer w' = Some buffer'
    /\ length buffer' = length buffer
    /\ ScreenWindow._windowBufferSize w' = ScreenWindow._windowBufferSize w.
Proof.
  unfold ScreenWindow.getFilteredImage. intros Hbuf H.
  apply bind_Ok in H as (_ & _ & H).
  apply bind_Ok in H as (_ & _ & H).
  apply bind_Ok in H as (folds & _ & H).
  apply bind_Ok in H as (startFrom & _ & H).
  apply bind_Ok in H as (_ & _ & H).
  apply bind_Ok in H as (buffer0 & H0 & H).
  change (ScreenWindow._windowBuffer (ScreenWindow.with_folds w folds))
    with (ScreenWindow._windowBuffer w) in H0.
  rewrite Hbuf in H0. injection H0 as <-.
  apply bind_Ok in H as ([buffer1 count] & H1 & H).
  apply copy_visible_length in H1.
  apply bind_Ok in H as (_ & _ & H).
  apply bind_Ok in H as (buffer2 & H2 & H).
  apply fillWithDefaultChar_length in H2.
  injection H as <-. exists buffer2. split; [reflexivity|].
  split; [lia | reflexivity].
Qed.

Lemma fillUnusedArea_length (w w' : ScreenWindow.t)
      (buffer : list Character) :
  ScreenWindow._windowBuffer w = Some buffer ->
  ScreenWindow.fillUnusedArea w = Ok w' ->
  exists buffer',
    ScreenWindow._windowBuffer w' = Some buffer'
    /\ length buffer' = length buffer
    /\ ScreenWindow._windowBufferSize w' = ScreenWindow._windowBufferSize w.
Proof.
  unfold ScreenWindow.fillUnusedArea. intros Hbuf H. rewrite Hbuf in H.
  cbn [bind] in H.
  apply bind_Ok in H as (buffer1 & H1 & H).
  apply fillWithDefaultChar_length in H1.
  injection H as <-. exists buffer1. split; [reflexivity|].
  split; [exact H1 | reflexivity].
Qed.

(** X24.  Whenever [getImage()] returns, the buffer it returns has
    [windowLines() * windowColumns()] cells, and [_windowBufferSize] says
    so: neither the copy of the lines nor the filling of the unused area
    changes the length of the buffer, and a buffer of another size is
    replaced before it is written. *)
Theorem getImage_returns_a_buffer_of_the_window_size
        (w w' : ScreenWindow.t) :
  buffer_sized w = true ->
  0 <= ScreenWindow.windowLines w * ScreenWindow.windowColumns w ->
  ScreenWindow.getImage w = Ok w' ->
  exists buffer,
    ScreenWindow._windowBuffer w' = Some buffer
    /\ Z.of_nat (length buffer)
       = ScreenWindow.windowLines w * ScreenWindow.windowColumns w
    /\ ScreenWindow._windowBufferSize w'
       = ScreenWindow.windowLines w * ScreenWindow.windowColumns w.
Proof.
  intros Hsized Hsize0 Hget.
  unfold ScreenWindow.getImage in Hget.
  apply bind_Ok in Hget as (w1 & H1 & Hget).
  assert (Hw1 : buffer_sized w1 = true
                /\ ScreenWindow.windowLines w1 * ScreenWindow.windowColumns w1
                   = ScreenWindow.windowLines w * ScreenWindow.windowColumns w).
  { destruct (ScreenWindow._filterNeedsUpdate w).
    - apply createFilterFolds_shape in H1. rewrite H1.
      split; [exact Hsized | reflexivity].
    - injection H1 as <-. split; [exact Hsized | reflexivity]. }
  clear H1. destruct Hw1 as [Hsized1 Hdims].
  rewrite Hdims in Hget.
  set (size := ScreenWindow.windowLines w * ScreenWindow.windowColumns w) in *.
  set (w2 := if match ScreenWindow._windowBuffer w1 with
                | Some _ => false
                | None => true
                end || negb (ScreenWindow._windowBufferSize w1 =? size)
             then ScreenWindow.with_bufferNeedsUpdate
                    (ScreenWindow.with_windowBuffer
                       w1 (Some (replicate (Z.to_nat size) DefaultChar))
                       size) true
             else w1) in *.
  assert (Hw2 : exists buffer,
             ScreenWindow._windowBuffer w2 = Some buffer
             /\ Z.of_nat (length buffer) = size
             /\ ScreenWindow._windowBufferSize w2 = size).
  { subst w2. unfold buffer_sized in Hsized1.
    destruct (ScreenWindow._windowBuffer w1) as [buffer|] eqn:Hbuf;
      cbn [orb].
    - destruct (ScreenWindow._windowBufferSize w1 =? size) eqn:Hsz;
        cbn [negb].
      + apply Z.eqb_eq in Hsz, Hsized1. exists buffer.
        split; [exact Hbuf|]. split; [lia | exact Hsz].
      + eexists. split; [reflexivity|].
        split; [rewrite length_replicate; lia | reflexivity].
    - eexists. split; [reflexivity|].
      split; [rewrite length_replicate; lia | reflexivity]. }
  clearbody w2. destruct Hw2 as (buffer2 & Hbuf2 & Hlen2 & Hsz2).
  destruct (ScreenWindow._bufferNeedsUpdate w2); cbn [negb] in Hget.
  - apply bind_Ok in Hget as (w3 & H3 & Hget).
    apply bind_Ok in Hget as (w4 & H4 & Hget).
    injection Hget as <-.
    assert (Hw3 : exists buffer3,
               ScreenWindow._windowBuffer w3 = Some buffer3
               /\ length buffer3 = length buffer2
               /\ ScreenWindow._windowBufferSize w3
                  = ScreenWindow._windowBufferSize w2).
    { destruct (Folds.count (ScreenWindow._folds w2) >? 0).
      - apply (getFilteredImage_length w2 w3 _ _ _ buffer2 Hbuf2 H3).
      - rewrite Hbuf2 in H3. cbn [bind] in H3.
        apply bind_Ok in H3 as (buffer3 & Hcopy & H3).
        apply Screen_getImage_length in Hcopy.
        injection H3 as <-. exists buffer3.
        split; [reflexivity|]. split; [exact Hcopy | reflexivity]. }
    destruct Hw3 as (buffer3 & Hbuf3 & Hlen3 & Hsz3).
    destruct (fillUnusedArea_length w3 w4 buffer3 Hbuf3 H4)
      as (buffer4 & Hbuf4 & Hlen4 & Hsz4).
    exists buffer4. split; [exact Hbuf4|].
    split; [lia|]. cbn. lia.
  - injection Hget as <-. exists buffer2.
    split; [exact Hbuf2|]. split; [exact Hlen2 | exact Hsz2].
Qed.

Lemma getImage_returns_a_buffer_of_the_window_size_witness :
  exists buffer,
    ScreenWindow._windowBuffer small_window_shown = Some buffer
    /\ Z.of_nat (length buffer)
       = ScreenWindow.windowLines small_window
         * ScreenWindow.windowColumns small_window
    /\ ScreenWindow._windowBufferSize small_window_shown
       = ScreenWindow.windowLines small_window
         * ScreenWindow.windowColumns small_window.
Proof.
  apply (getImage_returns_a_buffer_of_the_window_size
           small_window small_window_shown).
  - reflexivity.
  - apply Z.leb_le. reflexivity.
  - vm_compute. reflexivity.
Defined.
